(** * Financial news ingestion: a shallow embedding of the two fetch scripts

    Sources embedded here:
    - [deepseek-rag-financial-news/scripts/fetch_news.py]
      (class [FinancialNewsScraper]): module [Scraper];
    - [fin-news-deepseek-tuning/scripts/fetch_news.py]
      (class [NewsAPIFetcher]): module [NewsAPI].

    Python library functions the scripts call ([str] methods, [datetime],
    [datetime.strptime], [urllib.parse.urljoin], [list.sort]) are embedded
    from CPython 3.11 in modules [Py], [DateTime], [Sort], [Strptime] and
    [UrlParse].  A Python [str] is a [string] whose characters are the code
    points 0..255; exceptions are values of [exn] carried by [result].
    [strftime] is the C library's, taken here as glibc's.

    What the scripts leave to others is a parameter: BeautifulSoup, the HTTP
    session, the thread pool's completion order and the output file are the
    fields of [Scraper.World]; the news API is [NewsAPI.Api].  The clock is
    the argument [now]: [datetime.now()] is read as one instant throughout a
    call ([time.sleep] and the random delays have no counterpart). *)

From Stdlib Require Import ZArith NArith List Bool String Ascii Lia.
From Stdlib Require Import Permutation Sorted.
Import ListNotations.

Local Open Scope string_scope.
Local Open Scope Z_scope.

(** ** Python values: exceptions and strings *)
Module Py.

(** The exception classes the scripts raise, catch or let through. *)
Inductive exn : Type :=
| ValueError
| OverflowError
| RequestException
| OSError
| OtherException.

Inductive result (A : Type) : Type :=
| Ok (a : A)
| Raise (e : exn).
Arguments Ok {A} a.
Arguments Raise {A} e.

Definition bind {A B : Type} (m : result A) (k : A -> result B) : result B :=
  match m with
  | Ok a => k a
  | Raise e => Raise e
  end.

(** [try: m  except Exception as e: h e] *)
Definition try_except {A : Type} (m : result A) (h : exn -> result A) : result A :=
  match m with
  | Ok a => Ok a
  | Raise e => h e
  end.

Definition code (c : ascii) : N := N_of_ascii c.

Definition between (lo hi : N) (c : ascii) : bool :=
  ((lo <=? code c) && (code c <=? hi))%N.

(** [str.isspace] on one character; the regular expression class [\s] is the
    same set. *)
Definition isspace (c : ascii) : bool :=
  between 9 13 c || between 28 32 c || (code c =? 133)%N || (code c =? 160)%N.

(** The decimal digits [0-9]: the regular expression class [\d], and the
    characters [int] reads. *)
Definition isdecimal (c : ascii) : bool := between 48 57 c.

(** [str.isdigit] on one character: the decimal digits and the superscript
    digits U+00B2, U+00B3, U+00B9. *)
Definition isdigit (c : ascii) : bool :=
  isdecimal c || (code c =? 178)%N || (code c =? 179)%N || (code c =? 185)%N.

Definition lower_char (c : ascii) : ascii :=
  if between 65 90 c || (between 192 222 c && negb (code c =? 215)%N)
  then ascii_of_N (code c + 32)
  else c.

(** [s.lower()] *)
Fixpoint lower (s : string) : string :=
  match s with
  | EmptyString => EmptyString
  | String c s' => String (lower_char c) (lower s')
  end.

Fixpoint lstrip (s : string) : string :=
  match s with
  | EmptyString => EmptyString
  | String c s' => if isspace c then lstrip s' else s
  end.

Fixpoint rstrip (s : string) : string :=
  match s with
  | EmptyString => EmptyString
  | String c s' =>
      match rstrip s' with
      | EmptyString => if isspace c then EmptyString else String c EmptyString
      | r => String c r
      end
  end.

(** [s.strip()] *)
Definition strip (s : string) : string := rstrip (lstrip s).

(** [s.startswith(p)] *)
Definition startswith (s p : string) : bool := String.prefix p s.

(** [sub in s] *)
Fixpoint contains (sub s : string) : bool :=
  String.prefix sub s ||
  match s with
  | EmptyString => false
  | String _ s' => contains sub s'
  end.

(** [all(f(c) for c in s)] *)
Fixpoint all_chars (f : ascii -> bool) (s : string) : bool :=
  match s with
  | EmptyString => true
  | String c s' => f c && all_chars f s'
  end.

(** [''.join(filter(f, s))] *)
Fixpoint filter (f : ascii -> bool) (s : string) : string :=
  match s with
  | EmptyString => EmptyString
  | String c s' => if f c then String c (filter f s') else filter f s'
  end.

Definition digit_value (c : ascii) : Z := Z.of_N (code c) - 48.

Fixpoint int_acc (acc : Z) (s : string) : result Z :=
  match s with
  | EmptyString => Ok acc
  | String c s' =>
      if isdecimal c then int_acc (10 * acc + digit_value c) s'
      else Raise ValueError
  end.

(** [sys.get_int_max_str_digits()], as the interpreter starts with it: the
    longest numeral [int] converts. *)
Definition int_max_str_digits : Z := 4300.

(** [int(s)] for the argument the scraper gives it, a string of [str.isdigit]
    characters: the decimal value, [ValueError] on the empty string, on a
    superscript digit and on a numeral of more than [int_max_str_digits]
    digits, leading zeros counted.  (Signs, blanks and underscores, which
    [int] accepts elsewhere, cannot occur in such a string.) *)
Definition int (s : string) : result Z :=
  match s with
  | EmptyString => Raise ValueError
  | _ =>
      if int_max_str_digits <? Z.of_nat (String.length s) then Raise ValueError
      else int_acc 0 s
  end.

(** [[f(x) for x in l]] for an [f] that may raise: the first exception ends
    the loop. *)
Fixpoint map_result {A B : Type} (f : A -> result B) (l : list A) : result (list B) :=
  match l with
  | [] => Ok []
  | x :: l' =>
      match f x with
      | Ok y =>
          match map_result f l' with
          | Ok ys => Ok (y :: ys)
          | Raise e => Raise e
          end
      | Raise e => Raise e
      end
  end.

(** [s.split(sep)] for a one-character separator. *)
Fixpoint split (sep : ascii) (s : string) : list string :=
  match s with
  | EmptyString => [EmptyString]
  | String c s' =>
      if Ascii.eqb c sep then EmptyString :: split sep s'
      else match split sep s' with
           | [] => [String c EmptyString]
           | hd :: tl => String c hd :: tl
           end
  end.

(** [sep.join(l)] *)
Definition join (sep : string) (l : list string) : string := String.concat sep l.

(** [s.find(c)] as the text before the first [c] and the text after it. *)
Fixpoint partition (sep : ascii) (s : string) : option (string * string) :=
  match s with
  | EmptyString => None
  | String c s' =>
      if Ascii.eqb c sep then Some (EmptyString, s')
      else match partition sep s' with
           | Some (a, b) => Some (String c a, b)
           | None => None
           end
  end.

(** Decimal rendering with at least [width] digits ([%0Nd]). *)
Fixpoint digits_of (fuel : nat) (n : Z) : string :=
  match fuel with
  | O => EmptyString
  | S f =>
      digits_of f (n / 10) ++
      String (ascii_of_N (Z.to_N (48 + n mod 10))) EmptyString
  end.

Definition zero_pad (width : nat) (n : Z) : string := digits_of width n.

End Py.

Notation "x <- m ;; k" := (Py.bind m (fun x => k))
  (at level 61, m at next level, right associativity).
Notation "' p <- m ;; k" := (Py.bind m (fun x => match x with p => k end))
  (at level 61, p pattern, m at next level, right associativity).

(** ** [datetime]: naive datetimes and timedeltas (CPython's [datetime.py]) *)
Module DateTime.
Import Py.

Definition MINYEAR : Z := 1.
Definition MAXYEAR : Z := 9999.
Definition _MAXORDINAL : Z := 3652059.

Definition _is_leap (year : Z) : bool :=
  (year mod 4 =? 0) && (negb (year mod 100 =? 0) || (year mod 400 =? 0)).

Definition _DAYS_IN_MONTH (month : Z) : Z :=
  match month with
  | 1 => 31 | 2 => 28 | 3 => 31 | 4 => 30 | 5 => 31 | 6 => 30
  | 7 => 31 | 8 => 31 | 9 => 30 | 10 => 31 | 11 => 30 | 12 => 31
  | _ => -1
  end.

Definition _DAYS_BEFORE_MONTH (month : Z) : Z :=
  match month with
  | 1 => 0 | 2 => 31 | 3 => 59 | 4 => 90 | 5 => 120 | 6 => 151
  | 7 => 181 | 8 => 212 | 9 => 243 | 10 => 273 | 11 => 304 | 12 => 334
  | _ => -1
  end.

Definition _days_before_year (year : Z) : Z :=
  let y := year - 1 in
  y * 365 + y / 4 - y / 100 + y / 400.

Definition _days_in_month (year month : Z) : Z :=
  if (month =? 2) && _is_leap year then 29 else _DAYS_IN_MONTH month.

Definition _days_before_month (year month : Z) : Z :=
  _DAYS_BEFORE_MONTH month + (if (2 <? month) && _is_leap year then 1 else 0).

Definition _ymd2ord (year month day : Z) : Z :=
  _days_before_year year + _days_before_month year month + day.

Definition _DI400Y : Z := 146097.
Definition _DI100Y : Z := 36524.
Definition _DI4Y : Z := 1461.

Definition _ord2ymd (n : Z) : Z * Z * Z :=
  let n := n - 1 in
  let n400 := n / _DI400Y in
  let n := n mod _DI400Y in
  let year := n400 * 400 + 1 in
  let n100 := n / _DI100Y in
  let n := n mod _DI100Y in
  let n4 := n / _DI4Y in
  let n := n mod _DI4Y in
  let n1 := n / 365 in
  let n := n mod 365 in
  let year := year + n100 * 100 + n4 * 4 + n1 in
  if (n1 =? 4) || (n100 =? 4) then (year - 1, 12, 31)
  else
    let leapyear := (n1 =? 3) && (negb (n4 =? 24) || (n100 =? 3)) in
    let month := Z.shiftr (n + 50) 5 in
    let preceding :=
      _DAYS_BEFORE_MONTH month + (if (2 <? month) && leapyear then 1 else 0) in
    if n <? preceding then
      let month := month - 1 in
      let preceding :=
        preceding - (_DAYS_IN_MONTH month
                     + (if (month =? 2) && leapyear then 1 else 0)) in
      (year, month, n - preceding + 1)
    else (year, month, n - preceding + 1).

(** A naive [datetime] (no [tzinfo]). *)
Record datetime : Type := mk_datetime {
  year : Z;
  month : Z;
  day : Z;
  hour : Z;
  minute : Z;
  second : Z;
  microsecond : Z
}.

Definition _check_date_fields (y m d : Z) : bool :=
  (MINYEAR <=? y) && (y <=? MAXYEAR) && (1 <=? m) && (m <=? 12)
  && (1 <=? d) && (d <=? _days_in_month y m).

Definition _check_time_fields (hh mm ss us : Z) : bool :=
  (0 <=? hh) && (hh <=? 23) && (0 <=? mm) && (mm <=? 59)
  && (0 <=? ss) && (ss <=? 59) && (0 <=? us) && (us <=? 999999).

(** The fields of a datetime object that Python can hold. *)
Definition valid (t : datetime) : bool :=
  _check_date_fields (year t) (month t) (day t)
  && _check_time_fields (hour t) (minute t) (second t) (microsecond t).

(** [datetime(y, m, d, hh, mm, ss, us)]: [ValueError] on a field out of range. *)
Definition datetime_new (y m d hh mm ss us : Z) : result datetime :=
  if _check_date_fields y m d && _check_time_fields hh mm ss us
  then Ok (mk_datetime y m d hh mm ss us)
  else Raise ValueError.

(** [t.replace(year=y)] *)
Definition replace_year (t : datetime) (y : Z) : result datetime :=
  datetime_new y (month t) (day t) (hour t) (minute t) (second t) (microsecond t).

Definition toordinal (t : datetime) : Z := _ymd2ord (year t) (month t) (day t).

(** A normalised [timedelta]: [0 <= seconds < 86400], [0 <= microseconds < 10^6]. *)
Record timedelta : Type := mk_timedelta {
  days : Z;
  seconds : Z;
  microseconds : Z
}.

(** [timedelta(days=, seconds=, microseconds=, minutes=, hours=, weeks=)] on
    integer arguments. *)
Definition timedelta_new (days seconds microseconds minutes hours weeks : Z)
  : result timedelta :=
  let days := days + weeks * 7 in
  let seconds := seconds + minutes * 60 + hours * 3600 in
  let d := days in
  let d := d + seconds / 86400 in
  let s := seconds mod 86400 in
  let seconds' := microseconds / 1000000 in
  let microseconds' := microseconds mod 1000000 in
  let d := d + seconds' / 86400 in
  let s := s + seconds' mod 86400 in
  let us := microseconds' mod 1000000 in
  let s := s + microseconds' / 1000000 in
  let d := d + s / 86400 in
  let s := s mod 86400 in
  if 999999999 <? Z.abs d then Raise OverflowError
  else Ok (mk_timedelta d s us).

(** [-delta] *)
Definition timedelta_neg (delta : timedelta) : result timedelta :=
  timedelta_new (- days delta) (- seconds delta) (- microseconds delta) 0 0 0.

(** [a + b] on timedeltas *)
Definition timedelta_add (a b : timedelta) : result timedelta :=
  timedelta_new (days a + days b) (seconds a + seconds b)
    (microseconds a + microseconds b) 0 0 0.

(** [t + other]: [OverflowError] when the day leaves [1 .. _MAXORDINAL]. *)
Definition datetime_add (t : datetime) (other : timedelta) : result datetime :=
  delta <- timedelta_new (toordinal t) (second t) (microsecond t)
             (minute t) (hour t) 0 ;;
  delta <- timedelta_add delta other ;;
  let hour := seconds delta / 3600 in
  let rem := seconds delta mod 3600 in
  let minute := rem / 60 in
  let second := rem mod 60 in
  if (0 <? days delta) && (days delta <=? _MAXORDINAL) then
    let '(y, m, d) := _ord2ymd (days delta) in
    Ok (mk_datetime y m d hour minute second (microseconds delta))
  else Raise OverflowError.

(** [t - other], which Python computes as [t + -other]. *)
Definition datetime_sub (t : datetime) (other : timedelta) : result datetime :=
  neg <- timedelta_neg other ;;
  datetime_add t neg.

Definition _format_time (hh mm ss us : Z) : string :=
  zero_pad 2 hh ++ ":" ++ zero_pad 2 mm ++ ":" ++ zero_pad 2 ss
  ++ (if us =? 0 then "" else "." ++ zero_pad 6 us).

(** [t.isoformat()] *)
Definition isoformat (t : datetime) : string :=
  zero_pad 4 (year t) ++ "-" ++ zero_pad 2 (month t) ++ "-"
  ++ zero_pad 2 (day t) ++ "T"
  ++ _format_time (hour t) (minute t) (second t) (microsecond t).

End DateTime.

(** ** [list.sort(key=..., reverse=True)] and [sorted(..., reverse=True)]

    Python's sort is stable, and [reverse=True] keeps elements with equal
    keys in their original order.  The embedding is a stable insertion sort,
    largest key first. *)
Module Sort.

Section WithKey.
Context {A K : Type} (key : A -> K) (leb : K -> K -> bool).

(** [x] goes in front of the first element whose key is not above its own. *)
Fixpoint insert_desc (x : A) (l : list A) : list A :=
  match l with
  | [] => [x]
  | y :: l' =>
      if leb (key y) (key x) then x :: y :: l'
      else y :: insert_desc x l'
  end.

Fixpoint sort_desc (l : list A) : list A :=
  match l with
  | [] => []
  | x :: l' => insert_desc x (sort_desc l')
  end.

End WithKey.

End Sort.

(** ** [datetime.strptime] (CPython's [_strptime.py], C locale)

    A format is compiled to a regular expression, matched at the start of the
    text with [re.IGNORECASE]; the first match in the expression's backtracking
    order is the one taken, and text left after it is a [ValueError]. *)
Module Strptime.
Import Py DateTime.

(** One piece of the compiled expression. *)
Inductive item : Type :=
| Directive (d : ascii)
| Whitespace
| Literal (c : ascii).

(** [TimeRE.pattern]: a run of blanks becomes [\s+], [%x] the expression of
    directive [x], any other character itself.  [None] is the stray [%] at the
    end of a format. *)
Fixpoint pattern_from (after_blank : bool) (format : string) : option (list item) :=
  match format with
  | EmptyString => Some []
  | String c rest =>
      if isspace c then
        if after_blank then pattern_from true rest
        else option_map (cons Whitespace) (pattern_from true rest)
      else if Ascii.eqb c "%" then
        match rest with
        | EmptyString => None
        | String d rest' => option_map (cons (Directive d)) (pattern_from false rest')
        end
      else option_map (cons (Literal c)) (pattern_from false rest)
  end.

Definition pattern (format : string) : option (list item) := pattern_from false format.

(** A one-character class, and an alternative as a sequence of classes. *)
Definition class : Type := ascii -> bool.

Definition chr (c : ascii) : class := fun x => Ascii.eqb (lower_char x) (lower_char c).
Definition range (lo hi : ascii) : class := fun x => between (code lo) (code hi) x.
Definition digit : class := isdecimal.

Fixpoint word (w : string) : list class :=
  match w with
  | EmptyString => []
  | String c w' => chr c :: word w'
  end.

Definition a_month : list string :=
  ["jan"; "feb"; "mar"; "apr"; "may"; "jun"; "jul"; "aug"; "sep"; "oct"; "nov"; "dec"].

Definition f_month : list string :=
  ["january"; "february"; "march"; "april"; "may"; "june"; "july"; "august";
   "september"; "october"; "november"; "december"].

(** [__seqToRE]: the names, longest first. *)
Definition seqToRE (names : list string) : list (list class) :=
  map word (Sort.sort_desc String.length Nat.leb names).

(** The expression of each directive the scraper's formats use, as its
    alternatives in order; [None] is a bad directive. *)
Definition directive (d : ascii) : option (list (list class)) :=
  if Ascii.eqb d "Y" then Some [[digit; digit; digit; digit]]
  else if Ascii.eqb d "m" then
    Some [[chr "1"; range "0" "2"]; [chr "0"; range "1" "9"]; [range "1" "9"]]
  else if Ascii.eqb d "d" then
    Some [[chr "3"; range "0" "1"]; [range "1" "2"; digit]; [chr "0"; range "1" "9"];
          [range "1" "9"]; [chr " "; range "1" "9"]]
  else if Ascii.eqb d "b" then Some (seqToRE a_month)
  else if Ascii.eqb d "B" then Some (seqToRE f_month)
  else None.

(** The text an alternative matches at the start of [s], and what follows. *)
Fixpoint match_seq (cs : list class) (s : string) : option (string * string) :=
  match cs with
  | [] => Some (EmptyString, s)
  | c :: cs' =>
      match s with
      | EmptyString => None
      | String x s' =>
          if c x then
            match match_seq cs' s' with
            | Some (m, r) => Some (String x m, r)
            | None => None
            end
          else None
      end
  end.

Section Backtracking.
Context {R : Type}.

(** The alternatives in order: the first one after which the rest of the
    expression ([k]) matches too. *)
Fixpoint first_alt (alts : list (list class)) (k : string -> string -> option R)
  (s : string) : option R :=
  match alts with
  | [] => None
  | a :: alts' =>
      match match_seq a s with
      | Some (m, r) =>
          match k m r with
          | Some res => Some res
          | None => first_alt alts' k s
          end
      | None => first_alt alts' k s
      end
  end.

(** [\s+], greedy: as many blanks as possible first. *)
Fixpoint spaces_then (k : string -> option R) (s : string) : option R :=
  match s with
  | EmptyString => None
  | String c s' =>
      if isspace c then
        match spaces_then k s' with
        | Some res => Some res
        | None => k s'
        end
      else None
  end.

End Backtracking.

(** The groups of a match, latest first. *)
Definition groups : Type := list (ascii * string).

(** [format_regex.match(data_string)]: the groups and the unmatched rest. *)
Fixpoint re_match (items : list item) (found : groups) (s : string)
  : option (groups * string) :=
  match items with
  | [] => Some (found, s)
  | Literal c :: items' =>
      match s with
      | EmptyString => None
      | String x s' => if chr c x then re_match items' found s' else None
      end
  | Whitespace :: items' => spaces_then (re_match items' found) s
  | Directive d :: items' =>
      match directive d with
      | None => None
      | Some alts => first_alt alts (fun m r => re_match items' ((d, m) :: found) r) s
      end
  end.

Fixpoint lookup (d : ascii) (found : groups) : option string :=
  match found with
  | [] => None
  | (d', m) :: found' => if Ascii.eqb d d' then Some m else lookup d found'
  end.

(** [names.index(w) + 1], the month number of a name ([0] when absent). *)
Fixpoint month_index (w : string) (names : list string) : Z :=
  match names with
  | [] => 0
  | n :: names' =>
      if String.eqb w n then 1
      else let i := month_index w names' in if i =? 0 then 0 else i + 1
  end.

Fixpoint all_directives (items : list item) : bool :=
  match items with
  | [] => true
  | Directive d :: items' =>
      match directive d with Some _ => all_directives items' | None => false end
  | _ :: items' => all_directives items'
  end.

(** [int] of a numeric group, which may start with the blank of [%d]. *)
Definition int_group (found : groups) (d : ascii) : result (option Z) :=
  match lookup d found with
  | None => Ok None
  | Some m => v <- int (lstrip m) ;; Ok (Some v)
  end.

(** [datetime.strptime(data_string, format)].  Every failure is a
    [ValueError]: a bad format, no match, text left over, or a date that does
    not exist. *)
Definition strptime (data_string format : string) : result datetime :=
  match pattern format with
  | None => Raise ValueError
  | Some items =>
      if negb (all_directives items) then Raise ValueError else
      match re_match items [] data_string with
      | None => Raise ValueError
      | Some (found, rest) =>
          if negb (String.eqb rest "") then Raise ValueError else
          year <- int_group found "Y" ;;
          m <- int_group found "m" ;;
          d <- int_group found "d" ;;
          let month :=
            match lookup "b" found, lookup "B" found, m with
            | Some w, _, _ => month_index (lower w) a_month
            | None, Some w, _ => month_index (lower w) f_month
            | None, None, Some v => v
            | None, None, None => 1
            end in
          let day := match d with Some v => v | None => 1 end in
          let leap_year_fix :=
            match year with
            | None => (month =? 2) && (day =? 29)
            | Some _ => false
            end in
          let year' :=
            match year with
            | Some y => y
            | None => if leap_year_fix then 1904 else 1900
            end in
          (* date(year, month, day).toordinal(), for the day of the year *)
          _ <- datetime_new year' month day 0 0 0 0 ;;
          let year' := if leap_year_fix then 1900 else year' in
          datetime_new year' month day 0 0 0 0
      end
  end.

(** The expressions of [%Y], [%m] and [%d], by name. *)
Definition year_alts : list (list class) := [[digit; digit; digit; digit]].

Definition month_alts : list (list class) :=
  [[chr "1"; range "0" "2"]; [chr "0"; range "1" "9"]; [range "1" "9"]].

Definition day_alts : list (list class) :=
  [[chr "3"; range "0" "1"]; [range "1" "2"; digit]; [chr "0"; range "1" "9"];
   [range "1" "9"]; [chr " "; range "1" "9"]].

End Strptime.

(** ** [urllib.parse.urljoin] (CPython's [urllib/parse.py]) *)
Module UrlParse.
Import Py.

Definition uses_relative : list string :=
  [""; "ftp"; "http"; "gopher"; "nntp"; "imap"; "wais"; "file"; "https";
   "shttp"; "mms"; "prospero"; "rtsp"; "rtspu"; "sftp"; "svn"; "svn+ssh";
   "ws"; "wss"].

Definition uses_netloc : list string :=
  [""; "ftp"; "http"; "gopher"; "nntp"; "telnet"; "imap"; "wais"; "file";
   "mms"; "https"; "shttp"; "snews"; "prospero"; "rtsp"; "rtspu"; "rsync";
   "svn"; "svn+ssh"; "sftp"; "nfs"; "git"; "git+ssh"; "ws"; "wss"].

Definition uses_params : list string :=
  [""; "ftp"; "hdl"; "prospero"; "http"; "imap"; "https"; "shttp"; "rtsp";
   "rtspu"; "sip"; "sips"; "mms"; "sftp"; "tel"].

(** [x in l] for a list of strings *)
Definition mem (x : string) (l : list string) : bool :=
  existsb (String.eqb x) l.

(** [c in s] for a character *)
Fixpoint has (c : ascii) (s : string) : bool :=
  match s with
  | EmptyString => false
  | String x s' => Ascii.eqb x c || has c s'
  end.

Definition is_alpha (c : ascii) : bool := between 65 90 c || between 97 122 c.

(** Membership in [scheme_chars] *)
Definition scheme_char (c : ascii) : bool :=
  is_alpha c || isdecimal c || Ascii.eqb c "+" || Ascii.eqb c "-" || Ascii.eqb c ".".

(** Membership in [_WHATWG_C0_CONTROL_OR_SPACE] *)
Definition c0_or_space (c : ascii) : bool := (code c <=? 32)%N.

Fixpoint lstrip_c0 (s : string) : string :=
  match s with
  | EmptyString => EmptyString
  | String c s' => if c0_or_space c then lstrip_c0 s' else s
  end.

Fixpoint rstrip_c0 (s : string) : string :=
  match s with
  | EmptyString => EmptyString
  | String c s' =>
      match rstrip_c0 s' with
      | EmptyString => if c0_or_space c then EmptyString else String c EmptyString
      | r => String c r
      end
  end.

(** Membership in [_UNSAFE_URL_BYTES_TO_REMOVE]: tab, carriage return, newline *)
Definition unsafe_byte (c : ascii) : bool :=
  (code c =? 9)%N || (code c =? 13)%N || (code c =? 10)%N.

Definition remove_unsafe (s : string) : string :=
  filter (fun c => negb (unsafe_byte c)) s.

(** [_splitnetloc(url, 2)] on what follows the two slashes: the text before
    the first of [/], [?], [#], and the text from there on. *)
Fixpoint _splitnetloc (s : string) : string * string :=
  match s with
  | EmptyString => (EmptyString, EmptyString)
  | String c s' =>
      if Ascii.eqb c "/" || Ascii.eqb c "?" || Ascii.eqb c "#" then (EmptyString, s)
      else let '(n, r) := _splitnetloc s' in (String c n, r)
  end.

Record SplitResult : Type := mk_split {
  s_scheme : string;
  s_netloc : string;
  s_path : string;
  s_query : string;
  s_fragment : string
}.

Record ParseResult : Type := mk_parse {
  scheme : string;
  netloc : string;
  path : string;
  params : string;
  query : string;
  fragment : string
}.

Section WithHostCheck.
(** [_check_bracketed_netloc]: whether a network location holding both [[]
    and []] passes the library's IPv6 / IPvFuture validation (left to the
    library). *)
Variable bracketed_netloc_ok : string -> bool.

(** [urlsplit(url, scheme)]; [_checknetloc] never fires on code points below
    256 and is left out. *)
Definition urlsplit (url scheme : string) : result SplitResult :=
  let url := lstrip_c0 url in
  let scheme := rstrip_c0 (lstrip_c0 scheme) in
  let url := remove_unsafe url in
  let scheme := remove_unsafe scheme in
  let '(scheme, url) :=
    match partition ":" url with
    | Some (String c0 more, rest) =>
        if is_alpha c0 && all_chars scheme_char (String c0 more)
        then (lower (String c0 more), rest)
        else (scheme, url)
    | _ => (scheme, url)
    end in
  '(netloc, url) <-
    (match url with
     | String "/" (String "/" after) =>
         let '(netloc, rest) := _splitnetloc after in
         if (has "[" netloc && negb (has "]" netloc))
            || (has "]" netloc && negb (has "[" netloc))
         then Raise ValueError
         else if has "[" netloc && has "]" netloc && negb (bracketed_netloc_ok netloc)
         then Raise ValueError
         else Ok (netloc, rest)
     | _ => Ok (EmptyString, url)
     end) ;;
  let '(url, fragment) :=
    match partition "#" url with
    | Some (a, b) => (a, b)
    | None => (url, EmptyString)
    end in
  let '(url, query) :=
    match partition "?" url with
    | Some (a, b) => (a, b)
    | None => (url, EmptyString)
    end in
  Ok (mk_split scheme netloc url query fragment).

(** The text up to and including the last [/], and the text after it. *)
Fixpoint rsplit_slash (s : string) : string * string :=
  match s with
  | EmptyString => (EmptyString, EmptyString)
  | String c s' =>
      let '(a, b) := rsplit_slash s' in
      if has "/" s' then (String c a, b)
      else if Ascii.eqb c "/" then (String c EmptyString, s')
      else (EmptyString, s)
  end.

(** [_splitparams(url)]: the first [;] after the last [/]. *)
Definition _splitparams (url : string) : string * string :=
  let '(dir, tail) := rsplit_slash url in
  match partition ";" tail with
  | Some (a, b) => (dir ++ a, b)
  | None => (url, EmptyString)
  end.

(** [urlparse(url, scheme)] *)
Definition urlparse (url scheme : string) : result ParseResult :=
  r <- urlsplit url scheme ;;
  let '(url, params) :=
    if mem (s_scheme r) uses_params && has ";" (s_path r)
    then _splitparams (s_path r)
    else (s_path r, EmptyString) in
  Ok (mk_parse (s_scheme r) (s_netloc r) url params (s_query r) (s_fragment r)).

End WithHostCheck.

Definition nonempty (s : string) : bool := negb (String.eqb s "").

(** [urlunsplit((scheme, netloc, url, query, fragment))] *)
Definition urlunsplit (scheme netloc url query fragment : string) : string :=
  let url :=
    if nonempty netloc
       || (nonempty scheme && mem scheme uses_netloc && negb (startswith url "//"))
    then "//" ++ netloc ++ (if nonempty url && negb (startswith url "/")
                            then "/" ++ url else url)
    else url in
  let url := if nonempty scheme then scheme ++ ":" ++ url else url in
  let url := if nonempty query then url ++ "?" ++ query else url in
  if nonempty fragment then url ++ "#" ++ fragment else url.

(** [urlunparse((scheme, netloc, url, params, query, fragment))] *)
Definition urlunparse (scheme netloc url params query fragment : string) : string :=
  let url := if nonempty params then url ++ ";" ++ params else url in
  urlunsplit scheme netloc url query fragment.

(** [segments[1:-1] = filter(None, segments[1:-1])] *)
Definition drop_empty_middle (segments : list string) : list string :=
  match segments with
  | [] => []
  | first :: rest =>
      match rest with
      | [] => [first]
      | _ => first :: List.filter nonempty (removelast rest) ++ [last rest ""]
      end
  end.

(** The loop over [segments]; [resolved] is [resolved_path], last item first. *)
Fixpoint resolve (segments resolved : list string) : list string :=
  match segments with
  | [] => rev resolved
  | seg :: segments' =>
      if String.eqb seg ".." then resolve segments' (tl resolved)
      else if String.eqb seg "." then resolve segments' resolved
      else resolve segments' (seg :: resolved)
  end.

Section Join.
Variable bracketed_netloc_ok : string -> bool.

(** [urljoin(base, url)] *)
Definition urljoin (base url : string) : result string :=
  if negb (nonempty base) then Ok url
  else if negb (nonempty url) then Ok base
  else
    b <- urlparse bracketed_netloc_ok base "" ;;
    u <- urlparse bracketed_netloc_ok url (scheme b) ;;
    if negb (String.eqb (scheme u) (scheme b)) || negb (mem (scheme u) uses_relative)
    then Ok url
    else if mem (scheme u) uses_netloc && nonempty (netloc u)
    then Ok (urlunparse (scheme u) (netloc u) (path u) (params u) (query u) (fragment u))
    else
      let netloc' := if mem (scheme u) uses_netloc then netloc b else netloc u in
      if negb (nonempty (path u)) && negb (nonempty (params u))
      then
        let query' := if nonempty (query u) then query u else query b in
        Ok (urlunparse (scheme u) netloc' (path b) (params b) query' (fragment u))
      else
        let base_parts := split "/" (path b) in
        let base_parts :=
          if nonempty (last base_parts "") then removelast base_parts
          else base_parts in
        let segments :=
          if startswith (path u) "/" then split "/" (path u)
          else drop_empty_middle (base_parts ++ split "/" (path u)) in
        let resolved_path := resolve segments [] in
        let resolved_path :=
          if String.eqb (last segments "") "." || String.eqb (last segments "") ".."
          then (resolved_path ++ [""])%list else resolved_path in
        let joined := join "/" resolved_path in
        Ok (urlunparse (scheme u) netloc'
              (if nonempty joined then joined else "/")
              (params u) (query u) (fragment u)).

End Join.

(** The two steps of [urlsplit] that look for a scheme and for a network
    location, by name. *)
Definition detect_scheme (scheme url : string) : string * string :=
  match partition ":" url with
  | Some (String c0 more, rest) =>
      if is_alpha c0 && all_chars scheme_char (String c0 more)
      then (lower (String c0 more), rest)
      else (scheme, url)
  | _ => (scheme, url)
  end.

Definition detect_netloc (ok : string -> bool) (url : string)
  : result (string * string) :=
  match url with
  | String "/" (String "/" after) =>
      let '(netloc, rest) := _splitnetloc after in
      if (has "[" netloc && negb (has "]" netloc))
         || (has "]" netloc && negb (has "[" netloc))
      then Raise ValueError
      else if has "[" netloc && has "]" netloc && negb (ok netloc)
      then Raise ValueError
      else Ok (netloc, rest)
  | _ => Ok (EmptyString, url)
  end.

(** [scheme://netloc] of a parsed URL. *)
Definition origin (b : ParseResult) : string := scheme b ++ "://" ++ netloc b.

(** A character of a plain path: not a tab or line break, and none of the
    marks that start a fragment, a query or parameters. *)
Definition path_char (c : ascii) : bool :=
  negb (unsafe_byte c || Ascii.eqb c "#" || Ascii.eqb c "?" || Ascii.eqb c ";").

(** A link from the root of the site: a slash, not followed by a second
    one, then plain path characters, with no segment [.] or [..]. *)
Definition root_relative (href : string) : Prop :=
  exists p, href = String "/" p
            /\ startswith p "/" = false
            /\ all_chars path_char p = true
            /\ Forall (fun seg => seg <> "." /\ seg <> "..") (split "/" p).

(** The same as a test. *)
Definition is_root_relative (href : string) : bool :=
  match href with
  | String "/" p =>
      negb (startswith p "/") && all_chars path_char p
      && forallb (fun seg => negb (String.eqb seg ".") && negb (String.eqb seg ".."))
           (split "/" p)
  | _ => false
  end.

End UrlParse.

(** ** [deepseek-rag-financial-news/scripts/fetch_news.py] *)
Module Scraper.
Import Py DateTime UrlParse.

(** An entry of [SOURCES]. *)
Record source_config : Type := mk_source {
  name : string;
  url : string;
  article_selector : string;
  title_selector : string;
  link_selector : string;
  summary_selector : option string;
  date_selector : option string
}.

(** The article dictionary built by [_scrape_source]; [content] is [None]
    until [fetch_article_content] fills it. *)
Record article : Type := mk_article {
  source_id : string;
  source_name : string;
  title : string;
  description : string;
  article_url : string;
  publishedAt : string;
  content : option string
}.

Definition SOURCES : list (string * source_config) :=
  [ ("yahoo_finance",
     mk_source "Yahoo Finance" "https://finance.yahoo.com/news/"
       "div.Ov\(h\).Pend\(44px\).Pstart\(25px\)" "h3" "a"
       (Some "p") (Some "span.C\(#959595\)"));
    ("cnbc",
     mk_source "CNBC" "https://www.cnbc.com/world/?region=world"
       ".Card-standardBreakerCard, .Card-card" ".Card-title" "a"
       (Some ".Card-description") (Some "time"));
    ("seeking_alpha",
     mk_source "Seeking Alpha" "https://seekingalpha.com/market-news"
       "div.media-preview-content" "a.media-link" "a.media-link"
       (Some "p.media-preview-summary") (Some "span.media-date"));
    ("finviz",
     mk_source "Finviz" "https://finviz.com/news.ashx"
       "tr.nn" "a.nn-tab-link" "a.nn-tab-link"
       None (Some "td.nn-date"));
    ("market_watch_latest",
     mk_source "MarketWatch Latest" "https://www.marketwatch.com/latest-news?mod=top_nav"
       "div.article__content" "h3.article__headline" "a"
       (Some "p.article__summary") (Some ".article__timestamp"));
    ("bloomberg",
     mk_source "Bloomberg" "https://www.bloomberg.com/markets"
       "article.story-list-story" "h3.story-list-story__headline"
       "a.story-list-story__info__headline-link"
       (Some "p.story-list-story__summary") (Some "time.story-list-story__time"));
    ("investing_analysis",
     mk_source "Investing.com Analysis"
       "https://www.investing.com/analysis/most-popular-analysis"
       "article.articleItem" ".title" "a.title" (Some "p") (Some ".date"));
    ("zacks",
     mk_source "Zacks" "https://www.zacks.com/stock-market-today"
       ".commentary_module_row" "a" "a" (Some "p") (Some ".date_time")) ].

(** [SOURCES[source_id]] *)
Fixpoint lookup_source (registry : list (string * source_config)) (id : string)
  : option source_config :=
  match registry with
  | [] => None
  | (k, cfg) :: registry' =>
      if String.eqb k id then Some cfg else lookup_source registry' id
  end.

(** What the scraper does not implement itself: BeautifulSoup (parsing,
    CSS selection, text), the HTTP session, the library's check of a bracketed
    host, the order in which the thread pool's futures complete, and the
    output file.  Every call of BeautifulSoup may raise (the parser on a
    document, soupsieve on a selector it does not accept). *)
Class World : Type := {
  tag : Type;
  (** [BeautifulSoup(html, 'html.parser')] *)
  BeautifulSoup : string -> result tag;
  (** [t.select(selector)], in document order *)
  select : tag -> string -> result (list tag);
  (** [t.select_one(selector)] *)
  select_one : tag -> string -> result (option tag);
  (** [t.find_all(name)] *)
  find_all : tag -> string -> result (list tag);
  (** [for element in soup(names): element.decompose()] *)
  decompose : tag -> list string -> result tag;
  (** [t.get_text(separator)] *)
  get_text : tag -> string -> result string;
  (** [t[a]] when [t.has_attr(a)], [None] otherwise *)
  attr : tag -> string -> result (option string);
  (** [self.scraper.get(url, ...)] followed by [raise_for_status()] and
      [.text], at a given attempt *)
  scraper_get : string -> nat -> result string;
  bracketed_netloc_ok : string -> bool;
  (** [concurrent.futures.as_completed]: the submitted sources in the order
      their futures finish *)
  as_completed : list string -> list string;
  as_completed_perm : forall l, Permutation (as_completed l) l;
  (** [open(path, 'w')] with [json.dump]: [None] when the file was written,
      the exception otherwise *)
  json_dump : string -> list article -> option exn
}.

Definition output_file : string := "data/raw_news.json".

Definition formats : list string :=
  ["%Y-%m-%d"; "%b %d, %Y"; "%d %b %Y"; "%B %d, %Y"; "%d %B %Y";
   "%m/%d/%Y"; "%d/%m/%Y"; "%Y/%m/%d"; "%m-%d-%Y"; "%d-%m-%Y";
   "%b %d"; "%d %b"; "%B %d"; "%d %B"].

(** The loop over the formats in [_parse_date]: the first format that parses
    decides; a [ValueError] moves on to the next one. *)
Fixpoint try_formats (now : datetime) (date_text : string) (fmts : list string)
  : result string :=
  match fmts with
  | [] => Ok (isoformat now)
  | fmt :: fmts' =>
      let attempt :=
        parsed_date <- Strptime.strptime (strip date_text) fmt ;;
        parsed_date <-
          (if year parsed_date =? 1900
           then replace_year parsed_date (year now)
           else Ok parsed_date) ;;
        Ok (isoformat parsed_date) in
      match attempt with
      | Ok s => Ok s
      | Raise ValueError => try_formats now date_text fmts'
      | Raise e => Raise e
      end
  end.

(** The body of the [try] in [_parse_date]; [now] is [datetime.now()]. *)
Definition _parse_date_try (now : datetime) (date_text : string) : result string :=
  let date_text := strip (lower date_text) in
  if contains "ago" date_text then
    date <-
      (if contains "minute" date_text || contains "min" date_text then
         minutes <- int (filter isdigit date_text) ;;
         delta <- timedelta_new 0 0 0 minutes 0 0 ;;
         datetime_sub now delta
       else if contains "hour" date_text || contains "hr" date_text then
         hours <- int (filter isdigit date_text) ;;
         delta <- timedelta_new 0 0 0 0 hours 0 ;;
         datetime_sub now delta
       else if contains "day" date_text then
         days <- int (filter isdigit date_text) ;;
         delta <- timedelta_new days 0 0 0 0 0 ;;
         datetime_sub now delta
       else if contains "week" date_text then
         weeks <- int (filter isdigit date_text) ;;
         delta <- timedelta_new 0 0 0 0 0 weeks ;;
         datetime_sub now delta
       else if contains "month" date_text then
         months <- int (filter isdigit date_text) ;;
         delta <- timedelta_new (30 * months) 0 0 0 0 0 ;;
         datetime_sub now delta
       else Ok now) ;;
    Ok (isoformat date)
  else if contains "today" date_text then Ok (isoformat now)
  else if contains "yesterday" date_text then
    delta <- timedelta_new 1 0 0 0 0 0 ;;
    date <- datetime_sub now delta ;;
    Ok (isoformat date)
  else try_formats now date_text formats.

(** [_parse_date]: the [except Exception] handler returns the current time. *)
Definition _parse_date (now : datetime) (date_text : string) : string :=
  match _parse_date_try now date_text with
  | Ok s => s
  | Raise _ => isoformat now
  end.

Section WithWorld.
Context {W : World}.

(** The retry loop of [_make_request]: [attempt] is the loop variable and
    [remaining] the attempts left, out of [max_retries = 3]. *)
Fixpoint _make_request_from (remaining attempt : nat) (url : string)
  : result (option string) :=
  match remaining with
  | O => Ok None
  | S remaining' =>
      match scraper_get url attempt with
      | Ok text => Ok (Some text)
      | Raise RequestException =>
          match remaining' with
          | O => Ok None
          | S _ => _make_request_from remaining' (S attempt) url
          end
      | Raise e => Raise e
      end
  end.

Definition _make_request (url : string) : result (option string) :=
  _make_request_from 3 0 url.

(** A selector of the configuration that is neither [None] nor empty. *)
Definition given (selector : option string) : option string :=
  match selector with
  | Some s => if nonempty s then Some s else None
  | None => None
  end.

(** The body of the loop of [_scrape_source] for one candidate element:
    [Ok None] is [continue], [Raise] what the [except] of the loop catches.
    A BeautifulSoup tag is true whatever it holds, so [if not element] is the
    test for [None]. *)
Definition scrape_article (now : datetime) (source_id : string)
  (source_config : source_config) (article : tag) : result (option Scraper.article) :=
  title_element <- select_one article (title_selector source_config) ;;
  match title_element with
  | None => Ok None
  | Some title_element =>
      title <- get_text title_element "" ;;
      let title := strip title in
      link_element <- select_one article (link_selector source_config) ;;
      match link_element with
      | None => Ok None
      | Some link_element =>
          href <- attr link_element "href" ;;
          match href with
          | None => Ok None
          | Some link =>
              link <-
                (if startswith link "http://" || startswith link "https://"
                 then Ok link
                 else urljoin bracketed_netloc_ok (url source_config) link) ;;
              summary <-
                match given (summary_selector source_config) with
                | Some selector =>
                    summary_element <- select_one article selector ;;
                    match summary_element with
                    | Some summary_element =>
                        text <- get_text summary_element "" ;;
                        Ok (strip text)
                    | None => Ok ""
                    end
                | None => Ok ""
                end ;;
              published_at <-
                match given (date_selector source_config) with
                | Some selector =>
                    date_element <- select_one article selector ;;
                    match date_element with
                    | Some date_element =>
                        date_text <- get_text date_element "" ;;
                        Ok (_parse_date now (strip date_text))
                    | None => Ok (isoformat now)
                    end
                | None => Ok (isoformat now)
                end ;;
              Ok (Some (mk_article source_id (name source_config) title summary
                          link published_at None))
          end
      end
  end.

(** The loop of [_scrape_source] over the candidate elements: an exception
    in the body is logged and the candidate adds nothing. *)
Fixpoint scrape_articles (now : datetime) (source_id : string)
  (source_config : source_config) (article_elements : list tag)
  (articles : list article) : list article :=
  match article_elements with
  | [] => articles
  | article :: rest =>
      match scrape_article now source_id source_config article with
      | Ok (Some a) => scrape_articles now source_id source_config rest (articles ++ [a])
      | Ok None => scrape_articles now source_id source_config rest articles
      | Raise _ => scrape_articles now source_id source_config rest articles
      end
  end.

Definition _scrape_source (now : datetime) (source_id : string)
  (source_config : source_config) : result (list article) :=
  html <- _make_request (url source_config) ;;
  match html with
  | None => Ok []
  | Some html =>
      if negb (nonempty html) then Ok []
      else
        soup <- BeautifulSoup html ;;
        article_elements <- select soup (article_selector source_config) ;;
        Ok (scrape_articles now source_id source_config article_elements [])
  end.

(** The tags removed before text extraction. *)
Definition stripped_tags : list string :=
  ["script"; "style"; "nav"; "header"; "footer"; "aside"].

Definition quote : string := String (ascii_of_nat 34) EmptyString.

(** The body-container selectors, in the order tried. *)
Definition body_selectors : list string :=
  ["article"; ".article-body"; ".article-content"; ".story-body";
   ".story-content"; ".post-content"; ".entry-content"; "main";
   "#article-body"; "#content-body"; ".content-article"; ".article__body";
   "[itemprop=" ++ quote ++ "articleBody" ++ quote ++ "]";
   ".news-content"; ".article-text"].

(** The selector loop: the first selector with a match ends it. *)
Fixpoint first_body (soup : tag) (selectors : list string) : result (option tag) :=
  match selectors with
  | [] => Ok None
  | selector :: selectors' =>
      match select_one soup selector with
      | Ok (Some article_body) => Ok (Some article_body)
      | Ok None => first_body soup selectors'
      | Raise e => Raise e
      end
  end.

Definition newline : ascii := ascii_of_nat 10.

(** ['\n'.join(line.strip() for line in lines if line.strip())] *)
Definition join_nonblank (lines : list string) : string :=
  join (String newline EmptyString) (List.filter nonempty (map strip lines)).

Definition set_content (a : article) (c : string) : article :=
  mk_article (source_id a) (source_name a) (title a) (description a)
    (article_url a) (publishedAt a) (Some c).

(** The body of the [try] in [fetch_article_content]. *)
Definition fetch_article_content_try (article : article) : result Scraper.article :=
  html <- _make_request (article_url article) ;;
  match html with
  | None => Ok article
  | Some html =>
      if negb (nonempty html) then Ok article
      else
        soup <- BeautifulSoup html ;;
        soup <- decompose soup stripped_tags ;;
        article_body <- first_body soup body_selectors ;;
        match article_body with
        | Some article_body =>
            content <- get_text article_body (String newline EmptyString) ;;
            let content := strip content in
            let content := join_nonblank (split newline content) in
            Ok (set_content article content)
        | None =>
            paragraphs <- find_all soup "p" ;;
            match paragraphs with
            | [] => Ok article
            | _ =>
                texts <- map_result (fun p => get_text p "") paragraphs ;;
                Ok (set_content article (join_nonblank texts))
            end
        end
  end.

Definition fetch_article_content (article : article) : Scraper.article :=
  if negb (nonempty (article_url article)) then article
  else
    match fetch_article_content_try article with
    | Ok a => a
    | Raise _ => article
    end.

(** [_save_articles]: a failed write is logged and raised again. *)
Definition _save_articles (articles : list article) : result unit :=
  match json_dump output_file articles with
  | None => Ok tt
  | Some e => Raise e
  end.

(** What a call of [fetch_news] leaves behind: the value returned or the
    exception raised, and the list written to [output_file], if any. *)
Record run : Type := mk_run {
  returned : result (list article);
  written : option (list article)
}.

(** [sources] after the first [if] of [fetch_news]. *)
Definition selected (sources : option (list string)) : list string :=
  match sources with
  | None => map fst SOURCES
  | Some l =>
      List.filter
        (fun s => match lookup_source SOURCES s with Some _ => true | None => false end) l
  end.

(** The task submitted for one source. *)
Definition submit (now : datetime) (source_id : string) : result (list article) :=
  match lookup_source SOURCES source_id with
  | Some cfg => _scrape_source now source_id cfg
  | None => Raise OtherException
  end.

(** The loop over [as_completed]: a future that raised is logged and adds
    nothing. *)
Fixpoint collect (now : datetime) (completed : list string)
  (all_articles : list article) : list article :=
  match completed with
  | [] => all_articles
  | source_id :: completed' =>
      match submit now source_id with
      | Ok articles => collect now completed' (all_articles ++ articles)
      | Raise _ => collect now completed' all_articles
      end
  end.

Definition not_empty {A : Type} (l : list A) : bool :=
  match l with [] => false | _ => true end.

(** [all_articles.sort(key=lambda x: x.get('publishedAt', ''), reverse=True)] *)
Definition sort_articles (all_articles : list article) : list article :=
  Sort.sort_desc publishedAt String.leb all_articles.

(** [fetch_news(sources, fetch_content, save)].  [ThreadPoolExecutor] raises
    [ValueError] when [max_workers] is not positive. *)
Definition fetch_news (now : datetime) (sources : option (list string))
  (fetch_content save : bool) : run :=
  let sources := selected sources in
  if (Nat.min 3 (List.length sources) <=? 0)%nat
  then mk_run (Raise ValueError) None
  else
    let all_articles := collect now (as_completed sources) [] in
    let all_articles :=
      if fetch_content && not_empty all_articles
      then map fetch_article_content all_articles
      else all_articles in
    let all_articles := sort_articles all_articles in
    if save && not_empty all_articles then
      match _save_articles all_articles with
      | Ok _ => mk_run (Ok all_articles) (Some all_articles)
      | Raise e => mk_run (Raise e) None
      end
    else mk_run (Ok all_articles) None.

End WithWorld.

(** *** Vocabulary of the statements about the scraper *)

(** The value Python's [int] gives a string of decimal digits. *)
Fixpoint decimal_value (ds : string) : Z :=
  match ds with
  | EmptyString => 0
  | String c ds' =>
      digit_value c * 10 ^ Z.of_nat (String.length ds') + decimal_value ds'
  end.

Inductive time_unit : Type := Minutes | Hours | Days | Weeks | Months.

(** The words a unit is written with in a relative date. *)
Definition unit_words : list (string * time_unit) :=
  [("minute", Minutes); ("minutes", Minutes); ("min", Minutes); ("mins", Minutes);
   ("hour", Hours); ("hours", Hours); ("hr", Hours); ("hrs", Hours);
   ("day", Days); ("days", Days);
   ("week", Weeks); ("weeks", Weeks);
   ("month", Months); ("months", Months)].

(** Python's [now - timedelta(<unit>=n)], a month counting as 30 days. *)
Definition ago (now : datetime) (n : Z) (u : time_unit) : result datetime :=
  delta <-
    match u with
    | Minutes => timedelta_new 0 0 0 n 0 0
    | Hours => timedelta_new 0 0 0 0 n 0
    | Days => timedelta_new n 0 0 0 0 0
    | Weeks => timedelta_new 0 0 0 0 0 n
    | Months => timedelta_new (30 * n) 0 0 0 0 0
    end ;;
  datetime_sub now delta.

(** A datetime as a count of microseconds, from the start of day 0 of the
    proleptic calendar ([toordinal] numbers 1 January of year 1 as day 1). *)
Definition instant (t : datetime) : Z :=
  ((toordinal t * 24 + hour t) * 60 + minute t) * 60000000
  + second t * 1000000 + microsecond t.

(** The first instant a datetime can hold, 0001-01-01T00:00:00. *)
Definition first_instant : Z := 86400000000.

(** A timedelta, and the arguments of its constructor, in microseconds. *)
Definition span (delta : timedelta) : Z :=
  (days delta * 86400 + seconds delta) * 1000000 + microseconds delta.

Definition total_us (d s us mi h w : Z) : Z :=
  ((d + w * 7) * 86400 + s + mi * 60 + h * 3600) * 1000000 + us.

(** The length of a unit of a relative date, a month counting as 30 days. *)
Definition unit_us (u : time_unit) : Z :=
  match u with
  | Minutes => 60000000
  | Hours => 3600000000
  | Days => 86400000000
  | Weeks => 604800000000
  | Months => 2592000000000
  end.

(** The first format of a list that parses the text, in the list's order. *)
Fixpoint first_parse (date_text : string) (fmts : list string) : option datetime :=
  match fmts with
  | [] => None
  | fmt :: fmts' =>
      match Strptime.strptime date_text fmt with
      | Ok d => Some d
      | Raise _ => first_parse date_text fmts'
      end
  end.

(** [d.replace(year=y)] as a record update. *)
Definition with_year (d : datetime) (y : Z) : datetime :=
  mk_datetime y (month d) (day d) (hour d) (minute d) (second d) (microsecond d).

(** The test [_scrape_source] makes before it calls [urljoin]. *)
Definition is_http_url (u : string) : bool :=
  startswith u "http://" || startswith u "https://".

(** Descending order of a string key, and the elements that carry a key. *)
Definition ge_key {A : Type} (key : A -> string) (a b : A) : Prop :=
  String.leb (key b) (key a) = true.

Definition with_key {A : Type} (key : A -> string) (k : string) (a : A) : bool :=
  String.eqb (key a) k.

(** The fields of a datetime as one number, most significant first, and
    those of a date. *)
Definition stamp (t : datetime) : Z :=
  (((((year t * 13 + month t) * 32 + day t) * 24 + hour t) * 60 + minute t) * 60
   + second t) * 1000000 + microsecond t.

Definition date_key (y m d : Z) : Z := (y * 13 + m) * 32 + d.

(** Two datetimes at the same time of day. *)
Definition same_time (a b : datetime) : Prop :=
  hour a = hour b /\ minute a = minute b /\ second a = second b
  /\ microsecond a = microsecond b.

(** The datetime an article's [publishedAt] is the ISO text of. *)
Definition published (a : article) (d : datetime) : Prop :=
  valid d = true /\ publishedAt a = isoformat d.

(** The fields of a stub beyond its title and link. *)
Definition stub_fields (now : datetime) (cfg : source_config) (a : article) : Prop :=
  strip (title a) = title a
  /\ strip (description a) = description a
  /\ (given (summary_selector cfg) = None -> description a = "")
  /\ (given (date_selector cfg) = None -> publishedAt a = isoformat now)
  /\ exists d, published a d.

(** Two articles that differ at most in [content]. *)
Definition same_stub (a b : article) : Prop :=
  source_id a = source_id b /\ source_name a = source_name b
  /\ title a = title b /\ description a = description b
  /\ article_url a = article_url b /\ publishedAt a = publishedAt b.

(** What [fetch_article_content] makes of the body text [s]. *)
Definition clean (s : string) : string := join_nonblank (split newline s).

(** A line of cleaned text: not empty, stripped, and without a newline. *)
Definition clean_line (l : string) : Prop :=
  l <> "" /\ strip l = l /\ has newline l = false.

(** The unit a relative date is read in: the first of the tests of
    [_parse_date] that finds its word in the text. *)
Definition unit_of (date_text : string) : option time_unit :=
  if contains "minute" date_text || contains "min" date_text then Some Minutes
  else if contains "hour" date_text || contains "hr" date_text then Some Hours
  else if contains "day" date_text then Some Days
  else if contains "week" date_text then Some Weeks
  else if contains "month" date_text then Some Months
  else None.

(** [d.date().isoformat()], and a date at midnight. *)
Definition iso_date (y m d : Z) : string :=
  zero_pad 4 y ++ "-" ++ zero_pad 2 m ++ "-" ++ zero_pad 2 d.

Definition midnight (y m d : Z) : datetime := mk_datetime y m d 0 0 0 0.

(** A date written as two numbers and a year, with a separator that is a
    slash or a hyphen. *)
Definition numeric_date (sep : ascii) (a b y : Z) : string :=
  zero_pad 2 a ++ String sep (zero_pad 2 b ++ String sep (zero_pad 4 y)).

Definition separator (sep : ascii) : Prop := sep = "/"%char \/ sep = "-"%char.

(** The characters of a lowered ISO text and of a numeric date. *)
Definition iso_char (c : ascii) : bool :=
  isdecimal c || Ascii.eqb c "-" || Ascii.eqb c "t" || Ascii.eqb c ":"
  || Ascii.eqb c "." || Ascii.eqb c "/".

(** The name of a month, abbreviated or in full, and a day of the month with
    or without its leading zero. *)
Definition month_names (full : bool) : list string :=
  if full then Strptime.f_month else Strptime.a_month.

Definition month_name (full : bool) (m : Z) : string :=
  nth (Z.to_nat (m - 1)) (month_names full) "".

Definition day_text (padded : bool) (d : Z) : string :=
  if padded || (10 <=? d) then zero_pad 2 d else zero_pad 1 d.

(** The four layouts of the formats with [%b] or [%B], and a date written
    in one of them; the layouts without a year leave [y] out. *)
Inductive layout : Type := MonthDayYear | DayMonthYear | MonthDay | DayMonth.

Definition named_date (l : layout) (full padded : bool) (m d y : Z) : string :=
  match l with
  | MonthDayYear =>
      month_name full m ++ " " ++ day_text padded d ++ ", " ++ zero_pad 4 y
  | DayMonthYear =>
      day_text padded d ++ " " ++ month_name full m ++ " " ++ zero_pad 4 y
  | MonthDay => month_name full m ++ " " ++ day_text padded d
  | DayMonth => day_text padded d ++ " " ++ month_name full m
  end.

(** A text that is empty or starts with a character that is not a blank. *)
Definition head_not_blank (s : string) : Prop :=
  match s with
  | EmptyString => True
  | String c _ => isspace c = false
  end.

(** Whether a parse gave the date [y]-[m]-[d] at midnight. *)
Definition same_date (o : option datetime) (y m d : Z) : bool :=
  match o with
  | Some t =>
      (year t =? y) && (month t =? m) && (day t =? d) && (hour t =? 0)
      && (minute t =? 0) && (second t =? 0) && (microsecond t =? 0)
  | None => false
  end.

(** The dates of the year 1900, and the test that each of them, written
    without a year in a layout, is read by the formats as itself. *)
Definition days_of_1900 : list (Z * Z) :=
  flat_map (fun m => map (fun d => (m, d))
                       (map Z.of_nat (seq 1 (Z.to_nat (_days_in_month 1900 m)))))
    (map Z.of_nat (seq 1 12)).

Definition yearless_read (l : layout) : bool :=
  forallb (fun full =>
    forallb (fun padded =>
      forallb (fun md =>
        same_date (first_parse (named_date l full padded (fst md) (snd md) 0) formats)
          1900 (fst md) (snd md))
        days_of_1900)
      [false; true])
    [false; true].

Section Vocabulary.
Context {W : World}.

(** The stripped text of the element a selector finds in a candidate,
    [Ok None] when it finds none. *)
Definition text_under (n : tag) (selector : string) : result (option string) :=
  element <- select_one n selector ;;
  match element with
  | Some element => text <- get_text element "" ;; Ok (Some (strip text))
  | None => Ok None
  end.

(** The same for a selector the configuration may leave out. *)
Definition optional_text (n : tag) (selector : option string)
  : result (option string) :=
  match given selector with
  | Some selector => text_under n selector
  | None => Ok None
  end.

(** The [href] of the element the link selector finds in a candidate. *)
Definition link_href (cfg : source_config) (n : tag) : result (option string) :=
  link_element <- select_one n (link_selector cfg) ;;
  match link_element with
  | Some link_element => attr link_element "href"
  | None => Ok None
  end.

(** The absolute form of an [href]: itself when it starts with [http://] or
    [https://], [urljoin] with the source's URL otherwise. *)
Definition resolve_href (cfg : source_config) (href : string) : result string :=
  if is_http_url href then Ok href
  else urljoin bracketed_netloc_ok (url cfg) href.

(** A candidate that becomes a stub: its title selector matches, its link
    selector matches an element with an [href], the [href] resolves, and no
    call of BeautifulSoup on the candidate raises. *)
Definition survives (cfg : source_config) (n : tag) : bool :=
  match text_under n (title_selector cfg), link_href cfg n with
  | Ok (Some _), Ok (Some href) =>
      match resolve_href cfg href,
            optional_text n (summary_selector cfg),
            optional_text n (date_selector cfg) with
      | Ok _, Ok _, Ok _ => true
      | _, _, _ => false
      end
  | _, _ => false
  end.

(** The stub of a candidate, as far as the title, the link and the source
    go. *)
Definition stub_of (source_id : string) (cfg : source_config) (n : tag) (a : article)
  : Prop :=
  text_under n (title_selector cfg) = Ok (Some (title a))
  /\ (exists href,
         link_href cfg n = Ok (Some href)
         /\ resolve_href cfg href = Ok (article_url a))
  /\ Scraper.source_id a = source_id
  /\ source_name a = name cfg
  /\ content a = None.

(** A URL that carries a scheme of its own, other than the base's. *)
Definition foreign_scheme (base u : string) : Prop :=
  exists b p, urlparse bracketed_netloc_ok base "" = Ok b
              /\ urlparse bracketed_netloc_ok u (scheme b) = Ok p
              /\ scheme p <> scheme b.

(** What a source adds to the result: its articles, or nothing when its
    task raised. *)
Definition articles_of (now : datetime) (source_id : string) : list article :=
  match submit now source_id with
  | Ok articles => articles
  | Raise _ => []
  end.

(** [all_articles] as it stands before the sort: the articles of the
    sources in completion order, enriched when [fetch_content] is set. *)
Definition merged (now : datetime) (sources : option (list string))
  (fetch_content : bool) : list article :=
  let all_articles := collect now (as_completed (selected sources)) [] in
  if fetch_content && not_empty all_articles
  then map fetch_article_content all_articles
  else all_articles.

End Vocabulary.

End Scraper.

(** ** [fin-news-deepseek-tuning/scripts/fetch_news.py] *)
Module NewsAPI.
Import Py DateTime.

(** The query parameters of one request. *)
Record params : Type := mk_params {
  q : string;
  sources : string;
  from : string;
  to : string;
  language : string;
  sortBy : string;
  pageSize : Z;
  page : Z
}.

(** The JSON body of a response; a field is [None] when its key is absent. *)
Record response (A : Type) : Type := mk_response {
  status : option string;
  articles : option (list A);
  totalResults : option Z
}.
Arguments mk_response {A} status articles totalResults.
Arguments status {A} r.
Arguments articles {A} r.
Arguments totalResults {A} r.

(** The external API and the output file.  [session_get] is
    [self.session.get(url)] with [raise_for_status()] and [.json()]. *)
Class Api : Type := {
  api_article : Type;
  session_get : params -> result (response api_article);
  json_dump : string -> list api_article -> option exn
}.

Definition output_file : string := "data/raw_news.json".

Definition default_sources : list string :=
  ["bloomberg"; "business-insider"; "financial-times"; "fortune"; "reuters";
   "the-wall-street-journal"].

(** [%Y] as the C library of Linux (glibc) writes it: the year in decimal,
    without leading zeros.  A datetime's year is between 1 and 9999. *)
Definition year_text (y : Z) : string :=
  if y <? 10 then zero_pad 1 y
  else if y <? 100 then zero_pad 2 y
  else if y <? 1000 then zero_pad 3 y
  else zero_pad 4 y.

(** [d.strftime('%Y-%m-%d')]: [%m] and [%d] have two digits. *)
Definition strftime_date (d : datetime) : string :=
  year_text (year d) ++ "-" ++ zero_pad 2 (month d) ++ "-" ++ zero_pad 2 (day d).

Definition with_page (p : params) (n : Z) : params :=
  mk_params (q p) (sources p) (from p) (to p) (language p) (sortBy p) (pageSize p) n.

Record run (A : Type) : Type := mk_run {
  returned : result (list A);
  written : option (list A)
}.
Arguments mk_run {A} returned written.
Arguments returned {A} r.
Arguments written {A} r.

Section WithApi.
Context {API : Api}.

(** The [while True] loop, with [fuel] bounding its iterations ([None] when
    the bound is hit).  The value is [all_articles] and [params] when the loop
    is left by [break]. *)
Fixpoint paginate (fuel : nat) (p : params) (all_articles : list api_article)
  : option (result (list api_article * params)) :=
  match fuel with
  | O => None
  | S fuel' =>
      match session_get p with
      | Raise e => Some (Raise e)
      | Ok data =>
          match status data with
          | None => Some (Raise OtherException)
          | Some st =>
              if negb (String.eqb st "ok") then Some (Raise OtherException)
              else
                match articles data with
                | None | Some [] => Some (Ok (all_articles, p))
                | Some articles =>
                    let all_articles := (all_articles ++ articles)%list in
                    let total :=
                      match totalResults data with Some t => t | None => 0 end in
                    if total <=? Z.of_nat (List.length all_articles)
                    then Some (Ok (all_articles, p))
                    else if 100 <=? Z.of_nat (List.length all_articles)
                    then Some (Ok (all_articles, p))
                    else paginate fuel' (with_page p (page p + 1)) all_articles
                end
          end
      end
  end.

Definition _save_articles (articles : list api_article) : result unit :=
  match json_dump output_file articles with
  | None => Ok tt
  | Some e => Raise e
  end.

(** The request of the first page. *)
Definition first_params (now : datetime) (days_back : Z) (sources : option (list string))
  : result params :=
  let sources := match sources with Some l => l | None => default_sources end in
  let end_date := now in
  delta <- timedelta_new days_back 0 0 0 0 0 ;;
  start_date <- datetime_sub end_date delta ;;
  Ok (mk_params "finance OR stock OR market OR trading OR investment"
        (join "," sources) (strftime_date start_date) (strftime_date end_date)
        "en" "publishedAt" 100 1).

(** [fetch_financial_news(days_back, sources, save)]; both [except] clauses
    log and raise again. *)
Definition fetch_financial_news (fuel : nat) (now : datetime) (days_back : Z)
  (sources : option (list string)) (save : bool) : option (run api_article) :=
  match first_params now days_back sources with
  | Raise e => Some (mk_run (Raise e) None)
  | Ok p =>
      match paginate fuel p [] with
      | None => None
      | Some (Raise e) => Some (mk_run (Raise e) None)
      | Some (Ok (all_articles, _)) =>
          if save then
            match _save_articles all_articles with
            | Ok _ => Some (mk_run (Ok all_articles) (Some all_articles))
            | Raise e => Some (mk_run (Raise e) None)
            end
          else Some (mk_run (Ok all_articles) None)
      end
  end.

End WithApi.

(** *** Vocabulary of the statements about the pagination *)
Section Vocabulary.
Context {API : Api}.

(** [data.get('articles', [])] and [data.get('totalResults', 0)] *)
Definition page_articles (data : response api_article) : list api_article :=
  match articles data with Some l => l | None => [] end.

Definition reported_total (data : response api_article) : Z :=
  match totalResults data with Some t => t | None => 0 end.

(** The three ways out of the loop, after a page that brings the running
    total to [all_articles]. *)
Definition stops_after (data : response api_article) (all_articles : list api_article)
  : Prop :=
  page_articles data = []
  \/ reported_total data <= Z.of_nat (List.length all_articles)
  \/ 100 <= Z.of_nat (List.length all_articles).

(** Paging from request [p] with [acc] collected so far ends with
    [all_articles] at request [p']: every page on the way answers [ok], and
    the last one is the first after which a way out applies. *)
Inductive pages_until_stop :
  params -> list api_article -> list api_article -> params -> Prop :=
| stop_here p acc data :
    session_get p = Ok data -> status data = Some "ok" ->
    stops_after data (acc ++ page_articles data) ->
    pages_until_stop p acc (acc ++ page_articles data) p
| next_page p acc data all_articles p' :
    session_get p = Ok data -> status data = Some "ok" ->
    ~ stops_after data (acc ++ page_articles data) ->
    pages_until_stop (with_page p (page p + 1)) (acc ++ page_articles data)
      all_articles p' ->
    pages_until_stop p acc all_articles p'.

(** The [sources] parameter of the request. *)
Definition query_sources (sources : option (list string)) : string :=
  join "," (match sources with Some l => l | None => default_sources end).

(** The articles a request is answered with ([[]] when it fails). *)
Definition served (p : params) : list api_article :=
  match session_get p with
  | Ok data => page_articles data
  | Raise _ => []
  end.

(** The request [n] pages after [p]. *)
Definition nth_page (p : params) (n : nat) : params :=
  with_page p (page p + Z.of_nat n).

(** A request that ends the call with an exception: it raises, or its
    answer has no [status] or one that is not [ok]. *)
Definition page_fails (p : params) (e : exn) : Prop :=
  session_get p = Raise e
  \/ (exists data, session_get p = Ok data /\ status data <> Some "ok"
                   /\ e = OtherException).

(** Paging from [p] reaches a request that fails with [e], after pages that
    all answer [ok] and after none of which a way out of the loop applies. *)
Inductive pages_until_error : params -> list api_article -> exn -> Prop :=
| error_here p acc e : page_fails p e -> pages_until_error p acc e
| error_later p acc data e :
    session_get p = Ok data -> status data = Some "ok" ->
    ~ stops_after data (acc ++ page_articles data) ->
    pages_until_error (with_page p (page p + 1)) (acc ++ page_articles data) e ->
    pages_until_error p acc e.

End Vocabulary.

End NewsAPI.

(** ** Canned worlds for closed examples

    An element is given by its text, its attributes and, for each selector,
    the elements it answers with; a site by what each URL answers and by the
    document each response text parses to. *)
Module Fixture.
Import Py DateTime Scraper.

#[local] Set Warnings "-register-all".

Inductive element : Type :=
| El (text : string) (attrs : list (string * string))
     (answers : list (string * list element)).

Fixpoint assoc {V : Type} (k : string) (l : list (string * V)) : option V :=
  match l with
  | [] => None
  | (k', v) :: l' => if String.eqb k k' then Some v else assoc k l'
  end.

Definition text_of (e : element) : string := match e with El t _ _ => t end.

Definition attr_of (e : element) (a : string) : option string :=
  match e with El _ attrs _ => assoc a attrs end.

Definition answers_to (e : element) (selector : string) : list element :=
  match e with
  | El _ _ answers =>
      match assoc selector answers with Some l => l | None => [] end
  end.

Record site : Type := mk_site {
  responses : list (string * result string);
  documents : list (string * element);
  dump : option exn;
  reversed : bool
}.

(** The futures complete in the order submitted, or in the opposite one. *)
Definition completion (reversed : bool) (l : list string) : list string :=
  if reversed then rev l else l.

Definition completion_perm (r : bool) (l : list string)
  : Permutation (completion r l) l :=
  if r as r' return Permutation (completion r' l) l
  then Permutation_sym (Permutation_rev l)
  else Permutation_refl l.

Definition world (s : site) : World := {|
  tag := element;
  BeautifulSoup := fun html =>
    match assoc html (documents s) with
    | Some e => Ok e
    | None => Ok (El "" [] [])
    end;
  select := fun e selector => Ok (answers_to e selector);
  select_one := fun e selector => Ok (hd_error (answers_to e selector));
  find_all := fun e name => Ok (answers_to e name);
  decompose := fun e _ => Ok e;
  get_text := fun e _ => Ok (text_of e);
  attr := fun e a => Ok (attr_of e a);
  scraper_get := fun url _ =>
    match assoc url (responses s) with
    | Some r => r
    | None => Raise RequestException
    end;
  bracketed_netloc_ok := fun _ => true;
  as_completed := completion (reversed s);
  as_completed_perm := completion_perm (reversed s);
  json_dump := fun _ _ => dump s
|}.

(** The same site seen through a library that does not accept the selector
    [bad]: every selection with it raises. *)
Definition rejecting (s : site) (bad : string) : World := {|
  tag := element;
  BeautifulSoup := BeautifulSoup (World := world s);
  select := fun e selector =>
    if String.eqb selector bad then Raise OtherException
    else Ok (answers_to e selector);
  select_one := fun e selector =>
    if String.eqb selector bad then Raise OtherException
    else Ok (hd_error (answers_to e selector));
  find_all := fun e name => Ok (answers_to e name);
  decompose := fun e _ => Ok e;
  get_text := fun e _ => Ok (text_of e);
  attr := fun e a => Ok (attr_of e a);
  scraper_get := scraper_get (World := world s);
  bracketed_netloc_ok := fun _ => true;
  as_completed := completion (reversed s);
  as_completed_perm := completion_perm (reversed s);
  json_dump := fun _ _ => dump s
|}.

Definition now0 : datetime := mk_datetime 2024 6 15 12 0 0 0.

(** A numeral of 4301 digits: 4300 zeros and a five. *)
Fixpoint zeros (n : nat) : string :=
  match n with
  | O => EmptyString
  | S n' => String "0" (zeros n')
  end.

Definition long_five : string := zeros 4300 ++ "5".

(** An entry of [SOURCES]. *)
Definition source (id : string) : source_config :=
  match lookup_source SOURCES id with
  | Some cfg => cfg
  | None => mk_source "" "" "" "" "" None None
  end.

Definition cnbc : source_config := source "cnbc".
Definition finviz : source_config := source "finviz".
Definition zacks : source_config := source "zacks".

(** A candidate of a source: one element with the title as text and the link
    as [href] under the title and link selectors, and a date element. *)
Definition item (cfg : source_config) (title href date : string) : element :=
  let link := El title [("href", href)] [] in
  El "" []
    ([(title_selector cfg, [link]); (link_selector cfg, [link])]
     ++ match date_selector cfg with
        | Some selector => [(selector, [El date [] []])]
        | None => []
        end).

(** A candidate with nothing under the title selector. *)
Definition untitled (cfg : source_config) (href date : string) : element :=
  El "" []
    ([(link_selector cfg, [El "" [("href", href)] []])]
     ++ match date_selector cfg with
        | Some selector => [(selector, [El date [] []])]
        | None => []
        end).

Definition listing (cfg : source_config) (items : list element) : element :=
  El "" [] [(article_selector cfg, items)].

(** Five well-formed candidates and, in fourth place, one without a title. *)
Definition six_cards : list element :=
  [item cnbc "Alpha" "/a" "2024-01-01"; item cnbc "Beta" "/b" "2024-03-01";
   item cnbc "Gamma" "https://www.cnbc.com/c" "2024-02-01";
   untitled cnbc "/x" "2024-02-02";
   item cnbc "Delta" "d.html" "2 hours ago"; item cnbc "Epsilon" "/e" "today"].

Definition six_cards_site : site :=
  mk_site [(url cnbc, Ok "six cards")] [("six cards", listing cnbc six_cards)]
    None false.

(** A candidate whose title element is empty, and one whose link is a
    [mailto:]. *)
Definition odd_cards_site : site :=
  mk_site [(url cnbc, Ok "odd cards")]
    [("odd cards",
      listing cnbc [item cnbc "" "/empty" "today";
                    item cnbc "Contact" "mailto:desk@cnbc.com" "today"])]
    None false.

(** Three sources, the second of which fails with an exception that
    [_make_request] does not catch. *)
Definition three_sources (dump : option exn) : site :=
  mk_site
    [(url cnbc, Ok "cnbc page"); (url finviz, Raise OtherException);
     (url zacks, Ok "zacks page")]
    [("cnbc page",
      listing cnbc [item cnbc "January" "/jan" "2024-01-01";
                    item cnbc "March" "/mar" "2024-03-01"]);
     ("zacks page", listing zacks [item zacks "February" "/feb" "2024-02-01"])]
    dump true.

Definition three_ids : option (list string) := Some ["cnbc"; "finviz"; "zacks"].

Definition stub (id : string) (cfg : source_config) (title href date : string) : article :=
  mk_article id (name cfg) title "" href date None.

Definition march_february_january : list article :=
  [stub "cnbc" cnbc "March" "https://www.cnbc.com/mar" "2024-03-01T00:00:00";
   stub "zacks" zacks "February" "https://www.zacks.com/feb" "2024-02-01T00:00:00";
   stub "cnbc" cnbc "January" "https://www.cnbc.com/jan" "2024-01-01T00:00:00"].

(** No URL answers. *)
Definition silent_site : site := mk_site [] [] None false.

(** An article page whose [article] element holds no text, and one with no
    body container and a single blank paragraph. *)
Definition alpha : article :=
  stub "cnbc" cnbc "Alpha" "https://www.cnbc.com/a" "2024-01-01T00:00:00".

Definition empty_article_site : site :=
  mk_site [("https://www.cnbc.com/a", Ok "empty article")]
    [("empty article", El "" [] [("article", [El "" [] []])])] None false.

Definition blank_paragraph_site : site :=
  mk_site [("https://www.cnbc.com/a", Ok "blank paragraph")]
    [("blank paragraph", El "" [] [("p", [El "  " [] []])])] None false.

(** An API that serves 250 articles, numbered from 0, in pages of 100. *)
Definition numbered_api : NewsAPI.Api := {|
  NewsAPI.api_article := nat;
  NewsAPI.session_get := fun p =>
    Ok (NewsAPI.mk_response (Some "ok")
          (Some (List.firstn (250 - 100 * (Z.to_nat (NewsAPI.page p) - 1))
                   (List.seq (100 * (Z.to_nat (NewsAPI.page p) - 1)) 100)))
          (Some 250));
  NewsAPI.json_dump := fun _ _ => None
|}.

(** An API that serves 250 articles in pages of 60. *)
Definition pages_of_sixty : NewsAPI.Api := {|
  NewsAPI.api_article := nat;
  NewsAPI.session_get := fun p =>
    Ok (NewsAPI.mk_response (Some "ok")
          (Some (List.firstn (250 - 60 * (Z.to_nat (NewsAPI.page p) - 1))
                   (List.seq (60 * (Z.to_nat (NewsAPI.page p) - 1)) 60)))
          (Some 250));
  NewsAPI.json_dump := fun _ _ => None
|}.

(** An API with nothing to report. *)
Definition empty_api : NewsAPI.Api := {|
  NewsAPI.api_article := nat;
  NewsAPI.session_get := fun _ => Ok (NewsAPI.mk_response (Some "ok") (Some []) (Some 0));
  NewsAPI.json_dump := fun _ _ => None
|}.

(** A site whose CNBC page fails twice before it answers. *)
Definition flaky_world : World := {|
  tag := element;
  BeautifulSoup := fun _ => Ok (El "" [] []);
  select := fun e selector => Ok (answers_to e selector);
  select_one := fun e selector => Ok (hd_error (answers_to e selector));
  find_all := fun e name => Ok (answers_to e name);
  decompose := fun e _ => Ok e;
  get_text := fun e _ => Ok (text_of e);
  attr := fun e a => Ok (attr_of e a);
  scraper_get := fun _ attempt =>
    match attempt with
    | 2%nat => Ok "third time lucky"
    | _ => Raise RequestException
    end;
  bracketed_netloc_ok := fun _ => true;
  as_completed := completion false;
  as_completed_perm := completion_perm false;
  json_dump := fun _ _ => None
|}.

(** A front page with one card, and the page of its story: an [article]
    element whose text has blanks around its two lines and an empty line
    between them. *)
Definition story_text : string :=
  "  Rates rise  " ++ String newline (String newline "Stocks fall ").

Definition story_site : site :=
  mk_site
    [(url cnbc, Ok "front page"); ("https://www.cnbc.com/a", Ok "story page")]
    [("front page", listing cnbc [item cnbc "Alpha" "/a" "2024-01-01"]);
     ("story page", El "" [] [("article", [El story_text [] []])])]
    None false.

(** The first request of a call made on 15 June 2024 for the seven days
    before, and an API whose first page holds 60 of 250 articles
    and whose second request fails. *)
Definition first_request : NewsAPI.params :=
  NewsAPI.mk_params "finance OR stock OR market OR trading OR investment"
    "reuters" "2024-06-08" "2024-06-15" "en" "publishedAt" 100 1.

Definition second_page_fails : NewsAPI.Api := {|
  NewsAPI.api_article := nat;
  NewsAPI.session_get := fun p =>
    if NewsAPI.page p =? 1
    then Ok (NewsAPI.mk_response (Some "ok") (Some (List.seq 0 60)) (Some 250))
    else Raise RequestException;
  NewsAPI.json_dump := fun _ _ => None
|}.

End Fixture.

(** * Proofs about the scraper *)
Module ScraperProofs.
Import Py DateTime UrlParse Scraper.

(** ** Strings *)

Lemma lower_app (a b : string) : lower (a ++ b) = lower a ++ lower b.
Proof. induction a as [|c a IH]; simpl; [reflexivity | now rewrite IH]. Qed.

Lemma decimal_cases (P : ascii -> Prop) :
  P "0"%char -> P "1"%char -> P "2"%char -> P "3"%char -> P "4"%char ->
  P "5"%char -> P "6"%char -> P "7"%char -> P "8"%char -> P "9"%char ->
  forall c, isdecimal c = true -> P c.
Proof.
  intros H0 H1 H2 H3 H4 H5 H6 H7 H8 H9 c.
  destruct c as [[] [] [] [] [] [] [] []]; intro Hc;
    try (vm_compute in Hc; discriminate Hc); assumption.
Qed.

(** What the scraper's string tests make of a decimal digit. *)
Lemma decimal_char_facts (c : ascii) :
  isdecimal c = true ->
  lower_char c = c /\ isspace c = false /\ isdigit c = true
  /\ 0 <= digit_value c <= 9.
Proof.
  revert c. apply decimal_cases; vm_compute; repeat split; congruence.
Qed.

Lemma lower_decimal (ds : string) :
  all_chars isdecimal ds = true -> lower ds = ds.
Proof.
  induction ds as [|c ds IH]; simpl; [reflexivity|].
  intros H. apply andb_true_iff in H as [Hc Hds].
  destruct (decimal_char_facts c Hc) as [-> _]. now rewrite IH.
Qed.

Lemma filter_app (f : ascii -> bool) (a b : string) :
  filter f (a ++ b) = filter f a ++ filter f b.
Proof.
  induction a as [|c a IH]; simpl; [reflexivity|].
  destruct (f c); simpl; now rewrite IH.
Qed.

Lemma filter_isdigit_decimal (ds : string) :
  all_chars isdecimal ds = true -> filter isdigit ds = ds.
Proof.
  induction ds as [|c ds IH]; simpl; [reflexivity|].
  intros H. apply andb_true_iff in H as [Hc Hds].
  destruct (decimal_char_facts c Hc) as (_ & _ & -> & _). now rewrite IH.
Qed.

Lemma append_empty_r (s : string) : s ++ "" = s.
Proof. induction s as [|c s IH]; simpl; [reflexivity | now rewrite IH]. Qed.

Lemma lstrip_decimal (ds t : string) :
  ds <> "" -> all_chars isdecimal ds = true -> lstrip (ds ++ t) = ds ++ t.
Proof.
  destruct ds as [|c ds]; [congruence|]. simpl. intros _ H.
  apply andb_true_iff in H as [Hc _].
  destruct (decimal_char_facts c Hc) as (_ & -> & _). reflexivity.
Qed.

Lemma rstrip_app (a t : string) :
  rstrip t <> "" -> rstrip (a ++ t) = a ++ rstrip t.
Proof.
  intros Ht. induction a as [|c a IH]; simpl; [reflexivity|].
  rewrite IH. destruct (a ++ rstrip t) eqn:E; [|reflexivity].
  destruct a; simpl in E; [contradiction | discriminate].
Qed.

(** A pattern that starts with a non-digit is not found any earlier for a
    run of digits put in front of the text. *)
Lemma contains_skip_decimal (x : ascii) (p ds t : string) :
  isdecimal x = false -> all_chars isdecimal ds = true ->
  contains (String x p) (ds ++ t) = contains (String x p) t.
Proof.
  intros Hx. induction ds as [|c ds IH]; intros H; [reflexivity|].
  simpl in H. apply andb_true_iff in H as [Hc Hds].
  change (contains (String x p) (String c ds ++ t))
    with (String.prefix (String x p) (String c (ds ++ t))
          || contains (String x p) (ds ++ t)).
  rewrite (IH Hds). simpl.
  destruct (ascii_dec x c) as [->|Hne]; [congruence|reflexivity].
Qed.

Lemma int_acc_decimal (ds : string) (acc : Z) :
  all_chars isdecimal ds = true ->
  int_acc acc ds = Ok (acc * 10 ^ Z.of_nat (String.length ds) + decimal_value ds).
Proof.
  revert acc. induction ds as [|c ds IH]; intros acc H.
  - simpl. f_equal. lia.
  - simpl in H. apply andb_true_iff in H as [Hc Hds].
    cbn [int_acc decimal_value String.length]. rewrite Hc.
    rewrite (IH _ Hds). f_equal.
    rewrite Nat2Z.inj_succ, Z.pow_succ_r by lia. ring.
Qed.

Lemma int_decimal (ds : string) :
  ds <> "" -> all_chars isdecimal ds = true ->
  Z.of_nat (String.length ds) <= int_max_str_digits ->
  int ds = Ok (decimal_value ds).
Proof.
  intros Hne H Hlen. destruct ds as [|c ds]; [congruence|].
  unfold int. apply Z.ltb_ge in Hlen. rewrite Hlen.
  rewrite int_acc_decimal by exact H. f_equal.
Qed.

(** A numeral of more than 4300 digits is not converted. *)
Lemma int_too_long (s : string) :
  int_max_str_digits < Z.of_nat (String.length s) -> int s = Raise ValueError.
Proof.
  intros Hlen. destruct s as [|c s]; [reflexivity|].
  unfold int. apply Z.ltb_lt in Hlen. now rewrite Hlen.
Qed.

Lemma decimal_value_nonneg (ds : string) :
  all_chars isdecimal ds = true -> 0 <= decimal_value ds.
Proof.
  induction ds as [|c ds IH]; simpl; [lia|]. intros H.
  apply andb_true_iff in H as [Hc Hds].
  destruct (decimal_char_facts c Hc) as (_ & _ & _ & Hv).
  specialize (IH Hds).
  assert (0 <= 10 ^ Z.of_nat (String.length ds)) by (apply Z.pow_nonneg; lia).
  nia.
Qed.

(** ** Relative dates *)

Lemma relative_text_facts (ds t : string) :
  ds <> "" -> all_chars isdecimal ds = true ->
  lower t = t -> rstrip t = t -> t <> "" -> filter isdigit t = "" ->
  strip (lower (ds ++ t)) = ds ++ t
  /\ (forall x p, isdecimal x = false ->
        contains (String x p) (ds ++ t) = contains (String x p) t)
  /\ filter isdigit (ds ++ t) = ds.
Proof.
  intros Hne Hds Hlow Hstrip Ht Hnodigit. repeat split.
  - rewrite lower_app, (lower_decimal _ Hds), Hlow. unfold strip.
    rewrite (lstrip_decimal _ _ Hne Hds), rstrip_app; rewrite Hstrip; auto.
  - intros x p Hx. now apply contains_skip_decimal.
  - now rewrite filter_app, (filter_isdigit_decimal _ Hds), Hnodigit, append_empty_r.
Qed.

(** For a text made of a decimal numeral, a blank, one of the unit words,
    a blank and "ago", the normalizer returns the ISO text of what [int] and
    the subtraction [now - timedelta(<unit>=N)] give, and the ISO text of
    [now] when either raises. *)
Lemma parse_relative_date (now : datetime) (ds w : string) (u : time_unit) :
  ds <> "" -> all_chars isdecimal ds = true -> In (w, u) unit_words ->
  _parse_date now (ds ++ " " ++ w ++ " ago") =
    match (n <- int ds ;; ago now n u) with
    | Ok d => isoformat d
    | Raise _ => isoformat now
    end.
Proof.
  intros Hne Hds Hin.
  unfold _parse_date, _parse_date_try.
  simpl in Hin.
  repeat (destruct Hin as [Hin | Hin]; [injection Hin as <- <- | ]); try contradiction;
  match goal with
  | |- context [ds ++ ?t] =>
      let t' := eval cbn in t in
      change (ds ++ t) with (ds ++ t');
      destruct (relative_text_facts ds t' Hne Hds eq_refl eq_refl
                  ltac:(discriminate) eq_refl) as (-> & Hc & Hint)
  end;
  rewrite !Hc by reflexivity; rewrite ?Hint;
  cbn -[timedelta_new datetime_sub isoformat int Z.mul];
  unfold ago;
  (destruct (int ds) as [n|]; cbn [bind]; [|reflexivity]);
  match goal with
  | |- context [timedelta_new ?a ?b ?c ?d ?e ?f] =>
      destruct (timedelta_new a b c d e f) as [delta|]; cbn [bind];
      [destruct (datetime_sub now delta) |]; reflexivity
  end.
Qed.

(** The relative dates listed by the specification, at noon of 15 June 2024. *)
Example relative_dates_of_the_spec :
  map (_parse_date Fixture.now0)
    ["5 minutes ago"; "2 hours ago"; "3 days ago"; "1 week ago"; "2 months ago"]
  = ["2024-06-15T11:55:00"; "2024-06-15T10:00:00"; "2024-06-12T12:00:00";
     "2024-06-08T12:00:00"; "2024-04-16T12:00:00"].
Proof. vm_compute. reflexivity. Qed.

(** [int] is given every digit of the text, not the first run of them. *)
Example digits_are_concatenated :
  _parse_date Fixture.now0 "1 hour 30 min ago" = "2024-06-15T09:50:00".
Proof. vm_compute. reflexivity. Qed.

(** 800000 days before 15 June 2024 is before year 1: the subtraction
    raises [OverflowError] and the handler returns the current time. *)
Lemma relative_date_far_past_returns_now :
  _parse_date Fixture.now0 "800000 days ago" = isoformat Fixture.now0
  /\ ~ (exists d, ago Fixture.now0 800000 Days = Ok d
                  /\ _parse_date Fixture.now0 "800000 days ago" = isoformat d).
Proof.
  split; [vm_compute; reflexivity|].
  intros (d & H & _). vm_compute in H. discriminate H.
Qed.

(** Five days ago, written with 4300 zeros before the five: [int] raises
    [ValueError] and the handler returns the current time. *)
Example long_numeral_returns_now :
  Z.of_nat (String.length Fixture.long_five) = 4301
  /\ _parse_date Fixture.now0 (Fixture.long_five ++ " days ago")
     = isoformat Fixture.now0.
Proof. split; vm_compute; reflexivity. Qed.

(** ** The calendar *)

Lemma is_leap_cycle (a b c e : Z) :
  0 <= a -> 0 <= b <= 3 -> 0 <= c <= 24 -> 0 <= e <= 3 ->
  _is_leap (a * 400 + 1 + b * 100 + c * 4 + e)
  = (e =? 3) && (negb (c =? 24) || (b =? 3)).
Proof.
  intros Ha Hb Hc He. unfold _is_leap.
  set (y := a * 400 + 1 + b * 100 + c * 4 + e).
  assert (H4 : y mod 4 = (e + 1) mod 4).
  { unfold y. replace (a * 400 + 1 + b * 100 + c * 4 + e)
      with ((e + 1) + (a * 100 + b * 25 + c) * 4) by ring.
    apply Z.mod_add. lia. }
  assert (H100 : y mod 100 = (c * 4 + e + 1) mod 100).
  { unfold y. replace (a * 400 + 1 + b * 100 + c * 4 + e)
      with ((c * 4 + e + 1) + (a * 4 + b) * 100) by ring.
    apply Z.mod_add. lia. }
  assert (H400 : y mod 400 = (b * 100 + c * 4 + e + 1) mod 400).
  { unfold y. replace (a * 400 + 1 + b * 100 + c * 4 + e)
      with ((b * 100 + c * 4 + e + 1) + a * 400) by ring.
    apply Z.mod_add. lia. }
  rewrite H4, H100, H400.
  destruct (Z.eqb_spec e 3) as [->|He3].
  - replace ((3 + 1) mod 4) with 0 by reflexivity. simpl andb.
    destruct (Z.eqb_spec c 24) as [->|Hc24].
    + replace ((24 * 4 + 3 + 1) mod 100) with 0 by reflexivity. simpl.
      destruct (Z.eqb_spec b 3) as [->|Hb3]; [reflexivity|].
      apply Z.eqb_neq. rewrite Z.mod_small by lia. lia.
    + simpl. replace ((c * 4 + 3 + 1) mod 100 =? 0) with false; [reflexivity|].
      symmetry. apply Z.eqb_neq. rewrite Z.mod_small by lia. lia.
  - replace ((e + 1) mod 4 =? 0) with false; [reflexivity|].
    symmetry. apply Z.eqb_neq. rewrite Z.mod_small by lia. lia.
Qed.

(** The month and day [_ord2ymd] finds from the offset [n] into a year. *)
Lemma month_day_in_year (y n : Z) (leapyear : bool) :
  0 <= n < 365 -> _is_leap y = leapyear ->
  let month := Z.shiftr (n + 50) 5 in
  let preceding :=
    _DAYS_BEFORE_MONTH month + (if (2 <? month) && leapyear then 1 else 0) in
  let '(m, d) :=
    if n <? preceding then
      (month - 1,
       n - (preceding - (_DAYS_IN_MONTH (month - 1)
                         + (if (month - 1 =? 2) && leapyear then 1 else 0))) + 1)
    else (month, n - preceding + 1) in
  1 <= m <= 12 /\ 1 <= d <= _days_in_month y m.
Proof.
  intros Hn Hleap. cbv zeta.
  rewrite Z.shiftr_div_pow2 by lia. change (2 ^ 5) with 32.
  assert (Hq := Z.div_mod (n + 50) 32 ltac:(lia)).
  assert (Hr := Z.mod_pos_bound (n + 50) 32 ltac:(lia)).
  set (m0 := (n + 50) / 32) in *.
  unfold _days_in_month. rewrite Hleap.
  assert (Hcases : m0 = 1 \/ m0 = 2 \/ m0 = 3 \/ m0 = 4 \/ m0 = 5 \/ m0 = 6 \/
                   m0 = 7 \/ m0 = 8 \/ m0 = 9 \/ m0 = 10 \/ m0 = 11 \/ m0 = 12) by lia.
  destruct leapyear;
    repeat (destruct Hcases as [Hcases | Hcases]);
    rewrite Hcases in *; cbn;
    match goal with
    | |- context [n <? ?p] => destruct (Z.ltb_spec n p)
    end; cbn; lia.
Qed.

Lemma ord2ymd_valid (n : Z) :
  1 <= n <= _MAXORDINAL ->
  let '(y, m, d) := _ord2ymd n in _check_date_fields y m d = true.
Proof.
  intros Hn. unfold _ord2ymd, _MAXORDINAL, _DI400Y, _DI100Y, _DI4Y in *.
  cbv zeta.
  assert (H1 := Z.div_mod (n - 1) 146097 ltac:(lia)).
  assert (B1 := Z.mod_pos_bound (n - 1) 146097 ltac:(lia)).
  set (a := (n - 1) / 146097) in *. set (r1 := (n - 1) mod 146097) in *.
  assert (H2 := Z.div_mod r1 36524 ltac:(lia)).
  assert (B2 := Z.mod_pos_bound r1 36524 ltac:(lia)).
  set (b := r1 / 36524) in *. set (r2 := r1 mod 36524) in *.
  assert (H3 := Z.div_mod r2 1461 ltac:(lia)).
  assert (B3 := Z.mod_pos_bound r2 1461 ltac:(lia)).
  set (c := r2 / 1461) in *. set (r3 := r2 mod 1461) in *.
  assert (H4 := Z.div_mod r3 365 ltac:(lia)).
  assert (B4 := Z.mod_pos_bound r3 365 ltac:(lia)).
  set (e := r3 / 365) in *. set (r4 := r3 mod 365) in *.
  assert (Ha : 0 <= a <= 24) by lia.
  assert (Hb : 0 <= b <= 4) by lia.
  assert (Hc : 0 <= c <= 24) by lia.
  assert (He : 0 <= e <= 4) by lia.
  destruct ((e =? 4) || (b =? 4)) eqn:Hend.
  - unfold _check_date_fields, _days_in_month, MINYEAR, MAXYEAR.
    apply orb_true_iff in Hend.
    assert (1 <= a * 400 + 1 + b * 100 + c * 4 + e - 1 <= 9999).
    { destruct Hend as [Hend | Hend]; apply Z.eqb_eq in Hend; lia. }
    cbn. repeat (apply andb_true_iff; split);
      first [reflexivity | apply Z.leb_le; lia].
  - apply orb_false_iff in Hend as [He4 Hb4].
    apply Z.eqb_neq in He4, Hb4.
    assert (Hleap := is_leap_cycle a b c e ltac:(lia) ltac:(lia) ltac:(lia) ltac:(lia)).
    assert (Hmd := month_day_in_year (a * 400 + 1 + b * 100 + c * 4 + e) r4 _
                     B4 Hleap).
    cbv zeta in Hmd.
    assert (Hy : 1 <= a * 400 + 1 + b * 100 + c * 4 + e <= 9999) by lia.
    match type of Hmd with
    | context [if ?cond then _ else _] => destruct cond
    end;
    unfold _check_date_fields, MINYEAR, MAXYEAR;
    repeat (apply andb_true_iff; split); apply Z.leb_le; lia.
Qed.

Lemma timedelta_new_normal (d s us mi h w : Z) (delta : timedelta) :
  timedelta_new d s us mi h w = Ok delta ->
  0 <= seconds delta < 86400 /\ 0 <= microseconds delta < 1000000.
Proof.
  unfold timedelta_new. cbv zeta.
  destruct (999999999 <? _) ; [discriminate|].
  intros H. injection H as <-. cbn [seconds microseconds].
  split; apply Z.mod_pos_bound; lia.
Qed.

Lemma datetime_new_valid (y m d hh mm ss us : Z) (t : datetime) :
  datetime_new y m d hh mm ss us = Ok t ->
  valid t = true /\ t = mk_datetime y m d hh mm ss us.
Proof.
  unfold datetime_new, valid.
  destruct (_check_date_fields y m d && _check_time_fields hh mm ss us) eqn:E;
    [|discriminate].
  intros H. injection H as <-. cbn. auto.
Qed.

Lemma datetime_add_valid (t : datetime) (other : timedelta) (r : datetime) :
  datetime_add t other = Ok r -> valid r = true.
Proof.
  unfold datetime_add.
  destruct (timedelta_new _ _ _ _ _ _) as [delta0|]; [|discriminate].
  cbn [bind]. unfold timedelta_add.
  destruct (timedelta_new _ _ _ _ _ _) as [delta|] eqn:Hd; [|discriminate].
  cbn [bind]. apply timedelta_new_normal in Hd as [Hs Hus].
  destruct ((0 <? days delta) && (days delta <=? _MAXORDINAL)) eqn:Hrange;
    [|discriminate].
  apply andb_true_iff in Hrange as [Hlo Hhi].
  apply Z.ltb_lt in Hlo. apply Z.leb_le in Hhi.
  assert (Hord := ord2ymd_valid (days delta) ltac:(lia)).
  destruct (_ord2ymd (days delta)) as [[y m] d].
  intros H. injection H as <-. unfold valid. cbn [year month day hour minute second microsecond].
  rewrite Hord. unfold _check_time_fields.
  assert (Hh := Z.div_mod (seconds delta) 3600 ltac:(lia)).
  assert (Bh := Z.mod_pos_bound (seconds delta) 3600 ltac:(lia)).
  assert (Hm := Z.div_mod (seconds delta mod 3600) 60 ltac:(lia)).
  assert (Bm := Z.mod_pos_bound (seconds delta mod 3600) 60 ltac:(lia)).
  repeat (apply andb_true_iff; split); try reflexivity; apply Z.leb_le; lia.
Qed.

Lemma datetime_sub_valid (t : datetime) (other : timedelta) (r : datetime) :
  datetime_sub t other = Ok r -> valid r = true.
Proof.
  unfold datetime_sub. destruct (timedelta_neg other); [|discriminate].
  apply datetime_add_valid.
Qed.

(** ** Datetimes as instants

    [_ymd2ord] undoes [_ord2ymd], so the arithmetic of [datetime] and
    [timedelta] is the arithmetic of microsecond counts, within the days
    1 to [_MAXORDINAL]. *)

Lemma days_before_year_cycle (a b c e : Z) :
  0 <= a -> 0 <= b <= 3 -> 0 <= c <= 24 -> 0 <= e <= 3 ->
  _days_before_year (a * 400 + 1 + b * 100 + c * 4 + e)
  = a * 146097 + b * 36524 + c * 1461 + e * 365.
Proof.
  intros Ha Hb Hc He. unfold _days_before_year. cbv zeta.
  Z.to_euclidean_division_equations. lia.
Qed.

(** The day of the year [_ord2ymd] arrives at: the month and day it returns
    for the offset [n] count [n + 1] days into the year. *)
Lemma month_day_offset (y n : Z) (leapyear : bool) :
  0 <= n < 365 -> _is_leap y = leapyear ->
  let month := Z.shiftr (n + 50) 5 in
  let preceding :=
    _DAYS_BEFORE_MONTH month + (if (2 <? month) && leapyear then 1 else 0) in
  let '(m, d) :=
    if n <? preceding then
      (month - 1,
       n - (preceding - (_DAYS_IN_MONTH (month - 1)
                         + (if (month - 1 =? 2) && leapyear then 1 else 0))) + 1)
    else (month, n - preceding + 1) in
  _days_before_month y m + d = n + 1.
Proof.
  intros Hn Hleap. cbv zeta.
  rewrite Z.shiftr_div_pow2 by lia. change (2 ^ 5) with 32.
  assert (Hq := Z.div_mod (n + 50) 32 ltac:(lia)).
  assert (Hr := Z.mod_pos_bound (n + 50) 32 ltac:(lia)).
  set (m0 := (n + 50) / 32) in *.
  unfold _days_before_month. rewrite Hleap.
  assert (Hcases : m0 = 1 \/ m0 = 2 \/ m0 = 3 \/ m0 = 4 \/ m0 = 5 \/ m0 = 6 \/
                   m0 = 7 \/ m0 = 8 \/ m0 = 9 \/ m0 = 10 \/ m0 = 11 \/ m0 = 12) by lia.
  destruct leapyear;
    repeat (destruct Hcases as [Hcases | Hcases]);
    rewrite Hcases in *;
    repeat match goal with
    | |- context [Z.pos ?p - 1] =>
        let v := eval vm_compute in (Z.pos p - 1) in
        change (Z.pos p - 1) with v
    end;
    cbn -[Z.add Z.sub Z.mul];
    match goal with
    | |- context [n <? ?p] => destruct (Z.ltb_spec n p)
    end; cbn -[Z.add Z.sub Z.mul] in *; lia.
Qed.

Lemma ymd2ord_ord2ymd (n : Z) :
  1 <= n <= _MAXORDINAL ->
  let '(y, m, d) := _ord2ymd n in _ymd2ord y m d = n.
Proof.
  intros Hn. unfold _ord2ymd, _ymd2ord, _MAXORDINAL, _DI400Y, _DI100Y, _DI4Y in *.
  cbv zeta.
  assert (H1 := Z.div_mod (n - 1) 146097 ltac:(lia)).
  assert (B1 := Z.mod_pos_bound (n - 1) 146097 ltac:(lia)).
  set (a := (n - 1) / 146097) in *. set (r1 := (n - 1) mod 146097) in *.
  assert (H2 := Z.div_mod r1 36524 ltac:(lia)).
  assert (B2 := Z.mod_pos_bound r1 36524 ltac:(lia)).
  set (b := r1 / 36524) in *. set (r2 := r1 mod 36524) in *.
  assert (H3 := Z.div_mod r2 1461 ltac:(lia)).
  assert (B3 := Z.mod_pos_bound r2 1461 ltac:(lia)).
  set (c := r2 / 1461) in *. set (r3 := r2 mod 1461) in *.
  assert (H4 := Z.div_mod r3 365 ltac:(lia)).
  assert (B4 := Z.mod_pos_bound r3 365 ltac:(lia)).
  set (e := r3 / 365) in *. set (r4 := r3 mod 365) in *.
  clearbody a b c e r1 r2 r3 r4.
  assert (Ha : 0 <= a <= 24) by lia.
  assert (Hb : 0 <= b <= 4) by lia.
  assert (Hc : 0 <= c <= 24) by lia.
  assert (He : 0 <= e <= 4) by lia.
  destruct ((e =? 4) || (b =? 4)) eqn:Hend.
  - apply orb_true_iff in Hend.
    destruct Hend as [Hend | Hend]; apply Z.eqb_eq in Hend.
    + (* the last day of a leap year that ends a 4-year cycle *)
      assert (Hb3 : b <= 3) by lia.
      replace (a * 400 + 1 + b * 100 + c * 4 + e - 1)
        with (a * 400 + 1 + b * 100 + c * 4 + 3) by lia.
      rewrite days_before_year_cycle by lia.
      unfold _days_before_month.
      rewrite is_leap_cycle by lia.
      assert (Hc24 : c <> 24 \/ b = 3) by lia.
      replace ((3 =? 3) && (negb (c =? 24) || (b =? 3))) with true.
      * cbn -[Z.add Z.mul]. lia.
      * symmetry. cbn [Z.eqb andb]. change (3 =? 3) with true. cbn [andb].
        apply orb_true_iff.
        destruct Hc24 as [Hc24 | Hc24];
          [left; apply negb_true_iff, Z.eqb_neq; exact Hc24
          | right; apply Z.eqb_eq; exact Hc24].
    + (* the last day of a 400-year cycle *)
      assert (Hzero : c = 0 /\ e = 0 /\ r4 = 0) by lia.
      destruct Hzero as (Hc0 & He0 & Hr4).
      replace (a * 400 + 1 + b * 100 + c * 4 + e - 1)
        with (a * 400 + 1 + 3 * 100 + 24 * 4 + 3) by lia.
      rewrite (days_before_year_cycle a 3 24 3) by lia.
      unfold _days_before_month. rewrite (is_leap_cycle a 3 24 3) by lia.
      cbn -[Z.add Z.mul]. lia.
  - apply orb_false_iff in Hend as [He4 Hb4].
    apply Z.eqb_neq in He4, Hb4.
    assert (Hleap := is_leap_cycle a b c e ltac:(lia) ltac:(lia) ltac:(lia) ltac:(lia)).
    assert (Hmd := month_day_offset (a * 400 + 1 + b * 100 + c * 4 + e) r4 _
                     B4 Hleap).
    cbv zeta in Hmd.
    match type of Hmd with
    | context [if ?cond then _ else _] => destruct cond
    end; rewrite days_before_year_cycle by lia; lia.
Qed.

Lemma timedelta_new_canonical (d s us mi h w : Z) :
  timedelta_new d s us mi h w =
    let total := total_us d s us mi h w in
    if 999999999 <? Z.abs (total / 86400000000) then Raise OverflowError
    else Ok (mk_timedelta (total / 86400000000) (total / 1000000 mod 86400)
               (total mod 1000000)).
Proof.
  unfold timedelta_new, total_us. cbv zeta.
  match goal with
  | |- (if 999999999 <? Z.abs ?x then _ else Ok (mk_timedelta _ ?y ?z)) =
       (if 999999999 <? Z.abs ?x' then _ else Ok (mk_timedelta _ ?y' ?z')) =>
      replace x with x' by (Z.to_euclidean_division_equations; lia);
      replace y with y' by (Z.to_euclidean_division_equations; lia);
      replace z with z' by (Z.to_euclidean_division_equations; lia)
  end.
  reflexivity.
Qed.

Lemma toordinal_bounds (t : datetime) :
  valid t = true -> 1 <= toordinal t <= _MAXORDINAL.
Proof.
  unfold valid, _check_date_fields, toordinal, _ymd2ord, _days_before_year,
    _days_before_month, _days_in_month, _MAXORDINAL, MINYEAR, MAXYEAR.
  intros H. apply andb_true_iff in H as [H _].
  repeat (apply andb_true_iff in H as [H ?]).
  rewrite !Z.leb_le in *.
  set (y := year t) in *. set (m := month t) in *. set (d := day t) in *.
  clearbody y m d.
  assert (Hm : m = 1 \/ m = 2 \/ m = 3 \/ m = 4 \/ m = 5 \/ m = 6 \/
               m = 7 \/ m = 8 \/ m = 9 \/ m = 10 \/ m = 11 \/ m = 12) by lia.
  assert (Hleap : _is_leap y = true ->
                  365 * y + y / 4 - y / 100 + y / 400
                  = 365 * (y - 1) + (y - 1) / 4 - (y - 1) / 100 + (y - 1) / 400 + 366).
  { unfold _is_leap. intros E. apply andb_true_iff in E as [E4 E].
    apply Z.eqb_eq in E4. apply orb_true_iff in E.
    destruct E as [E | E];
      [apply negb_true_iff, Z.eqb_neq in E | apply Z.eqb_eq in E];
      Z.to_euclidean_division_equations; lia. }
  assert (Hyear : 365 * (y - 1) + (y - 1) / 4 - (y - 1) / 100 + (y - 1) / 400 + 365
                  <= 365 * y + y / 4 - y / 100 + y / 400)
    by (Z.to_euclidean_division_equations; lia).
  assert (Hmax : 365 * y + y / 4 - y / 100 + y / 400 <= 3652059)
    by (Z.to_euclidean_division_equations; lia).
  assert (Hmin : 0 <= (y - 1) * 365 + (y - 1) / 4 - (y - 1) / 100 + (y - 1) / 400)
    by (Z.to_euclidean_division_equations; lia).
  destruct (_is_leap y) eqn:El;
    [specialize (Hleap eq_refl) | clear Hleap];
    repeat (destruct Hm as [Hm | Hm]); subst m;
    cbn -[Z.add Z.sub Z.mul Z.div] in *; lia.
Qed.

Lemma instant_total (t : datetime) :
  instant t
  = total_us (toordinal t) (second t) (microsecond t) (minute t) (hour t) 0.
Proof. unfold instant, total_us. ring. Qed.

Lemma valid_time_of_day (t : datetime) :
  valid t = true ->
  0 <= hour t * 3600 + minute t * 60 + second t < 86400
  /\ 0 <= microsecond t < 1000000.
Proof.
  unfold valid, _check_time_fields. intros H.
  apply andb_true_iff in H as [_ H].
  repeat (apply andb_true_iff in H as [H ?]). rewrite !Z.leb_le in *. lia.
Qed.

(** [t + delta] in terms of instants: the sum when it falls on a day from 1
    to [_MAXORDINAL], [OverflowError] otherwise. *)
Lemma datetime_add_canonical (t : datetime) (other : timedelta) :
  valid t = true ->
  0 <= seconds other < 86400 -> 0 <= microseconds other < 1000000 ->
  Z.abs (days other) <= 999999999 ->
  let total := instant t + span other in
  if (first_instant <=? total) && (total <? (_MAXORDINAL + 1) * first_instant)
  then exists r, datetime_add t other = Ok r /\ valid r = true /\ instant r = total
  else datetime_add t other = Raise OverflowError.
Proof.
  intros Hv Hs Hus Hd. cbv zeta.
  assert (Hord := toordinal_bounds t Hv).
  assert (Htime := valid_time_of_day t Hv).
  unfold datetime_add, timedelta_add.
  rewrite timedelta_new_canonical. cbv zeta. rewrite <- instant_total.
  set (i := instant t) in *.
  assert (Hi : i = (toordinal t * 86400
                    + (hour t * 3600 + minute t * 60 + second t)) * 1000000
                   + microsecond t) by (unfold i, instant; ring).
  assert (Hi_day : i / 86400000000 = toordinal t)
    by (rewrite Hi; Z.to_euclidean_division_equations; lia).
  assert (Hi_sec : i / 1000000 mod 86400 = hour t * 3600 + minute t * 60 + second t)
    by (rewrite Hi; Z.to_euclidean_division_equations; lia).
  assert (Hi_us : i mod 1000000 = microsecond t)
    by (rewrite Hi; Z.to_euclidean_division_equations; lia).
  rewrite Hi_day, Hi_sec, Hi_us.
  unfold _MAXORDINAL, first_instant in *.
  replace (999999999 <? Z.abs (toordinal t)) with false
    by (symmetry; apply Z.ltb_ge; lia).
  cbn [bind days seconds microseconds].
  rewrite timedelta_new_canonical. cbv zeta.
  set (total := total_us (toordinal t + days other)
                  (hour t * 3600 + minute t * 60 + second t + seconds other)
                  (microsecond t + microseconds other) 0 0 0).
  assert (Htotal : total = i + span other)
    by (unfold total, total_us, span; rewrite Hi; ring).
  assert (Hrange : -999999999 - 1 <= total / 86400000000 <= 3652059 + 999999999 + 1).
  { assert (Hspan : (-999999999) * 86400000000 <= span other
                    < (999999999 + 1) * 86400000000) by (unfold span; lia).
    rewrite Htotal, Hi. Z.to_euclidean_division_equations. lia. }
  rewrite <- Htotal.
  destruct (999999999 <? Z.abs (total / 86400000000)) eqn:Hover.
  - apply Z.ltb_lt in Hover. cbn [bind].
    replace ((86400000000 <=? total) && (total <? (3652059 + 1) * 86400000000))
      with false; [reflexivity|].
    symmetry. apply andb_false_iff.
    destruct (Z.abs_spec (total / 86400000000)) as [[Hpos Habs] | [Hneg Habs]].
    + right. apply Z.ltb_ge. Z.to_euclidean_division_equations. lia.
    + left. apply Z.leb_gt. Z.to_euclidean_division_equations. lia.
  - cbn [bind days seconds microseconds].
    destruct ((86400000000 <=? total) && (total <? (3652059 + 1) * 86400000000))
      eqn:Hin.
    + apply andb_true_iff in Hin as [Hlo Hhi].
      apply Z.leb_le in Hlo. apply Z.ltb_lt in Hhi.
      assert (Hday : 1 <= total / 86400000000 <= 3652059)
        by (Z.to_euclidean_division_equations; lia).
      replace ((0 <? total / 86400000000) && (total / 86400000000 <=? 3652059))
        with true
        by (symmetry; apply andb_true_iff; split;
            [apply Z.ltb_lt | apply Z.leb_le]; lia).
      assert (Hvalid := ord2ymd_valid (total / 86400000000) Hday).
      assert (Hback := ymd2ord_ord2ymd (total / 86400000000) Hday).
      destruct (_ord2ymd (total / 86400000000)) as [[y m] d].
      eexists. split; [reflexivity|]. split.
      * unfold valid. cbn [year month day hour minute second microsecond].
        rewrite Hvalid. unfold _check_time_fields.
        repeat (apply andb_true_iff; split); try reflexivity; apply Z.leb_le;
          Z.to_euclidean_division_equations; lia.
      * unfold instant, toordinal.
        cbn [year month day hour minute second microsecond]. rewrite Hback.
        Z.to_euclidean_division_equations. lia.
    + replace ((0 <? total / 86400000000) && (total / 86400000000 <=? 3652059))
        with false; [reflexivity|].
      symmetry. apply andb_false_iff. apply andb_false_iff in Hin.
      destruct Hin as [Hlo | Hhi]; [left | right].
      * apply Z.leb_gt in Hlo. apply Z.ltb_ge.
        Z.to_euclidean_division_equations. lia.
      * apply Z.ltb_ge in Hhi. apply Z.leb_gt.
        Z.to_euclidean_division_equations. lia.
Qed.

Lemma instant_bounds (t : datetime) :
  valid t = true ->
  first_instant <= instant t < (_MAXORDINAL + 1) * first_instant.
Proof.
  intros Hv. assert (Hord := toordinal_bounds t Hv).
  assert (Htime := valid_time_of_day t Hv).
  unfold instant, first_instant, _MAXORDINAL in *. lia.
Qed.

Lemma ago_delta (n : Z) (u : time_unit) :
  match u with
  | Minutes => timedelta_new 0 0 0 n 0 0
  | Hours => timedelta_new 0 0 0 0 n 0
  | Days => timedelta_new n 0 0 0 0 0
  | Weeks => timedelta_new 0 0 0 0 0 n
  | Months => timedelta_new (30 * n) 0 0 0 0 0
  end
  = let total := n * unit_us u in
    if 999999999 <? Z.abs (total / 86400000000) then Raise OverflowError
    else Ok (mk_timedelta (total / 86400000000) (total / 1000000 mod 86400)
               (total mod 1000000)).
Proof.
  assert (Htotal :
    total_us 0 0 0 n 0 0 = n * unit_us Minutes
    /\ total_us 0 0 0 0 n 0 = n * unit_us Hours
    /\ total_us n 0 0 0 0 0 = n * unit_us Days
    /\ total_us 0 0 0 0 0 n = n * unit_us Weeks
    /\ total_us (30 * n) 0 0 0 0 0 = n * unit_us Months)
    by (unfold total_us, unit_us; repeat split; ring).
  destruct Htotal as (Hmin & Hhour & Hday & Hweek & Hmonth).
  destruct u; rewrite timedelta_new_canonical; cbv zeta;
    rewrite ?Hmin, ?Hhour, ?Hday, ?Hweek, ?Hmonth; reflexivity.
Qed.

(** [now - timedelta(<unit>=n)] in terms of instants. *)
Lemma ago_canonical (now : datetime) (n : Z) (u : time_unit) :
  valid now = true -> 0 <= n ->
  let target := instant now - n * unit_us u in
  if first_instant <=? target
  then exists d, ago now n u = Ok d /\ valid d = true /\ instant d = target
  else ago now n u = Raise OverflowError.
Proof.
  intros Hv Hn. cbv zeta. assert (Hnow := instant_bounds now Hv).
  unfold ago. rewrite ago_delta. cbv zeta.
  assert (Hu : 0 < unit_us u) by (destruct u; cbn; lia).
  set (total := n * unit_us u) in *.
  assert (Htotal : 0 <= total) by (unfold total; nia).
  clearbody total. unfold first_instant, _MAXORDINAL in *.
  destruct (999999999 <? Z.abs (total / 86400000000)) eqn:Hover.
  { apply Z.ltb_lt in Hover. cbn [bind].
    replace (86400000000 <=? instant now - total) with false; [reflexivity|].
    symmetry. apply Z.leb_gt.
    assert (0 <= total / 86400000000)
      by (Z.to_euclidean_division_equations; lia).
    rewrite Z.abs_eq in Hover by assumption.
    Z.to_euclidean_division_equations. lia. }
  apply Z.ltb_ge in Hover. cbn [bind]. unfold datetime_sub, timedelta_neg.
  cbn [days seconds microseconds]. rewrite timedelta_new_canonical. cbv zeta.
  set (neg := total_us _ _ _ 0 0 0).
  assert (Hneg : neg = - total).
  { unfold neg, total_us. Z.to_euclidean_division_equations. lia. }
  clearbody neg. subst neg.
  destruct (999999999 <? Z.abs (- total / 86400000000)) eqn:Hover'.
  { apply Z.ltb_lt in Hover'. cbn [bind].
    replace (86400000000 <=? instant now - total) with false; [reflexivity|].
    symmetry. apply Z.leb_gt.
    destruct (Z.abs_spec (- total / 86400000000)) as [[? Habs] | [? Habs]];
      Z.to_euclidean_division_equations; lia. }
  apply Z.ltb_ge in Hover'. cbn [bind].
  set (delta := mk_timedelta _ _ _).
  assert (Hspan : span delta = - total).
  { unfold span, delta. cbn [days seconds microseconds].
    Z.to_euclidean_division_equations. lia. }
  assert (Hadd := datetime_add_canonical now delta Hv).
  cbv zeta in Hadd. rewrite Hspan in Hadd.
  replace (instant now + - total) with (instant now - total) in Hadd by ring.
  unfold first_instant, _MAXORDINAL in Hadd.
  replace (instant now - total <? (3652059 + 1) * 86400000000) with true in Hadd
    by (symmetry; apply Z.ltb_lt; lia).
  rewrite andb_true_r in Hadd. apply Hadd; unfold delta;
    cbn [days seconds microseconds].
  - apply Z.mod_pos_bound. lia.
  - apply Z.mod_pos_bound. lia.
  - exact Hover'.
Qed.

(** C1 (amended).  For a text made of a decimal numeral N, a blank, one of
    the unit words (minute/min, hour/hr, day, week, month, singular or
    plural), a blank and "ago", read at a valid [now]: a numeral of more
    than 4300 digits, leading zeros counted, is not converted by [int], and
    the normalizer returns the ISO text of [now]; for a shorter numeral,
    when the instant N units before [now], a month counting as 30 days, is
    not before 0001-01-01T00:00:00, the normalizer returns the ISO text of
    the datetime at that instant, which is what Python's subtraction gives;
    otherwise the subtraction raises and the normalizer returns the ISO text
    of [now]. *)
Theorem relative_date_ago (now : datetime) (ds w : string) (u : time_unit) :
  valid now = true ->
  ds <> "" -> all_chars isdecimal ds = true -> In (w, u) unit_words ->
  let text := ds ++ " " ++ w ++ " ago" in
  let target := instant now - decimal_value ds * unit_us u in
  if int_max_str_digits <? Z.of_nat (String.length ds)
  then int ds = Raise ValueError /\ _parse_date now text = isoformat now
  else if first_instant <=? target
  then exists d, ago now (decimal_value ds) u = Ok d /\ valid d = true
                 /\ instant d = target /\ _parse_date now text = isoformat d
  else ago now (decimal_value ds) u = Raise OverflowError
       /\ _parse_date now text = isoformat now.
Proof.
  intros Hv Hne Hds Hin. cbv zeta.
  assert (Hparse := parse_relative_date now ds w u Hne Hds Hin).
  destruct (int_max_str_digits <? Z.of_nat (String.length ds)) eqn:Hlen.
  { apply Z.ltb_lt in Hlen. rewrite (int_too_long ds Hlen) in *. auto. }
  apply Z.ltb_ge in Hlen. rewrite (int_decimal ds Hne Hds Hlen) in Hparse.
  cbn [bind] in Hparse.
  assert (Hago := ago_canonical now (decimal_value ds) u Hv
                    (decimal_value_nonneg ds Hds)).
  cbv zeta in Hago.
  destruct (first_instant <=? instant now - decimal_value ds * unit_us u).
  - destruct Hago as (d & Hd & Hvalid & Hinstant).
    exists d. rewrite Hd in Hparse. auto.
  - rewrite Hago in Hparse. auto.
Qed.

Lemma relative_date_ago_witness :
  exists d, ago Fixture.now0 5 Minutes = Ok d /\ valid d = true
            /\ instant d = instant Fixture.now0 - 5 * 60000000
            /\ _parse_date Fixture.now0 "5 minutes ago" = isoformat d.
Proof.
  exact (relative_date_ago Fixture.now0 "5" "minutes" Minutes
           eq_refl ltac:(discriminate) eq_refl ltac:(simpl; tauto)).
Defined.

Lemma strptime_valid (s fmt : string) (d : datetime) :
  Strptime.strptime s fmt = Ok d -> valid d = true.
Proof.
  unfold Strptime.strptime.
  destruct (Strptime.pattern fmt) as [items|]; [|discriminate].
  destruct (negb (Strptime.all_directives items)); [discriminate|].
  destruct (Strptime.re_match items [] s) as [[found rest]|]; [|discriminate].
  destruct (negb (rest =? "")%string); [discriminate|].
  destruct (Strptime.int_group found "Y") as [y|]; [|discriminate]; cbn [bind].
  destruct (Strptime.int_group found "m") as [m|]; [|discriminate]; cbn [bind].
  destruct (Strptime.int_group found "d") as [dd|]; [|discriminate]; cbn [bind].
  cbv zeta.
  destruct (datetime_new _ _ _ 0 0 0 0); [|discriminate]; cbn [bind].
  intros H. apply datetime_new_valid in H. tauto.
Qed.

(** ** Absolute dates *)

Lemma replace_year_1900 (d : datetime) (y : Z) :
  valid d = true -> year d = 1900 -> 1 <= y <= 9999 ->
  replace_year d y
  = Ok (mk_datetime y (month d) (day d) (hour d) (minute d) (second d)
          (microsecond d)).
Proof.
  unfold valid, replace_year, datetime_new. intros Hv Hy Hrange.
  apply andb_true_iff in Hv as [Hdate ->]. rewrite andb_true_r.
  rewrite Hy in Hdate. unfold _check_date_fields, _days_in_month, MINYEAR, MAXYEAR in *.
  change (_is_leap 1900) with false in Hdate. rewrite andb_false_r in Hdate.
  repeat (apply andb_true_iff in Hdate as [Hdate ?]).
  rewrite !Z.leb_le in *.
  replace (_ && _) with true; [reflexivity|].
  symmetry. repeat (apply andb_true_iff; split); rewrite ?Z.leb_le; try lia.
  destruct ((month d =? 2) && _is_leap y) eqn:E; [|lia].
  apply andb_true_iff in E as [E _]. apply Z.eqb_eq in E. rewrite E in *.
  cbn in *. lia.
Qed.

Lemma int_raises (s : string) (e : exn) : int s = Raise e -> e = ValueError.
Proof.
  assert (H : forall acc, int_acc acc s = Raise e -> e = ValueError).
  { induction s as [|c s IH]; intros acc; simpl; [discriminate|].
    destruct (isdecimal c); [apply IH | congruence]. }
  unfold int. destruct s; [congruence|].
  destruct (int_max_str_digits <? _); [congruence | apply H].
Qed.

Lemma int_group_raises (found : Strptime.groups) (d : ascii) (e : exn) :
  Strptime.int_group found d = Raise e -> e = ValueError.
Proof.
  unfold Strptime.int_group. destruct (Strptime.lookup d found); [|discriminate].
  destruct (int _) eqn:H; cbn [bind]; [discriminate|].
  intros H'. injection H' as <-. eapply int_raises; eassumption.
Qed.

Lemma datetime_new_raises (y m d hh mm ss us : Z) (e : exn) :
  datetime_new y m d hh mm ss us = Raise e -> e = ValueError.
Proof. unfold datetime_new. destruct (_ && _); congruence. Qed.

Lemma strptime_raises (s fmt : string) (e : exn) :
  Strptime.strptime s fmt = Raise e -> e = ValueError.
Proof.
  unfold Strptime.strptime.
  destruct (Strptime.pattern fmt) as [items|]; [|congruence].
  destruct (negb (Strptime.all_directives items)); [congruence|].
  destruct (Strptime.re_match items [] s) as [[found rest]|]; [|congruence].
  destruct (negb (rest =? "")%string); [congruence|].
  destruct (Strptime.int_group found "Y") as [y|] eqn:HY; cbn [bind];
    [|intros H; injection H as <-; eapply int_group_raises; eassumption].
  destruct (Strptime.int_group found "m") as [m|] eqn:Hm; cbn [bind];
    [|intros H; injection H as <-; eapply int_group_raises; eassumption].
  destruct (Strptime.int_group found "d") as [dd|] eqn:Hd; cbn [bind];
    [|intros H; injection H as <-; eapply int_group_raises; eassumption].
  cbv zeta.
  destruct (datetime_new _ _ _ 0 0 0 0) eqn:Hnew; cbn [bind].
  - apply datetime_new_raises.
  - intros H; injection H as <-. eapply datetime_new_raises; eassumption.
Qed.

Lemma try_formats_first_parse (now : datetime) (t : string) (fmts : list string) :
  valid now = true ->
  try_formats now t fmts =
    match first_parse (strip t) fmts with
    | Some d =>
        Ok (isoformat
              (if year d =? 1900
               then mk_datetime (year now) (month d) (day d) (hour d) (minute d)
                      (second d) (microsecond d)
               else d))
    | None => Ok (isoformat now)
    end.
Proof.
  intros Hnow. induction fmts as [|fmt fmts IH]; [reflexivity|].
  cbn [try_formats first_parse].
  destruct (Strptime.strptime (strip t) fmt) as [d|e] eqn:Hp; cbn [bind].
  - destruct (Z.eqb_spec (year d) 1900) as [Hy|Hy]; [|reflexivity].
    rewrite replace_year_1900; [reflexivity | | exact Hy |].
    + eapply strptime_valid; eassumption.
    + unfold valid, _check_date_fields, MINYEAR, MAXYEAR in Hnow.
      repeat (apply andb_true_iff in Hnow as [Hnow ?]).
      rewrite !Z.leb_le in *. lia.
  - apply strptime_raises in Hp. subst e. exact IH.
Qed.

Lemma with_year_valid (d : datetime) (y : Z) :
  valid d = true -> year d = 1900 -> 1 <= y <= 9999 -> valid (with_year d y) = true.
Proof.
  intros Hv Hy Hr. assert (H := replace_year_1900 d y Hv Hy Hr).
  unfold replace_year in H. apply datetime_new_valid in H as [H _]. exact H.
Qed.

Lemma valid_year (t : datetime) : valid t = true -> 1 <= year t <= 9999.
Proof.
  unfold valid, _check_date_fields, MINYEAR, MAXYEAR. intros H.
  repeat (apply andb_true_iff in H as [H ?]). rewrite !Z.leb_le in *. lia.
Qed.

Lemma first_parse_valid (t : string) (fmts : list string) (d : datetime) :
  first_parse t fmts = Some d -> valid d = true.
Proof.
  induction fmts as [|fmt fmts IH]; cbn [first_parse]; [discriminate|].
  destruct (Strptime.strptime t fmt) eqn:H; [|exact IH].
  intros E. injection E as <-. eapply strptime_valid; eassumption.
Qed.

(** Whatever [_parse_date_try] returns is the ISO text of a datetime Python
    can hold. *)
Lemma parse_date_try_valid (now : datetime) (text s : string) :
  valid now = true -> _parse_date_try now text = Ok s ->
  exists d, valid d = true /\ s = isoformat d.
Proof.
  intros Hnow. unfold _parse_date_try. cbv zeta.
  set (t := strip (lower text)).
  assert (Hrel : forall (r : result datetime),
             (forall d, r = Ok d -> valid d = true) ->
             (date <- r ;; Ok (isoformat date)) = Ok s ->
             exists d, valid d = true /\ s = isoformat d).
  { intros r Hr. destruct r as [d|]; cbn [bind]; [|discriminate].
    intros E. injection E as <-. exists d. auto. }
  assert (Hsub : forall (n : result Z) (mk : Z -> result timedelta) d,
             (v <- n ;; delta <- mk v ;; datetime_sub now delta) = Ok d ->
             valid d = true).
  { intros n mk d. destruct n as [v|]; cbn [bind]; [|discriminate].
    destruct (mk v) as [delta|]; cbn [bind]; [|discriminate].
    apply datetime_sub_valid. }
  destruct (contains "ago" t).
  - apply Hrel. intros d.
    repeat match goal with
    | |- context [if ?c then _ else _] => destruct c
    end;
    first [ apply Hsub | intros E; injection E as <-; exact Hnow ].
  - destruct (contains "today" t).
    { intros E. injection E as <-. eauto. }
    destruct (contains "yesterday" t).
    { destruct (timedelta_new 1 0 0 0 0 0) as [delta|]; cbn [bind]; [|discriminate].
      apply Hrel. intros d. apply datetime_sub_valid. }
    rewrite try_formats_first_parse by exact Hnow.
    destruct (first_parse (strip t) formats) as [d|] eqn:Hp.
    + intros E. injection E as <-.
      assert (Hd := first_parse_valid _ _ _ Hp).
      destruct (Z.eqb_spec (year d) 1900) as [Hy|Hy].
      * eexists. split; [|reflexivity].
        apply (with_year_valid d (year now) Hd Hy (valid_year now Hnow)).
      * eauto.
    + intros E. injection E as <-. eauto.
Qed.

(** C8.  The normalizer never raises and always returns a timestamp: for
    every text its value is the ISO text of a datetime Python can hold; when
    the [try] body raises, and when the text holds no relative phrase, no
    "today" or "yesterday" and no format parses it, that datetime is [now]
    (so for "not a date"). *)
Theorem parse_date_total (now : datetime) (text : string) :
  valid now = true ->
  (exists d, valid d = true /\ _parse_date now text = isoformat d)
  /\ (forall e, _parse_date_try now text = Raise e ->
        _parse_date now text = isoformat now)
  /\ (let t := strip (lower text) in
      contains "ago" t = false -> contains "today" t = false ->
      contains "yesterday" t = false ->
      first_parse (strip t) formats = None ->
      _parse_date now text = isoformat now)
  /\ _parse_date now "not a date" = isoformat now.
Proof.
  intros Hnow. split; [|split; [|split]].
  - unfold _parse_date. destruct (_parse_date_try now text) as [s|] eqn:E.
    + eapply parse_date_try_valid; eassumption.
    + eauto.
  - intros e E. unfold _parse_date. now rewrite E.
  - intros t Hago Htoday Hyest Hnone.
    unfold _parse_date, _parse_date_try. fold t.
    rewrite Hago, Htoday, Hyest, (try_formats_first_parse now t formats Hnow), Hnone.
    reflexivity.
  - unfold _parse_date, _parse_date_try.
    change (strip (lower "not a date")) with "not a date".
    change (contains "ago" "not a date") with false.
    change (contains "today" "not a date") with false.
    change (contains "yesterday" "not a date") with false.
    cbv iota.
    rewrite (try_formats_first_parse now _ formats Hnow).
    reflexivity.
Qed.

(** C10.  When the first format that parses an absolute date yields the year
    1900, written out ("Jan 5, 1900") or left to [strptime]'s default
    ("Jan 5"), the normalizer returns the date with the year of [now]. *)
Theorem year_1900_replaced (now : datetime) (text : string) (d : datetime) :
  valid now = true ->
  let t := strip (lower text) in
  contains "ago" t = false -> contains "today" t = false ->
  contains "yesterday" t = false ->
  first_parse (strip t) formats = Some d ->
  year d = 1900 ->
  _parse_date now text = isoformat (with_year d (year now)).
Proof.
  intros Hnow t Hago Htoday Hyest Hp Hy.
  unfold _parse_date, _parse_date_try. fold t.
  rewrite Hago, Htoday, Hyest, (try_formats_first_parse now t formats Hnow), Hp.
  rewrite Hy. reflexivity.
Qed.

Lemma parse_date_total_witness :
  _parse_date Fixture.now0 "next tuesday" = isoformat Fixture.now0.
Proof.
  destruct (parse_date_total Fixture.now0 "next tuesday" eq_refl) as (_ & _ & H & _).
  apply H; reflexivity.
Defined.

Lemma year_1900_replaced_witness :
  _parse_date Fixture.now0 "Jan 5, 1900" = "2024-01-05T00:00:00".
Proof.
  exact (year_1900_replaced Fixture.now0 "Jan 5, 1900" (mk_datetime 1900 1 5 0 0 0 0)
           eq_refl eq_refl eq_refl eq_refl eq_refl eq_refl).
Defined.

(** The absolute dates listed by the specification. *)
Example absolute_dates_of_the_spec :
  map (_parse_date Fixture.now0) ["Jan 5, 2023"; "Jan 5"; "today"; "yesterday"]
  = ["2023-01-05T00:00:00"; "2024-01-05T00:00:00"; "2024-06-15T12:00:00";
     "2024-06-14T12:00:00"].
Proof. vm_compute. reflexivity. Qed.

(** ** The extractor *)

Section Extractor.
Context {W : World}.

Lemma scrape_article_cases (now : datetime) (id : string) (cfg : source_config)
  (n : tag) :
  match scrape_article now id cfg n with
  | Ok (Some a) => survives cfg n = true /\ stub_of id cfg n a
  | Ok None => survives cfg n = false
  | Raise _ => survives cfg n = false
  end.
Proof.
  unfold scrape_article, survives, stub_of, link_href, optional_text, text_under.
  destruct (select_one n (title_selector cfg)) as [[te|]|]; cbn [bind];
    try reflexivity.
  destruct (get_text te "") as [text|]; cbn [bind]; try reflexivity.
  destruct (select_one n (link_selector cfg)) as [[le|]|]; cbn [bind];
    try reflexivity.
  destruct (attr le "href") as [[href|]|]; cbn [bind]; try reflexivity.
  unfold resolve_href, is_http_url.
  destruct (startswith href "http://" || startswith href "https://") eqn:Hs;
    cbn [bind];
    [|destruct (urljoin bracketed_netloc_ok (url cfg) href) as [link|] eqn:Hj;
      cbn [bind]; try reflexivity].
  all: repeat match goal with
         | |- context [given ?o] => destruct (given o) as [?|]; cbn [bind]
         | |- context [select_one ?x ?sel] =>
             destruct (select_one x sel) as [[?|]|]; cbn [bind]; try reflexivity
         | |- context [get_text ?t ""] =>
             destruct (get_text t "") as [?|]; cbn [bind]; try reflexivity
         end;
    (split; [reflexivity|]);
    cbn [title article_url Scraper.source_id source_name content];
    repeat split; exists href; now rewrite Hs.
Qed.

Lemma scrape_articles_spec (now : datetime) (id : string) (cfg : source_config)
  (l : list tag) :
  forall acc, exists stubs,
    scrape_articles now id cfg l acc = (acc ++ stubs)%list
    /\ Forall2 (stub_of id cfg) (List.filter (survives cfg) l) stubs.
Proof.
  induction l as [|n l IH]; intros acc; cbn [scrape_articles List.filter].
  - exists []. split; [now rewrite app_nil_r | constructor].
  - assert (H := scrape_article_cases now id cfg n).
    destruct (scrape_article now id cfg n) as [[a|]|e].
    + destruct H as [-> Ha]. destruct (IH (acc ++ [a])%list) as (stubs & -> & Hs).
      exists (a :: stubs). split; [now rewrite <- app_assoc | now constructor].
    + rewrite H. apply IH.
    + rewrite H. apply IH.
Qed.

(** C2 (amended).  When the source page is fetched, parsed, and searched
    with the article selector, the extractor returns one stub per candidate
    node, in document order, for exactly the candidates whose title selector
    matches, whose link selector matches an element with an [href] that
    resolves, and on which no call of BeautifulSoup raises; every other
    candidate is skipped.  A stub's title is the stripped text of the title
    element, which may be empty.  An exception of the parser or of the
    article selector is not caught: it leaves the extractor. *)
Theorem extract_one_stub_per_surviving_node (now : datetime) (id : string)
  (cfg : source_config) (html : string) :
  _make_request (url cfg) = Ok (Some html) -> html <> "" ->
  (forall soup candidates,
      BeautifulSoup html = Ok soup ->
      select soup (article_selector cfg) = Ok candidates ->
      exists stubs,
        _scrape_source now id cfg = Ok stubs
        /\ Forall2 (stub_of id cfg) (List.filter (survives cfg) candidates) stubs)
  /\ (forall e, BeautifulSoup html = Raise e -> _scrape_source now id cfg = Raise e)
  /\ (forall soup e,
        BeautifulSoup html = Ok soup ->
        select soup (article_selector cfg) = Raise e ->
        _scrape_source now id cfg = Raise e).
Proof.
  intros Hreq Hne. unfold _scrape_source. rewrite Hreq. cbn [bind].
  replace (nonempty html) with true
    by (symmetry; unfold nonempty; apply negb_true_iff; now apply String.eqb_neq).
  cbn [negb]. repeat split.
  - intros soup candidates -> . cbn [bind]. intros ->. cbn [bind].
    destruct (scrape_articles_spec now id cfg candidates []) as (stubs & Heq & Hs).
    exists stubs. now rewrite Heq.
  - now intros e ->.
  - intros soup e ->. cbn [bind]. now intros ->.
Qed.

End Extractor.

Lemma extract_six_cards_witness :
  exists stubs,
    _scrape_source (W := Fixture.world Fixture.six_cards_site)
      Fixture.now0 "cnbc" Fixture.cnbc = Ok stubs
    /\ Forall2 (stub_of (W := Fixture.world Fixture.six_cards_site) "cnbc" Fixture.cnbc)
         (List.filter (survives (W := Fixture.world Fixture.six_cards_site) Fixture.cnbc)
            Fixture.six_cards)
         stubs.
Proof.
  apply (proj1 (extract_one_stub_per_surviving_node
                  (W := Fixture.world Fixture.six_cards_site)
                  Fixture.now0 "cnbc" Fixture.cnbc "six cards"
                  eq_refl ltac:(discriminate))
           (Fixture.listing Fixture.cnbc Fixture.six_cards));
    reflexivity.
Defined.

(** Five well-formed candidates and one without a title give five stubs, in
    document order. *)
Example five_of_six_cards :
  exists stubs,
    _scrape_source (W := Fixture.world Fixture.six_cards_site)
      Fixture.now0 "cnbc" Fixture.cnbc = Ok stubs
    /\ map title stubs = ["Alpha"; "Beta"; "Gamma"; "Delta"; "Epsilon"].
Proof. eexists. split; [vm_compute; reflexivity | reflexivity]. Qed.

(** A candidate whose title element holds no text is kept, with an empty
    title. *)
Lemma extract_keeps_empty_title :
  exists stubs,
    _scrape_source (W := Fixture.world Fixture.odd_cards_site)
      Fixture.now0 "cnbc" Fixture.cnbc = Ok stubs
    /\ map title stubs = [""; "Contact"].
Proof. eexists. split; [vm_compute; reflexivity | reflexivity]. Qed.

(** With a date selector the library does not accept, every candidate is
    skipped: the six cards give no stub, and no error. *)
Example rejected_date_selector_skips_every_candidate :
  date_selector Fixture.cnbc = Some "time"
  /\ _scrape_source (W := Fixture.rejecting Fixture.six_cards_site "time")
       Fixture.now0 "cnbc" Fixture.cnbc = Ok [].
Proof. split; vm_compute; reflexivity. Qed.

(** With an article selector the library does not accept, the exception
    leaves [_scrape_source]; [fetch_news] logs it and goes on without the
    source. *)
Example rejected_article_selector_raises :
  _scrape_source
    (W := Fixture.rejecting Fixture.six_cards_site (article_selector Fixture.cnbc))
    Fixture.now0 "cnbc" Fixture.cnbc = Raise OtherException
  /\ fetch_news
       (W := Fixture.rejecting Fixture.six_cards_site (article_selector Fixture.cnbc))
       Fixture.now0 (Some ["cnbc"]) false true = mk_run (Ok []) None.
Proof. split; vm_compute; reflexivity. Qed.

(** ** URLs *)

Lemma prefix_empty (s : string) : String.prefix "" s = true.
Proof. destruct s; reflexivity. Qed.

Lemma prefix_inv (p s : string) :
  String.prefix p s = true -> exists rest, s = p ++ rest.
Proof.
  revert s. induction p as [|c p IH]; intros s H.
  - exists s. reflexivity.
  - destruct s as [|x s]; [discriminate|]. simpl in H.
    destruct (ascii_dec c x) as [->|]; [|discriminate].
    destruct (IH s H) as [rest ->]. now exists rest.
Qed.

Lemma prefix_app (p a b : string) :
  String.prefix p a = true -> String.prefix p (a ++ b) = true.
Proof.
  revert a. induction p as [|c p IH]; intros a H.
  - destruct (a ++ b); reflexivity.
  - destruct a as [|x a]; [discriminate|]. simpl in *.
    destruct (ascii_dec c x); [now apply IH | discriminate].
Qed.

Lemma is_http_url_app (u v : string) :
  is_http_url u = true -> is_http_url (u ++ v) = true.
Proof.
  unfold is_http_url, startswith. intros H.
  apply orb_true_iff in H. apply orb_true_iff.
  destruct H as [H|H]; [left|right]; now apply prefix_app.
Qed.

(** Put back together under the scheme [http] or [https], a URL starts with
    that scheme and two slashes. *)
Lemma urlunparse_http (sch nl p pa qu fr : string) :
  sch = "http" \/ sch = "https" ->
  is_http_url (urlunparse sch nl p pa qu fr) = true.
Proof.
  intros Hs. unfold urlunparse, urlunsplit.
  set (u := if nonempty pa then p ++ ";" ++ pa else p).
  assert (Hsch : nonempty sch = true /\ mem sch uses_netloc = true)
    by (destruct Hs as [-> | ->]; split; reflexivity).
  destruct Hsch as [-> ->]. cbn [andb].
  assert (Hcore : forall body, String.prefix "//" body = true ->
                               is_http_url (sch ++ ":" ++ body) = true).
  { intros body Hb. apply prefix_inv in Hb as [rest ->].
    unfold is_http_url, startswith.
    destruct Hs as [-> | ->]; cbn; now rewrite prefix_empty. }
  assert (Hbody : String.prefix "//"
                    (if nonempty nl || negb (startswith u "//")
                     then "//" ++ nl ++ (if nonempty u && negb (startswith u "/")
                                         then "/" ++ u else u)
                     else u) = true).
  { destruct (nonempty nl || negb (startswith u "//")) eqn:E;
      [cbn; apply prefix_empty|].
    apply orb_false_iff in E as [_ E]. now apply negb_false_iff in E. }
  specialize (Hcore _ Hbody).
  destruct (nonempty qu), (nonempty fr);
    [ do 2 apply is_http_url_app | apply is_http_url_app
    | apply is_http_url_app | ]; exact Hcore.
Qed.

Section UrlFacts.
Variable ok : string -> bool.

Lemma urlparse_scheme (url sch : string) (b : ParseResult) :
  urlparse ok url sch = Ok b ->
  exists r, urlsplit ok url sch = Ok r /\ scheme b = s_scheme r.
Proof.
  unfold urlparse. destruct (urlsplit ok url sch) as [r|]; cbn [bind]; [|discriminate].
  destruct (if mem (s_scheme r) uses_params && has ";" (s_path r)
            then _splitparams (s_path r) else (s_path r, "")) as [u p].
  intros E. injection E as <-. exists r. auto.
Qed.

Lemma urlsplit_http_scheme (base : string) (r : SplitResult) :
  is_http_url base = true -> urlsplit ok base "" = Ok r ->
  s_scheme r = "http" \/ s_scheme r = "https".
Proof.
  unfold is_http_url, startswith. intros H.
  apply orb_true_iff in H.
  destruct H as [H|H]; apply prefix_inv in H as [rest ->];
    unfold urlsplit; cbn -[_splitnetloc has];
    destruct (_splitnetloc (filter (fun c => negb (unsafe_byte c)) rest))
      as [nl u];
    repeat match goal with
    | |- context [if ?c then _ else _] => destruct c; cbn [bind]; try discriminate
    end;
    repeat match goal with
    | |- context [partition ?c ?s] => destruct (partition c s) as [[? ?]|]
    end;
    intros E; injection E as <-; cbn; auto.
Qed.

Lemma urlparse_http_scheme (base : string) (b : ParseResult) :
  is_http_url base = true -> urlparse ok base "" = Ok b ->
  scheme b = "http" \/ scheme b = "https".
Proof.
  intros Hb Hp. apply urlparse_scheme in Hp as (r & Hr & ->).
  eapply urlsplit_http_scheme; eassumption.
Qed.

(** What [urljoin] returns for an [http(s)] base: a URL that starts with
    [http://] or [https://], or the second argument itself when it carries a
    scheme other than the base's. *)
Lemma urljoin_http (base href r : string) :
  is_http_url base = true -> urljoin ok base href = Ok r ->
  is_http_url r = true
  \/ (r = href
      /\ exists b u, urlparse ok base "" = Ok b
                     /\ urlparse ok href (scheme b) = Ok u
                     /\ scheme u <> scheme b).
Proof.
  intros Hbase. unfold urljoin.
  destruct (nonempty base) eqn:Hnb; cbn [negb].
  2:{ unfold nonempty in Hnb. apply negb_false_iff, String.eqb_eq in Hnb.
      subst base. discriminate Hbase. }
  destruct (nonempty href); cbn [negb].
  2:{ intros E. injection E as <-. now left. }
  destruct (urlparse ok base "") as [b|] eqn:Hb; cbn [bind]; [|discriminate].
  assert (Hsch := urlparse_http_scheme base b Hbase Hb).
  destruct (urlparse ok href (scheme b)) as [u|] eqn:Hu; cbn [bind]; [|discriminate].
  destruct (String.eqb_spec (scheme u) (scheme b)) as [Heq|Hne]; cbn [negb orb].
  2:{ intros E. injection E as <-. right. split; [reflexivity|]. eauto. }
  rewrite Heq.
  assert (Hrel : mem (scheme b) uses_relative = true)
    by (destruct Hsch as [-> | ->]; reflexivity).
  rewrite Hrel. cbn [negb].
  repeat match goal with
  | |- context [if ?c then _ else _] =>
      lazymatch c with
      | context [nonempty (join _ _)] => fail
      | _ => destruct c
      end
  end;
  intros E; injection E as <-; left; now apply urlunparse_http.
Qed.

End UrlFacts.

Section ExtractorUrls.
Context {W : World}.

Lemma Forall2_in_r {A B : Type} (R : A -> B -> Prop) (l : list A) (l' : list B) (y : B) :
  Forall2 R l l' -> In y l' -> exists x, In x l /\ R x y.
Proof.
  induction 1 as [|x y' l l' Hxy _ IH]; intros Hin; [contradiction|].
  destruct Hin as [<- | Hin].
  - exists x. split; [now left | assumption].
  - destruct (IH Hin) as (x' & Hx' & Hr). exists x'. split; [now right | assumption].
Qed.

Lemma scrape_source_stubs (now : datetime) (id : string) (cfg : source_config)
  (stubs : list article) (a : article) :
  _scrape_source now id cfg = Ok stubs -> In a stubs ->
  exists n, stub_of id cfg n a.
Proof.
  unfold _scrape_source.
  destruct (_make_request (url cfg)) as [[html|]|]; cbn [bind]; try discriminate.
  2:{ intros E. injection E as <-. contradiction. }
  destruct (negb (nonempty html)).
  { intros E. injection E as <-. contradiction. }
  destruct (BeautifulSoup html) as [soup|]; cbn [bind]; [|discriminate].
  destruct (select soup (article_selector cfg)) as [candidates|]; cbn [bind];
    [|discriminate].
  intros E. injection E as <-.
  destruct (scrape_articles_spec now id cfg candidates []) as (stubs & -> & Hs).
  cbn [app]. intros Hin.
  destruct (Forall2_in_r _ _ _ _ Hs Hin) as (n & _ & Hn). eauto.
Qed.

(** C3 (amended).  For a source whose URL starts with [http://] or
    [https://], every stub's url either starts with [http://] or [https://]
    (an [href] of that form is kept, any other is joined to the source's
    URL), or is an [href] kept unchanged because it carries a scheme of its
    own, other than the source's (such as [mailto:]).  With the base
    [https://example.com/news/] the href [/story/123] resolves to
    [https://example.com/story/123]. *)
Theorem stub_url_absolute (now : datetime) (id : string) (cfg : source_config) :
  is_http_url (url cfg) = true ->
  (forall stubs a,
      _scrape_source now id cfg = Ok stubs -> In a stubs ->
      is_http_url (article_url a) = true
      \/ foreign_scheme (url cfg) (article_url a))
  /\ (url cfg = "https://example.com/news/" ->
      resolve_href cfg "/story/123" = Ok "https://example.com/story/123").
Proof.
  intros Hbase. split.
  - intros stubs a Hs Hin.
    destruct (scrape_source_stubs now id cfg stubs a Hs Hin)
      as (n & _ & (href & _ & Hres) & _).
    unfold resolve_href in Hres.
    destruct (is_http_url href) eqn:Hh.
    + injection Hres as <-. now left.
    + apply (urljoin_http _ _ _ _ Hbase) in Hres
        as [Hr | (-> & b & p & Hb & Hp & Hne)]; [now left | right].
      exists b, p. auto.
  - intros E. unfold resolve_href. rewrite E. reflexivity.
Qed.

End ExtractorUrls.


Lemma stub_url_absolute_witness :
  is_http_url "mailto:desk@cnbc.com" = true
  \/ foreign_scheme (W := Fixture.world Fixture.odd_cards_site)
       (url Fixture.cnbc) "mailto:desk@cnbc.com".
Proof.
  eapply (proj1 (stub_url_absolute (W := Fixture.world Fixture.odd_cards_site)
                   Fixture.now0 "cnbc" Fixture.cnbc eq_refl)
            _ (Fixture.stub "cnbc" Fixture.cnbc "Contact" "mailto:desk@cnbc.com"
                 "2024-06-15T12:00:00")).
  - vm_compute. reflexivity.
  - right. left. reflexivity.
Defined.

(** Every registered source has an [https] URL. *)
Lemma registered_urls_are_https :
  Forall (fun entry => is_http_url (url (snd entry)) = true) SOURCES.
Proof. repeat constructor. Qed.

(** An [href] with the scheme [mailto] goes into the stub as it is. *)
Lemma stub_url_mailto :
  exists stubs,
    _scrape_source (W := Fixture.world Fixture.odd_cards_site)
      Fixture.now0 "cnbc" Fixture.cnbc = Ok stubs
    /\ map article_url stubs = ["https://www.cnbc.com/empty"; "mailto:desk@cnbc.com"]
    /\ is_http_url "mailto:desk@cnbc.com" = false.
Proof. eexists. split; [vm_compute; reflexivity | split; reflexivity]. Qed.

(** ** The enricher *)

Section Enricher.
Context {W : World}.

Lemma map_result_ok {A B : Type} (f : A -> result B) (l : list A) (ys : list B) :
  Forall2 (fun x y => f x = Ok y) l ys -> map_result f l = Ok ys.
Proof.
  induction 1 as [|x y l ys Hxy _ IH]; [reflexivity|].
  cbn [map_result]. now rewrite Hxy, IH.
Qed.

Lemma map_result_raise {A B : Type} (f : A -> result B) (l : list A) (x : A) (e : exn) :
  In x l -> f x = Raise e -> exists e', map_result f l = Raise e'.
Proof.
  induction l as [|x' l IH]; [contradiction|]. intros [-> | Hin] Hx; cbn [map_result].
  - rewrite Hx. eauto.
  - destruct (f x'); [|eauto]. destruct (IH Hin Hx) as (e' & ->). eauto.
Qed.

(** C7 (amended).  [fetch_article_content] returns an article in every case:
    the same article when its url is empty, when the fetch raises or yields
    nothing, when a call of BeautifulSoup raises, and when no body selector
    matches and the page has no paragraph; the article with [content] set to
    the cleaned text of the first body container that matches, or, when
    none matches, to the stripped texts of the paragraphs that are not
    blank, one per line; either text may be the empty string. *)
Theorem enrich_never_fails (a : article) :
  (article_url a = "" -> fetch_article_content a = a)
  /\ (forall e, _make_request (article_url a) = Raise e ->
        fetch_article_content a = a)
  /\ (_make_request (article_url a) = Ok None -> fetch_article_content a = a)
  /\ (_make_request (article_url a) = Ok (Some "") -> fetch_article_content a = a)
  /\ (forall html,
        article_url a <> "" -> html <> "" ->
        _make_request (article_url a) = Ok (Some html) ->
        (forall e, BeautifulSoup html = Raise e -> fetch_article_content a = a)
        /\ forall parsed,
             BeautifulSoup html = Ok parsed ->
             (forall e, decompose parsed stripped_tags = Raise e ->
                fetch_article_content a = a)
             /\ forall soup,
                  decompose parsed stripped_tags = Ok soup ->
                  (forall e, first_body soup body_selectors = Raise e ->
                     fetch_article_content a = a)
                  /\ (forall article_body,
                        first_body soup body_selectors = Ok (Some article_body) ->
                        (forall e,
                            get_text article_body (String newline "") = Raise e ->
                            fetch_article_content a = a)
                        /\ (forall text,
                               get_text article_body (String newline "") = Ok text ->
                               fetch_article_content a
                               = set_content a (clean (strip text))))
                  /\ (first_body soup body_selectors = Ok None ->
                      (forall e, find_all soup "p" = Raise e ->
                         fetch_article_content a = a)
                      /\ (find_all soup "p" = Ok [] -> fetch_article_content a = a)
                      /\ (forall paragraphs,
                             find_all soup "p" = Ok paragraphs -> paragraphs <> [] ->
                             (forall p e,
                                 In p paragraphs -> get_text p "" = Raise e ->
                                 fetch_article_content a = a)
                             /\ (forall texts,
                                    Forall2 (fun p text => get_text p "" = Ok text)
                                      paragraphs texts ->
                                    fetch_article_content a
                                    = set_content a (join_nonblank texts)))))
  /\ (fetch_article_content a = a
      \/ exists text, fetch_article_content a = set_content a text).
Proof.
  unfold fetch_article_content, fetch_article_content_try.
  split; [|split; [|split; [|split; [|split]]]].
  - intros ->. reflexivity.
  - intros e ->. now destruct (negb (nonempty (article_url a))).
  - intros ->. now destruct (negb (nonempty (article_url a))).
  - intros ->. now destruct (negb (nonempty (article_url a))).
  - intros html Hurl Hhtml ->. cbn [bind].
    replace (nonempty (article_url a)) with true
      by (symmetry; apply negb_true_iff; now apply String.eqb_neq).
    replace (nonempty html) with true
      by (symmetry; apply negb_true_iff; now apply String.eqb_neq).
    cbn [negb]. split; [now intros e ->|].
    intros parsed ->. cbn [bind]. split; [now intros e ->|].
    intros soup ->. cbn [bind]. split; [now intros e ->|]. split.
    + intros article_body ->. cbn [bind]. split; [now intros e ->|].
      now intros text ->.
    + intros ->. cbn [bind]. split; [now intros e ->|]. split; [now intros ->|].
      intros paragraphs -> Hne. cbn [bind].
      destruct paragraphs as [|p0 rest]; [congruence|]. split.
      * intros p e Hin Hp.
        destruct (map_result_raise (fun p => get_text p "") _ p e Hin Hp)
          as (e' & ->).
        reflexivity.
      * intros texts Htexts.
        now rewrite (map_result_ok (fun p => get_text p "") _ _ Htexts).
  - destruct (negb (nonempty (article_url a))); [now left|].
    destruct (_make_request (article_url a)) as [[html|]|]; cbn [bind];
      [|now left|now left].
    destruct (negb (nonempty html)); [now left|].
    destruct (BeautifulSoup html) as [parsed|]; cbn [bind]; [|now left].
    destruct (decompose parsed stripped_tags) as [soup|]; cbn [bind]; [|now left].
    destruct (first_body soup body_selectors) as [[article_body|]|]; cbn [bind];
      [| |now left].
    + destruct (get_text article_body _); cbn [bind]; [right; eauto | now left].
    + destruct (find_all soup "p") as [[|p0 rest]|]; cbn [bind];
        [now left | | now left].
      destruct (map_result _ _); cbn [bind]; [right; eauto | now left].
Qed.

End Enricher.

(** A body container without text, or paragraphs that are all blank, set
    [content] to the empty string. *)
Lemma enrich_sets_empty_content :
  content (fetch_article_content (W := Fixture.world Fixture.empty_article_site)
             Fixture.alpha) = Some ""
  /\ content (fetch_article_content (W := Fixture.world Fixture.blank_paragraph_site)
                Fixture.alpha) = Some "".
Proof. split; vm_compute; reflexivity. Qed.

(** ** Sorting *)
Section SortFacts.
Context {A : Type} (key : A -> string).

Lemma ascii_compare_trans (x y z : ascii) (c : comparison) :
  Ascii.compare x y = c -> Ascii.compare y z = c -> Ascii.compare x z = c.
Proof.
  unfold Ascii.compare. intros <-.
  destruct (N.compare_spec (N_of_ascii x) (N_of_ascii y)) as [E|L|G];
    destruct (N.compare_spec (N_of_ascii y) (N_of_ascii z)) as [E'|L'|G'];
    intros H; try discriminate H.
  - rewrite E, E'. apply N.compare_refl.
  - apply N.compare_lt_iff. lia.
  - apply N.compare_gt_iff. lia.
Qed.

Lemma string_leb_trans (a b c : string) :
  String.leb a b = true -> String.leb b c = true -> String.leb a c = true.
Proof.
  unfold String.leb.
  revert b c. induction a as [|x a IH]; intros [|y b] [|z c]; simpl; try congruence.
  destruct (Ascii.compare x y) eqn:Exy; destruct (Ascii.compare y z) eqn:Eyz;
    try congruence.
  - rewrite (ascii_compare_trans x y z Eq Exy Eyz). apply IH.
  - apply Ascii.compare_eq_iff in Exy. subst y. rewrite Eyz. congruence.
  - apply Ascii.compare_eq_iff in Eyz. subst z. rewrite Exy. congruence.
  - rewrite (ascii_compare_trans x y z Lt Exy Eyz). congruence.
Qed.

Lemma string_leb_refl (a : string) : String.leb a a = true.
Proof. destruct (String.leb_total a a); assumption. Qed.

Lemma insert_desc_perm (x : A) (l : list A) :
  Permutation (Sort.insert_desc key String.leb x l) (x :: l).
Proof.
  induction l as [|y l IH]; simpl; [reflexivity|].
  destruct (String.leb (key y) (key x)); [reflexivity|].
  rewrite IH. apply perm_swap.
Qed.

Lemma sort_desc_perm (l : list A) :
  Permutation (Sort.sort_desc key String.leb l) l.
Proof.
  induction l as [|x l IH]; simpl; [reflexivity|].
  rewrite insert_desc_perm. now constructor.
Qed.

Lemma insert_desc_sorted (x : A) (l : list A) :
  StronglySorted (ge_key key) l ->
  StronglySorted (ge_key key) (Sort.insert_desc key String.leb x l).
Proof.
  induction 1 as [|y l Hs IH Hy]; simpl.
  - constructor; [constructor | constructor].
  - destruct (String.leb (key y) (key x)) eqn:E.
    + constructor; [now constructor|].
      constructor; [exact E|].
      eapply Forall_impl; [|exact Hy]. intros z Hz. unfold ge_key in *.
      eapply string_leb_trans; eassumption.
    + constructor; [exact IH|].
      assert (Hxy : ge_key key y x).
      { unfold ge_key. destruct (String.leb_total (key x) (key y)); congruence. }
      eapply Permutation_Forall; [symmetry; apply insert_desc_perm|].
      now constructor.
Qed.

Lemma sort_desc_sorted (l : list A) :
  StronglySorted (ge_key key) (Sort.sort_desc key String.leb l).
Proof.
  induction l as [|x l IH]; simpl; [constructor | now apply insert_desc_sorted].
Qed.

Lemma insert_desc_stable (k : string) (x : A) (l : list A) :
  List.filter (with_key key k) (Sort.insert_desc key String.leb x l)
  = List.filter (with_key key k) (x :: l).
Proof.
  induction l as [|y l IH]; [reflexivity|].
  cbn [Sort.insert_desc].
  destruct (String.leb (key y) (key x)) eqn:E; [reflexivity|].
  cbn [List.filter] in *. rewrite IH. unfold with_key.
  destruct (String.eqb_spec (key x) k) as [Hx|Hx];
    destruct (String.eqb_spec (key y) k) as [Hy|Hy]; try reflexivity.
  rewrite Hx, Hy, string_leb_refl in E. discriminate.
Qed.

Lemma sort_desc_stable (k : string) (l : list A) :
  List.filter (with_key key k) (Sort.sort_desc key String.leb l)
  = List.filter (with_key key k) l.
Proof.
  induction l as [|x l IH]; [reflexivity|].
  cbn [Sort.sort_desc]. rewrite insert_desc_stable. cbn [List.filter].
  now rewrite IH.
Qed.

End SortFacts.

(** ** The orchestrator *)

Section Orchestrator.
Context {W : World}.

Lemma collect_spec (now : datetime) (l : list string) (acc : list article) :
  collect now l acc = (acc ++ flat_map (articles_of now) l)%list.
Proof.
  revert acc. induction l as [|id l IH]; intros acc; cbn [collect flat_map].
  - now rewrite app_nil_r.
  - unfold articles_of at 1. destruct (submit now id); rewrite IH.
    + now rewrite app_assoc.
    + reflexivity.
Qed.


(** [fetch_news] once at least one source is selected. *)
Lemma fetch_news_unfold (now : datetime) (sources : option (list string))
  (fetch_content save : bool) :
  selected sources <> [] ->
  fetch_news now sources fetch_content save =
    let out := sort_articles (merged now sources fetch_content) in
    if save && not_empty out then
      match json_dump output_file out with
      | None => mk_run (Ok out) (Some out)
      | Some e => mk_run (Raise e) None
      end
    else mk_run (Ok out) None.
Proof.
  intros Hne. unfold fetch_news, merged, _save_articles. cbv zeta.
  destruct (selected sources) as [|s l] eqn:E; [congruence|].
  replace (Nat.min 3 (List.length (s :: l)) <=? 0)%nat with false
    by (symmetry; apply Nat.leb_gt; cbn [List.length]; lia).
  destruct (save && not_empty _); [|reflexivity].
  now destruct (json_dump output_file _).
Qed.

Lemma fetch_news_no_source (now : datetime) (sources : option (list string))
  (fetch_content save : bool) :
  selected sources = [] ->
  fetch_news now sources fetch_content save = mk_run (Raise ValueError) None.
Proof. intros E. unfold fetch_news. now rewrite E. Qed.

Lemma fetch_news_returned (now : datetime) (sources : option (list string))
  (fetch_content save : bool) (out : list article) :
  returned (fetch_news now sources fetch_content save) = Ok out ->
  selected sources <> [] /\ out = sort_articles (merged now sources fetch_content).
Proof.
  destruct (selected sources) as [|s l] eqn:E.
  - rewrite fetch_news_no_source by exact E. discriminate.
  - assert (Hne : selected sources <> []) by (rewrite E; discriminate).
    rewrite (fetch_news_unfold _ _ _ _ Hne). cbv zeta.
    destruct (save && not_empty _); [destruct (json_dump _ _)|];
      cbn [returned]; intros H; try discriminate H; injection H as <-;
      (split; [discriminate | reflexivity]).
Qed.


(** C5.  The list [fetch_news] returns is the merged list sorted by
    [publishedAt], largest string first: a permutation of the merged list, in
    descending order, with the articles of equal [publishedAt] in the order
    they had in the merged list. *)
Theorem fetch_news_sorted (now : datetime) (sources : option (list string))
  (fetch_content save : bool) (out : list article) :
  returned (fetch_news now sources fetch_content save) = Ok out ->
  out = sort_articles (merged now sources fetch_content)
  /\ Permutation (merged now sources fetch_content) out
  /\ StronglySorted (ge_key publishedAt) out
  /\ (forall k, List.filter (with_key publishedAt k) out
                = List.filter (with_key publishedAt k)
                    (merged now sources fetch_content)).
Proof.
  intros H. apply fetch_news_returned in H as [_ ->]. unfold sort_articles.
  split; [reflexivity|]. split; [symmetry; apply sort_desc_perm|].
  split; [apply sort_desc_sorted|]. intros k. apply sort_desc_stable.
Qed.

(** C9 (amended).  With [save] set, [fetch_news] writes the full final list
    to the output file when that list is not empty, and writes nothing when
    it is empty; what it returns with [save] set it also returns without,
    and what it returns without [save] it returns with it whenever the list
    is empty or its writing succeeds. *)
Theorem persist_writes_nonempty_list (now : datetime)
  (sources : option (list string)) (fetch_content : bool) :
  let saving := fetch_news now sources fetch_content true in
  let plain := fetch_news now sources fetch_content false in
  (forall out, returned saving = Ok out -> out <> [] -> written saving = Some out)
  /\ (forall out, returned saving = Ok out -> out = [] -> written saving = None)
  /\ (forall out, returned saving = Ok out -> returned plain = Ok out)
  /\ (forall out, returned plain = Ok out ->
        out = [] \/ json_dump output_file out = None ->
        returned saving = Ok out)
  /\ written plain = None.
Proof.
  cbv zeta.
  destruct (selected sources) as [|s l] eqn:E.
  - rewrite !fetch_news_no_source by exact E. cbn.
    repeat split; intros; discriminate.
  - assert (Hne : selected sources <> []) by (rewrite E; discriminate).
    rewrite !(fetch_news_unfold _ _ _ _ Hne). cbv zeta. cbn [andb].
    set (out := sort_articles (merged now sources fetch_content)).
    assert (Hnil : not_empty out = false -> out = [])
      by (destruct out; [reflexivity | discriminate]).
    destruct (not_empty out) eqn:Hout; [destruct (json_dump output_file out) eqn:Hd|];
      cbn [returned written]; (split; [|split; [|split; [|split]]]);
      try reflexivity; intros o H; try discriminate H; injection H as <-.
    + intros [-> | Hw]; [discriminate Hout | congruence].
    + reflexivity.
    + intros ->. discriminate Hout.
    + reflexivity.
    + reflexivity.
    + intros Hne'. now specialize (Hnil eq_refl).
    + reflexivity.
    + reflexivity.
Qed.

End Orchestrator.


(** Three sources of which the second fails: the articles of the other two,
    newest first, returned and written. *)
Example three_sources_run :
  fetch_news (W := Fixture.world (Fixture.three_sources None))
    Fixture.now0 Fixture.three_ids false true
  = mk_run (Ok Fixture.march_february_january) (Some Fixture.march_february_january).
Proof. vm_compute. reflexivity. Qed.


Lemma fetch_news_sorted_witness :
  Fixture.march_february_january
  = sort_articles (merged (W := Fixture.world (Fixture.three_sources None))
                     Fixture.now0 Fixture.three_ids false)
  /\ Permutation (merged (W := Fixture.world (Fixture.three_sources None))
                    Fixture.now0 Fixture.three_ids false)
       Fixture.march_february_january
  /\ StronglySorted (ge_key publishedAt) Fixture.march_february_january
  /\ (forall k, List.filter (with_key publishedAt k) Fixture.march_february_january
                = List.filter (with_key publishedAt k)
                    (merged (W := Fixture.world (Fixture.three_sources None))
                       Fixture.now0 Fixture.three_ids false)).
Proof.
  apply (fetch_news_sorted (W := Fixture.world (Fixture.three_sources None))
           Fixture.now0 Fixture.three_ids false true).
  vm_compute. reflexivity.
Defined.

(** The three timestamps of the specification, in the order January, March,
    February, come out as March, February, January. *)
Example sort_of_the_spec :
  map publishedAt
    (sort_articles
       [Fixture.stub "a" Fixture.cnbc "" "" "2024-01-01T00:00:00";
        Fixture.stub "b" Fixture.cnbc "" "" "2024-03-01T00:00:00";
        Fixture.stub "c" Fixture.cnbc "" "" "2024-02-01T00:00:00"])
  = ["2024-03-01T00:00:00"; "2024-02-01T00:00:00"; "2024-01-01T00:00:00"].
Proof. vm_compute. reflexivity. Qed.

(** No source yields an article: with [save] set the empty list is returned
    and nothing is written. *)
Lemma empty_list_not_written :
  fetch_news (W := Fixture.world Fixture.silent_site) Fixture.now0 None false true
  = mk_run (Ok []) None.
Proof. vm_compute. reflexivity. Qed.

(** When no registered source is selected, the thread pool is asked for
    zero workers and [fetch_news] raises [ValueError]. *)
Example no_source_selected :
  fetch_news (W := Fixture.world Fixture.silent_site) Fixture.now0
    (Some ["unknown"]) false true
  = mk_run (Raise ValueError) None.
Proof. vm_compute. reflexivity. Qed.

(** ** The fetch client *)
Section FetchClient.
Context {W : World}.

(** X2.  [_make_request] makes at most three attempts: it returns the text of
    the first attempt that does not raise [RequestException], raises what
    that attempt raises otherwise, and returns [None] when all three raise
    [RequestException]. *)
Theorem make_request_three_attempts (url : string) :
  (forall text,
      _make_request url = Ok (Some text)
      <-> exists k, (k < 3)%nat /\ scraper_get url k = Ok text
                    /\ forall j, (j < k)%nat -> scraper_get url j = Raise RequestException)
  /\ (_make_request url = Ok None
      <-> forall j, (j < 3)%nat -> scraper_get url j = Raise RequestException).
Proof.
  unfold _make_request. cbn [_make_request_from].
  assert (Hlt : forall (P : nat -> Prop), P 0%nat -> P 1%nat -> P 2%nat ->
                                          forall j, (j < 3)%nat -> P j).
  { intros P H0 H1 H2 j Hj.
    destruct j as [|[|[|j]]]; [assumption | assumption | assumption | lia]. }
  split; [intros text; split | split].
  - destruct (scraper_get url 0) as [t0|e0] eqn:E0.
    { intros H. injection H as <-. exists 0%nat. repeat split; [lia | exact E0 | lia]. }
    destruct e0; try discriminate.
    destruct (scraper_get url 1) as [t1|e1] eqn:E1.
    { intros H. injection H as <-. exists 1%nat.
      repeat split; [lia | exact E1 |]. intros j Hj. now replace j with 0%nat by lia. }
    destruct e1; try discriminate.
    destruct (scraper_get url 2) as [t2|e2] eqn:E2; [|destruct e2; discriminate].
    intros H. injection H as <-. exists 2%nat.
    repeat split; [lia | exact E2 |]. intros j Hj.
    destruct j as [|[|j]]; [assumption | assumption | lia].
  - intros (k & Hk & Hget & Hbefore).
    destruct k as [|[|[|k]]]; [| | |lia].
    + now rewrite Hget.
    + rewrite (Hbefore 0%nat) by lia. now rewrite Hget.
    + rewrite (Hbefore 0%nat), (Hbefore 1%nat) by lia. now rewrite Hget.
  - destruct (scraper_get url 0) as [t0|e0] eqn:E0; [discriminate|].
    destruct e0; try discriminate.
    destruct (scraper_get url 1) as [t1|e1] eqn:E1; [discriminate|].
    destruct e1; try discriminate.
    destruct (scraper_get url 2) as [t2|e2] eqn:E2; [discriminate|].
    destruct e2; try discriminate.
    intros _. apply Hlt; assumption.
  - intros H. now rewrite (H 0%nat), (H 1%nat), (H 2%nat) by lia.
Qed.

End FetchClient.

(** Two failed attempts, then an answer. *)
Example third_attempt_answers :
  _make_request (W := Fixture.flaky_world) (url Fixture.cnbc)
  = Ok (Some "third time lucky").
Proof. reflexivity. Qed.

(** * More about the scraper *)

Lemma compare_app (a a' b b' : string) :
  String.length a = String.length a' ->
  String.compare (a ++ b) (a' ++ b')
  = match String.compare a a' with
    | Eq => String.compare b b'
    | c => c
    end.
Proof.
  revert a'. induction a as [|x a IH]; intros [|x' a'] H; try discriminate H.
  - reflexivity.
  - cbn [String.append String.compare]. injection H as H.
    destruct (Ascii.compare x x'); [apply IH; exact H | reflexivity | reflexivity].
Qed.

Lemma digit_char_compare (i j : Z) :
  0 <= i < 10 -> 0 <= j < 10 ->
  Ascii.compare (ascii_of_N (Z.to_N (48 + i))) (ascii_of_N (Z.to_N (48 + j)))
  = (i ?= j).
Proof.
  intros Hi Hj. unfold Ascii.compare.
  rewrite !N_ascii_embedding by lia.
  rewrite Z2N.inj_compare by lia.
  apply Z.add_compare_mono_l.
Qed.

Lemma string_length_app (a b : string) :
  String.length (a ++ b) = (String.length a + String.length b)%nat.
Proof. induction a as [|c a IH]; cbn; [reflexivity | now rewrite IH]. Qed.

Lemma digits_of_length (k : nat) (n : Z) : String.length (digits_of k n) = k.
Proof.
  revert n. induction k as [|k IH]; intros n; [reflexivity|].
  cbn [digits_of]. rewrite string_length_app, IH. cbn. lia.
Qed.

(** Numbers written with the same number of digits compare as their texts. *)
Lemma digits_of_compare (k : nat) :
  forall n m, 0 <= n < 10 ^ Z.of_nat k -> 0 <= m < 10 ^ Z.of_nat k ->
    String.compare (digits_of k n) (digits_of k m) = (n ?= m).
Proof.
  induction k as [|k IH]; intros n m Hn Hm.
  - cbn in *. assert (n = 0) by lia. assert (m = 0) by lia. subst. reflexivity.
  - cbn [digits_of].
    rewrite compare_app by (rewrite !digits_of_length; reflexivity).
    rewrite Nat2Z.inj_succ, Z.pow_succ_r in Hn, Hm by lia.
    rewrite IH by (Z.to_euclidean_division_equations; lia).
    cbn [String.compare].
    rewrite digit_char_compare by (apply Z.mod_pos_bound; lia).
    destruct (Z.compare_spec (n / 10) (m / 10)) as [E | L | G].
    + destruct (Z.compare_spec (n mod 10) (m mod 10)) as [E' | L' | G'];
        symmetry; [apply Z.compare_eq_iff | apply Z.compare_lt_iff
                  | apply Z.compare_gt_iff];
        Z.to_euclidean_division_equations; lia.
    + symmetry. apply Z.compare_lt_iff. Z.to_euclidean_division_equations. lia.
    + symmetry. apply Z.compare_gt_iff. Z.to_euclidean_division_equations. lia.
Qed.

Lemma zero_pad_compare (k : nat) (n m : Z) (b b' : string) :
  0 <= n < 10 ^ Z.of_nat k -> 0 <= m < 10 ^ Z.of_nat k ->
  String.compare (zero_pad k n ++ b) (zero_pad k m ++ b')
  = match n ?= m with
    | Eq => String.compare b b'
    | c => c
    end.
Proof.
  intros Hn Hm. unfold zero_pad.
  rewrite compare_app by (rewrite !digits_of_length; reflexivity).
  now rewrite digits_of_compare.
Qed.

Lemma valid_fields (t : datetime) :
  valid t = true ->
  1 <= year t <= 9999 /\ 1 <= month t <= 12
  /\ 1 <= day t <= _days_in_month (year t) (month t) /\ day t <= 31
  /\ 0 <= hour t <= 23 /\ 0 <= minute t <= 59 /\ 0 <= second t <= 59
  /\ 0 <= microsecond t <= 999999.
Proof.
  unfold valid, _check_date_fields, _check_time_fields, MINYEAR, MAXYEAR.
  intros H. apply andb_true_iff in H as [Hd Ht].
  repeat (apply andb_true_iff in Hd as [Hd ?]).
  repeat (apply andb_true_iff in Ht as [Ht ?]).
  rewrite !Z.leb_le in *.
  assert (_days_in_month (year t) (month t) <= 31).
  { unfold _days_in_month, _DAYS_IN_MONTH.
    destruct ((month t =? 2) && _is_leap (year t)); [lia|].
    destruct (month t) as [|p|p]; try lia.
    do 4 (try destruct p as [p|p|]); cbn; lia. }
  lia.
Qed.

Lemma fraction_compare (us us' : Z) :
  0 <= us <= 999999 -> 0 <= us' <= 999999 ->
  String.compare (if us =? 0 then "" else "." ++ zero_pad 6 us)
    (if us' =? 0 then "" else "." ++ zero_pad 6 us')
  = (us ?= us').
Proof.
  intros H H'.
  destruct (Z.eqb_spec us 0) as [-> | N]; destruct (Z.eqb_spec us' 0) as [-> | N'].
  - reflexivity.
  - cbn [String.append String.compare]. symmetry. apply Z.compare_lt_iff. lia.
  - cbn [String.append String.compare]. symmetry. apply Z.compare_gt_iff. lia.
  - cbn [String.append String.compare].
    replace (Ascii.compare "." ".") with Eq by reflexivity.
    unfold zero_pad. apply digits_of_compare; cbn; lia.
Qed.

(** ISO texts compare as the fields they are written from. *)
Lemma isoformat_compare (a b : datetime) :
  valid a = true -> valid b = true ->
  String.compare (isoformat a) (isoformat b) = (stamp a ?= stamp b).
Proof.
  intros Ha Hb.
  destruct (valid_fields a Ha) as (Hy & Hm & Hd & Hd31 & Hh & Hmi & Hs & Hus).
  destruct (valid_fields b Hb) as (Hy' & Hm' & Hd' & Hd31' & Hh' & Hmi' & Hs' & Hus').
  unfold isoformat, _format_time.
  repeat (rewrite zero_pad_compare by (cbn; lia);
          cbn [String.append String.compare];
          replace (Ascii.compare "-" "-") with Eq by reflexivity;
          replace (Ascii.compare "T" "T") with Eq by reflexivity;
          replace (Ascii.compare ":" ":") with Eq by reflexivity).
  rewrite fraction_compare by lia.
  unfold stamp.
  repeat match goal with
         | |- context [match ?x ?= ?y with _ => _ end] =>
             destruct (Z.compare_spec x y)
         end;
    symmetry;
    first [apply Z.compare_eq_iff; lia | apply Z.compare_lt_iff; lia
          | apply Z.compare_gt_iff; lia
          | destruct (Z.compare_spec (microsecond a) (microsecond b));
            [apply Z.compare_eq_iff | apply Z.compare_lt_iff
            | apply Z.compare_gt_iff]; lia ].
Qed.

Lemma days_before_year_next (y : Z) :
  _days_before_year (y + 1) = _days_before_year y + (if _is_leap y then 366 else 365).
Proof.
  unfold _days_before_year, _is_leap. cbv zeta.
  destruct (Z.eqb_spec (y mod 4) 0); destruct (Z.eqb_spec (y mod 100) 0);
    destruct (Z.eqb_spec (y mod 400) 0); cbn [andb orb negb];
    Z.to_euclidean_division_equations; lia.
Qed.

Lemma days_before_year_mono (y y' : Z) :
  y <= y' -> _days_before_year y <= _days_before_year y'.
Proof.
  intros H. unfold _days_before_year. cbv zeta.
  Z.to_euclidean_division_equations. lia.
Qed.

Ltac month_cases m :=
  let p := fresh "p" in
  destruct m as [|p|p]; try lia;
  do 4 (try destruct p as [p|p|]); try lia.

Lemma day_of_year_bounds (y m d : Z) :
  1 <= m <= 12 -> 1 <= d <= _days_in_month y m ->
  1 <= _days_before_month y m + d <= (if _is_leap y then 366 else 365).
Proof.
  intros Hm Hd. unfold _days_before_month, _days_in_month in *.
  destruct (_is_leap y); month_cases m; cbn -[Z.add] in *; lia.
Qed.

Lemma days_before_later_month (y m m' d : Z) :
  1 <= m -> m < m' -> m' <= 12 -> d <= _days_in_month y m ->
  _days_before_month y m + d <= _days_before_month y m'.
Proof.
  intros Hm Hlt Hm' Hd. unfold _days_before_month, _days_in_month in *.
  destruct (_is_leap y); month_cases m; month_cases m'; cbn -[Z.add] in *; lia.
Qed.

Lemma ymd2ord_lt (y m d y' m' d' : Z) :
  1 <= m <= 12 -> 1 <= d <= _days_in_month y m -> d <= 31 ->
  1 <= m' <= 12 -> 1 <= d' <= _days_in_month y' m' -> d' <= 31 ->
  date_key y m d < date_key y' m' d' ->
  _ymd2ord y m d < _ymd2ord y' m' d'.
Proof.
  intros Hm Hd H31 Hm' Hd' H31' Hlt. unfold date_key in Hlt. unfold _ymd2ord.
  assert (Hb := day_of_year_bounds y m d Hm Hd).
  assert (Hb' := day_of_year_bounds y' m' d' Hm' Hd').
  destruct (Z.lt_trichotomy y y') as [L | [E | G]]; [| |lia].
  - assert (Hnext := days_before_year_next y).
    assert (Hmono := days_before_year_mono (y + 1) y' ltac:(lia)).
    destruct (_is_leap y); lia.
  - subst y'. destruct (Z.lt_trichotomy m m') as [L | [E | G]]; [| |lia].
    + assert (H := days_before_later_month y m m' d ltac:(lia) L ltac:(lia) ltac:(lia)).
      lia.
    + subst m'. lia.
Qed.

Lemma compare_of_strictly_increasing (x y fx fy : Z) :
  (x < y -> fx < fy) -> (y < x -> fy < fx) -> (x = y -> fx = fy) ->
  (x ?= y) = (fx ?= fy).
Proof.
  intros Hlt Hgt Heq. destruct (Z.compare_spec x y); symmetry.
  - apply Z.compare_eq_iff. auto.
  - apply Z.compare_lt_iff. auto.
  - apply Z.compare_gt_iff. auto.
Qed.

(** On valid datetimes the fields, read as one number, order as instants. *)
Lemma stamp_compare (a b : datetime) :
  valid a = true -> valid b = true ->
  (stamp a ?= stamp b) = (instant a ?= instant b).
Proof.
  intros Ha Hb.
  destruct (valid_fields a Ha) as (Hy & Hm & Hd & Hd31 & Hh & Hmi & Hs & Hus).
  destruct (valid_fields b Hb) as (Hy' & Hm' & Hd' & Hd31' & Hh' & Hmi' & Hs' & Hus').
  assert (Hab := ymd2ord_lt (year a) (month a) (day a) (year b) (month b) (day b)
                   Hm Hd Hd31 Hm' Hd' Hd31').
  assert (Hba := ymd2ord_lt (year b) (month b) (day b) (year a) (month a) (day a)
                   Hm' Hd' Hd31' Hm Hd Hd31).
  assert (Heq : date_key (year a) (month a) (day a)
                = date_key (year b) (month b) (day b) ->
                toordinal a = toordinal b).
  { unfold date_key, toordinal. intros E.
    assert (year a = year b) by lia. assert (month a = month b) by lia.
    assert (day a = day b) by lia. congruence. }
  unfold date_key in *. fold (toordinal a) (toordinal b) in Hab, Hba.
  unfold stamp, instant.
  destruct (Z.lt_trichotomy ((year a * 13 + month a) * 32 + day a)
              ((year b * 13 + month b) * 32 + day b)) as [L | [E | G]].
  - specialize (Hab L). apply compare_of_strictly_increasing; lia.
  - specialize (Heq E). apply compare_of_strictly_increasing; lia.
  - specialize (Hba G). apply compare_of_strictly_increasing; lia.
Qed.

(** ISO texts of valid datetimes are ordered as the instants they denote. *)
Lemma isoformat_leb (a b : datetime) :
  valid a = true -> valid b = true ->
  String.leb (isoformat a) (isoformat b) = (instant a <=? instant b).
Proof.
  intros Ha Hb. unfold String.leb, Z.leb.
  now rewrite isoformat_compare, stamp_compare.
Qed.

(** ** [strip] *)

Lemma rstrip_idempotent (s : string) : rstrip (rstrip s) = rstrip s.
Proof.
  induction s as [|c s IH]; [reflexivity|]. cbn [rstrip].
  destruct (rstrip s) as [|x r] eqn:E.
  - destruct (isspace c) eqn:Hc; [reflexivity|]. cbn [rstrip]. now rewrite Hc.
  - cbn [rstrip]. cbn [rstrip] in IH. rewrite IH. reflexivity.
Qed.

Lemma lstrip_head (s : string) :
  match lstrip s with
  | EmptyString => True
  | String c _ => isspace c = false
  end.
Proof.
  induction s as [|c s IH]; cbn [lstrip]; [exact I|].
  destruct (isspace c) eqn:Hc; [exact IH | exact Hc].
Qed.

Lemma lstrip_rstrip (s : string) :
  match s with EmptyString => True | String c _ => isspace c = false end ->
  lstrip (rstrip s) = rstrip s.
Proof.
  destruct s as [|c s]; [reflexivity|]. intros Hc. cbn [rstrip].
  destruct (rstrip s); [rewrite Hc|]; cbn [lstrip]; now rewrite Hc.
Qed.

Lemma strip_idempotent (s : string) : strip (strip s) = strip s.
Proof.
  unfold strip. rewrite (lstrip_rstrip (lstrip s) (lstrip_head s)).
  apply rstrip_idempotent.
Qed.

(** ** What a stub holds *)

Lemma parse_date_valid (now : datetime) (text : string) :
  valid now = true -> exists d, valid d = true /\ _parse_date now text = isoformat d.
Proof.
  intros Hnow. unfold _parse_date.
  destruct (_parse_date_try now text) as [s|] eqn:E.
  - eapply parse_date_try_valid; eassumption.
  - eauto.
Qed.

Section Stubs.
Context {W : World}.

Lemma scrape_article_fields (now : datetime) (id : string) (cfg : source_config)
  (n : tag) (a : article) :
  valid now = true ->
  scrape_article now id cfg n = Ok (Some a) -> stub_fields now cfg a.
Proof.
  intros Hnow. unfold scrape_article.
  destruct (select_one n (title_selector cfg)) as [[te|]|]; cbn [bind];
    try discriminate.
  destruct (get_text te "") as [text|]; cbn [bind]; try discriminate.
  destruct (select_one n (link_selector cfg)) as [[le|]|]; cbn [bind];
    try discriminate.
  destruct (attr le "href") as [[href|]|]; cbn [bind]; try discriminate.
  destruct (if startswith href "http://" || startswith href "https://"
            then Ok href else urljoin bracketed_netloc_ok (url cfg) href)
    as [link|]; cbn [bind]; [|discriminate].
  lazymatch goal with
  | |- bind ?m _ = _ -> _ =>
      destruct m as [summary|] eqn:Hsum; cbn [bind]; [|discriminate]
  end.
  lazymatch goal with
  | |- bind ?m _ = _ -> _ =>
      destruct m as [published_at|] eqn:Hdate; cbn [bind]; [|discriminate]
  end.
  intros E. injection E as <-. unfold stub_fields, published.
  cbn [title description publishedAt].
  split; [apply strip_idempotent|]. split; [|split; [|split]].
  - destruct (given (summary_selector cfg)) as [sel|];
      [|injection Hsum as <-; reflexivity].
    destruct (select_one n sel) as [[se|]|]; cbn [bind] in Hsum;
      [|injection Hsum as <-; reflexivity | discriminate].
    destruct (get_text se ""); cbn [bind] in Hsum; [|discriminate].
    injection Hsum as <-. apply strip_idempotent.
  - intros Hg. rewrite Hg in Hsum. now injection Hsum as <-.
  - intros Hg. rewrite Hg in Hdate. now injection Hdate as <-.
  - destruct (given (date_selector cfg)) as [sel|];
      [|injection Hdate as <-; eauto].
    destruct (select_one n sel) as [[de|]|]; cbn [bind] in Hdate;
      [|injection Hdate as <-; eauto | discriminate].
    destruct (get_text de "") as [date_text|]; cbn [bind] in Hdate; [|discriminate].
    injection Hdate as <-.
    destruct (parse_date_valid now (strip date_text) Hnow) as (d & Hd & ->).
    eauto.
Qed.

Lemma scrape_articles_forall (P : article -> Prop) (now : datetime) (id : string)
  (cfg : source_config) (l : list tag) :
  (forall n a, scrape_article now id cfg n = Ok (Some a) -> P a) ->
  forall acc, Forall P acc -> Forall P (scrape_articles now id cfg l acc).
Proof.
  intros HP. induction l as [|n l IH]; intros acc Hacc; cbn [scrape_articles];
    [exact Hacc|].
  destruct (scrape_article now id cfg n) as [[a|]|e] eqn:E; try (apply IH; exact Hacc).
  apply IH. apply Forall_app. split; [exact Hacc|].
  constructor; [|constructor]. eapply HP, E.
Qed.

Lemma scrape_source_forall (P : article -> Prop) (now : datetime) (id : string)
  (cfg : source_config) (stubs : list article) :
  (forall n a, scrape_article now id cfg n = Ok (Some a) -> P a) ->
  _scrape_source now id cfg = Ok stubs -> Forall P stubs.
Proof.
  intros HP. unfold _scrape_source.
  destruct (_make_request (url cfg)) as [[html|]|]; cbn [bind]; try discriminate.
  - destruct (negb (nonempty html)).
    + intros E. injection E as <-. constructor.
    + destruct (BeautifulSoup html) as [soup|]; cbn [bind]; [|discriminate].
      destruct (select soup (article_selector cfg)) as [candidates|]; cbn [bind];
        [|discriminate].
      intros E. injection E as <-. apply scrape_articles_forall; [exact HP|constructor].
  - intros E. injection E as <-. constructor.
Qed.

(** X5.  Every stub of a source has a stripped title and description, the
    defaults where the configuration gives no selector, and a [publishedAt]
    that is the ISO text of a valid datetime. *)
Theorem stub_fields_normalised (now : datetime) (id : string) (cfg : source_config)
  (stubs : list article) :
  valid now = true ->
  _scrape_source now id cfg = Ok stubs ->
  Forall (stub_fields now cfg) stubs.
Proof.
  intros Hnow. apply scrape_source_forall.
  intros n a. now apply scrape_article_fields.
Qed.

(** ** Enrichment keeps the stub *)

Lemma same_stub_refl (a : article) : same_stub a a.
Proof. repeat split. Qed.

Lemma same_stub_set_content (a : article) (c : string) : same_stub (set_content a c) a.
Proof. repeat split. Qed.

Lemma fetch_article_content_same_stub (a : article) :
  same_stub (fetch_article_content a) a.
Proof.
  unfold fetch_article_content.
  destruct (negb (nonempty (article_url a))); [apply same_stub_refl|].
  unfold fetch_article_content_try.
  destruct (_make_request (article_url a)) as [[html|]|]; cbn [bind];
    try apply same_stub_refl.
  destruct (negb (nonempty html)); [apply same_stub_refl|].
  destruct (BeautifulSoup html) as [parsed|]; cbn [bind]; [|apply same_stub_refl].
  destruct (decompose parsed stripped_tags) as [soup|]; cbn [bind];
    [|apply same_stub_refl].
  destruct (first_body soup body_selectors) as [[article_body|]|]; cbn [bind];
    [| |apply same_stub_refl].
  - destruct (get_text article_body _); cbn [bind];
      [apply same_stub_set_content | apply same_stub_refl].
  - destruct (find_all soup "p") as [[|p0 rest]|]; cbn [bind];
      try apply same_stub_refl.
    destruct (map_result _ _); cbn [bind];
      [apply same_stub_set_content | apply same_stub_refl].
Qed.

End Stubs.

(** ** Sorting and enrichment *)

Section SortMap.
Context {A : Type} (key : A -> string) (f : A -> A).
Hypothesis key_f : forall x, key (f x) = key x.

Lemma insert_desc_map (x : A) (l : list A) :
  Sort.insert_desc key String.leb (f x) (map f l)
  = map f (Sort.insert_desc key String.leb x l).
Proof.
  induction l as [|y l IH]; [reflexivity|]. cbn [map Sort.insert_desc].
  rewrite !key_f. destruct (String.leb (key y) (key x)); [reflexivity|].
  cbn [map]. now rewrite IH.
Qed.

Lemma sort_desc_map (l : list A) :
  Sort.sort_desc key String.leb (map f l) = map f (Sort.sort_desc key String.leb l).
Proof.
  induction l as [|x l IH]; [reflexivity|]. cbn [map Sort.sort_desc].
  now rewrite IH, insert_desc_map.
Qed.

End SortMap.

Lemma Forall_exists_Forall2 {A B : Type} (R : A -> B -> Prop) (l : list A) :
  Forall (fun a => exists b, R a b) l -> exists l', Forall2 R l l'.
Proof.
  induction 1 as [|a l [b Hb] _ [l' IH]].
  - exists []. constructor.
  - exists (b :: l'). now constructor.
Qed.

Lemma StronglySorted_Forall2 {A B : Type} (R : A -> B -> Prop)
  (P : A -> A -> Prop) (Q : B -> B -> Prop) (l : list A) (l' : list B) :
  (forall x y x' y', R x x' -> R y y' -> P x y -> Q x' y') ->
  Forall2 R l l' -> StronglySorted P l -> StronglySorted Q l'.
Proof.
  intros HPQ H. induction H as [|x x' l l' Hx Hl IH]; intros Hs; [constructor|].
  apply StronglySorted_inv in Hs as [Hs Hall]. constructor; [now apply IH|].
  clear IH Hs. induction Hl as [|y y' l l' Hy Hl IH]; [constructor|].
  inversion Hall; subst. constructor; [|now apply IH]. eapply HPQ; eassumption.
Qed.

Section Chronology.
Context {W : World}.

Lemma merged_enriched (now : datetime) (sources : option (list string)) :
  merged now sources true = map fetch_article_content (merged now sources false).
Proof.
  unfold merged. cbn [andb].
  destruct (collect now (as_completed (selected sources)) []); reflexivity.
Qed.

Lemma articles_of_published (now : datetime) (id : string) :
  valid now = true ->
  Forall (fun a => exists d, published a d) (articles_of now id).
Proof.
  intros Hnow. unfold articles_of, submit.
  destruct (lookup_source SOURCES id) as [cfg|]; [|constructor].
  destruct (_scrape_source now id cfg) as [stubs|] eqn:E; [|constructor].
  apply (scrape_source_forall _ now id cfg stubs); [|exact E].
  intros n a Ha. apply (scrape_article_fields now id cfg n a Hnow Ha).
Qed.

Lemma merged_published (now : datetime) (sources : option (list string))
  (fetch_content : bool) :
  valid now = true ->
  Forall (fun a => exists d, published a d) (merged now sources fetch_content).
Proof.
  intros Hnow.
  assert (H : Forall (fun a => exists d, published a d) (merged now sources false)).
  { unfold merged. cbn [andb]. rewrite collect_spec. cbn [app].
    apply Forall_flat_map, Forall_forall. intros id _.
    now apply articles_of_published. }
  destruct fetch_content; [|exact H].
  rewrite merged_enriched. apply Forall_map.
  eapply Forall_impl; [|exact H]. intros a (d & Hd & Hp). exists d.
  split; [exact Hd|].
  destruct (fetch_article_content_same_stub a) as (_ & _ & _ & _ & _ & ->).
  exact Hp.
Qed.

(** X4.  The list [fetch_news] returns is in reverse chronological order: its
    [publishedAt] fields are the ISO texts of valid datetimes, none of them
    earlier than one that follows it. *)
Theorem fetch_news_newest_first (now : datetime) (sources : option (list string))
  (fetch_content save : bool) (out : list article) :
  valid now = true ->
  returned (fetch_news now sources fetch_content save) = Ok out ->
  exists times,
    Forall2 published out times
    /\ StronglySorted (fun d d' => instant d' <= instant d) times.
Proof.
  intros Hnow Hout. apply fetch_news_returned in Hout as [_ ->].
  assert (Hall : Forall (fun a => exists d, published a d)
                   (sort_articles (merged now sources fetch_content))).
  { eapply Permutation_Forall; [|apply (merged_published now sources fetch_content Hnow)].
    apply Permutation_sym, sort_desc_perm. }
  destruct (Forall_exists_Forall2 _ _ Hall) as (times & Htimes).
  exists times. split; [exact Htimes|].
  eapply StronglySorted_Forall2;
    [|exact Htimes | apply (sort_desc_sorted publishedAt)].
  intros a b d d' (Hd & Ha) (Hd' & Hb) Hge. unfold ge_key in Hge.
  rewrite Ha, Hb, isoformat_leb in Hge by assumption.
  now apply Z.leb_le.
Qed.

(** X6.  Asking for the content changes nothing but the content: the list
    returned with [fetch_content] is the list returned without it, each
    article enriched in place. *)
Theorem fetch_content_fills_in_place (now : datetime) (sources : option (list string))
  (save save' : bool) (out out' : list article) :
  returned (fetch_news now sources false save) = Ok out ->
  returned (fetch_news now sources true save') = Ok out' ->
  out' = map fetch_article_content out /\ Forall2 same_stub out' out.
Proof.
  intros H H'. apply fetch_news_returned in H as [_ ->].
  apply fetch_news_returned in H' as [_ ->].
  assert (E : sort_articles (merged now sources true)
              = map fetch_article_content (sort_articles (merged now sources false))).
  { rewrite merged_enriched. unfold sort_articles. apply sort_desc_map.
    intros a. now destruct (fetch_article_content_same_stub a)
      as (_ & _ & _ & _ & _ & ->). }
  split; [exact E|]. rewrite E. clear E.
  induction (sort_articles (merged now sources false)) as [|a l IH];
    cbn [map]; constructor; [apply fetch_article_content_same_stub | exact IH].
Qed.

End Chronology.

(** ** [split] and [join] *)

Lemma split_not_nil (sep : ascii) (s : string) : split sep s <> [].
Proof.
  destruct s as [|c s]; cbn [split]; [discriminate|].
  destruct (Ascii.eqb c sep); [discriminate|]. destruct (split sep s); discriminate.
Qed.

Lemma split_has_no_sep (sep : ascii) (s : string) :
  Forall (fun l => has sep l = false) (split sep s).
Proof.
  induction s as [|c s IH]; cbn [split]; [repeat constructor|].
  destruct (Ascii.eqb c sep) eqn:E; [constructor; [reflexivity | exact IH]|].
  destruct (split sep s) as [|hd tl]; [repeat constructor; cbn; now rewrite E|].
  inversion IH; subst. constructor; [cbn [has]; rewrite E; assumption | assumption].
Qed.

Lemma split_without_sep (sep : ascii) (s : string) :
  has sep s = false -> split sep s = [s].
Proof.
  induction s as [|c s IH]; [reflexivity|]. cbn [has split]. intros H.
  apply orb_false_iff in H as [Hc Hs]. rewrite Hc, (IH Hs). reflexivity.
Qed.

Lemma split_app_sep (sep : ascii) (a b : string) :
  has sep a = false -> split sep (a ++ String sep b) = a :: split sep b.
Proof.
  induction a as [|c a IH]; cbn [has String.append split]; intros H.
  - now rewrite Ascii.eqb_refl.
  - apply orb_false_iff in H as [Hc Ha]. rewrite Hc, (IH Ha). reflexivity.
Qed.

(** Joining lines that hold no separator and splitting again gives the
    lines back. *)
Lemma split_join (sep : ascii) (ls : list string) :
  ls <> [] -> Forall (fun l => has sep l = false) ls ->
  split sep (join (String sep EmptyString) ls) = ls.
Proof.
  unfold join. induction ls as [|l ls IH]; [congruence|]. intros _ H.
  inversion H as [|? ? Hl Hls]; subst. destruct ls as [|l' ls].
  - cbn [String.concat]. now apply split_without_sep.
  - change (String.concat (String sep "") (l :: l' :: ls))
      with (l ++ String sep (String.concat (String sep "") (l' :: ls))).
    rewrite split_app_sep by exact Hl. f_equal. apply IH; [discriminate | exact Hls].
Qed.

Lemma has_lstrip (c : ascii) (s : string) : has c s = false -> has c (lstrip s) = false.
Proof.
  induction s as [|x s IH]; [reflexivity|]. cbn [has lstrip]. intros H.
  destruct (isspace x); [|exact H]. apply IH.
  now apply orb_false_iff in H as [_ H].
Qed.

Lemma has_rstrip (c : ascii) (s : string) : has c s = false -> has c (rstrip s) = false.
Proof.
  induction s as [|x s IH]; [reflexivity|]. cbn [has rstrip]. intros H.
  apply orb_false_iff in H as [Hx Hs]. specialize (IH Hs).
  destruct (rstrip s) as [|y r].
  - destruct (isspace x); [reflexivity|]. cbn [has]. now rewrite Hx.
  - cbn [has] in *. now rewrite Hx, IH.
Qed.

Lemma has_strip (c : ascii) (s : string) : has c s = false -> has c (strip s) = false.
Proof. intros H. unfold strip. now apply has_rstrip, has_lstrip. Qed.

Lemma nonempty_true (s : string) : nonempty s = true <-> s <> "".
Proof.
  unfold nonempty. rewrite negb_true_iff. apply String.eqb_neq.
Qed.

(** ** The cleaned body text *)

Lemma nonblank_lines_clean (ls : list string) :
  Forall (fun l => has newline l = false) ls ->
  Forall clean_line (List.filter nonempty (map strip ls)).
Proof.
  induction 1 as [|l ls Hl _ IH]; cbn [map List.filter]; [constructor|].
  destruct (nonempty (strip l)) eqn:E; [|exact IH].
  constructor; [|exact IH]. split; [now apply nonempty_true|].
  split; [apply strip_idempotent | now apply has_strip].
Qed.

Lemma filter_strip_clean (ls : list string) :
  Forall clean_line ls -> List.filter nonempty (map strip ls) = ls.
Proof.
  induction 1 as [|l ls (Hne & Hs & _) _ IH]; cbn [map List.filter]; [reflexivity|].
  rewrite Hs. apply nonempty_true in Hne. rewrite Hne. now rewrite IH.
Qed.

Lemma clean_lines (s : string) :
  clean s = ""
  \/ (split newline (clean s) = List.filter nonempty (map strip (split newline s))
      /\ Forall clean_line (split newline (clean s))).
Proof.
  unfold clean, join_nonblank.
  assert (H := nonblank_lines_clean _ (split_has_no_sep newline s)).
  destruct (List.filter nonempty (map strip (split newline s))) as [|l ls] eqn:E.
  - left. reflexivity.
  - right. rewrite split_join.
    + split; [reflexivity | exact H].
    + discriminate.
    + eapply Forall_impl; [|exact H]. now intros x (_ & _ & Hx).
Qed.

(** Cleaning a cleaned text changes nothing. *)
Lemma clean_idempotent (s : string) : clean (clean s) = clean s.
Proof.
  destruct (clean_lines s) as [E | [E H]].
  - rewrite E. reflexivity.
  - unfold clean at 1. unfold join_nonblank. rewrite (filter_strip_clean _ H).
    rewrite E. reflexivity.
Qed.

Lemma int_acc_not_decimal (s : string) :
  all_chars isdecimal s = false -> forall acc, int_acc acc s = Raise ValueError.
Proof.
  induction s as [|c s IH]; [discriminate|]. cbn [all_chars int_acc]. intros H acc.
  destruct (isdecimal c); [apply IH; exact H | reflexivity].
Qed.

Lemma int_not_decimal (s : string) :
  s = "" \/ all_chars isdecimal s = false -> int s = Raise ValueError.
Proof.
  intros [-> | H]; [reflexivity|]. destruct s as [|c s]; [discriminate|].
  unfold int. destruct (int_max_str_digits <? _); [reflexivity|].
  now apply int_acc_not_decimal.
Qed.

(** The relative branch of [_parse_date], by the unit and the digits. *)
Lemma parse_relative (now : datetime) (text : string) :
  let t := strip (lower text) in
  contains "ago" t = true ->
  _parse_date now text =
    match unit_of t with
    | None => isoformat now
    | Some u =>
        match (n <- int (filter isdigit t) ;; ago now n u) with
        | Ok d => isoformat d
        | Raise _ => isoformat now
        end
    end.
Proof.
  intros t Hago. unfold _parse_date, _parse_date_try. fold t. rewrite Hago.
  unfold unit_of, ago.
  destruct (contains "minute" t || contains "min" t);
    [|destruct (contains "hour" t || contains "hr" t);
      [|destruct (contains "day" t);
        [|destruct (contains "week" t);
          [|destruct (contains "month" t); [|reflexivity]]]]];
    destruct (int (filter isdigit t)) as [n|]; cbn [bind]; try reflexivity;
    match goal with
    | |- context [timedelta_new ?a ?b ?c ?d ?e ?f] =>
        destruct (timedelta_new a b c d e f) as [delta|]; cbn [bind];
        [destruct (datetime_sub now delta) |]; reflexivity
    end.
Qed.

(** X9.  A relative date with no unit word, with no digit, or with a digit that
    [int] does not read, is answered with the current time. *)
Theorem relative_date_without_number (now : datetime) (text : string) :
  let t := strip (lower text) in
  contains "ago" t = true ->
  unit_of t = None \/ filter isdigit t = ""
  \/ all_chars isdecimal (filter isdigit t) = false ->
  _parse_date now text = isoformat now.
Proof.
  intros t Hago H. rewrite (parse_relative now text Hago). fold t.
  destruct H as [-> | H]; [reflexivity|].
  destruct (unit_of t); [|reflexivity].
  now rewrite (int_not_decimal _ H).
Qed.

(** X10.  A text that holds "ago" is read as its digits, all of them in order, in
    the unit of the first test that finds its word, wherever they stand;
    more than 4300 digits are not read, and the current time is returned. *)
Theorem relative_date_anywhere (now : datetime) (text : string) (u : time_unit) :
  valid now = true ->
  let t := strip (lower text) in
  let ds := filter isdigit t in
  contains "ago" t = true -> unit_of t = Some u ->
  ds <> "" -> all_chars isdecimal ds = true ->
  let target := instant now - decimal_value ds * unit_us u in
  if int_max_str_digits <? Z.of_nat (String.length ds)
  then _parse_date now text = isoformat now
  else if first_instant <=? target
  then exists d, valid d = true /\ instant d = target
                 /\ _parse_date now text = isoformat d
  else _parse_date now text = isoformat now.
Proof.
  intros Hnow t ds Hago Hu Hne Hds. cbv zeta.
  rewrite (parse_relative now text Hago). fold t. rewrite Hu. fold ds.
  destruct (int_max_str_digits <? Z.of_nat (String.length ds)) eqn:Hlen.
  { apply Z.ltb_lt in Hlen. now rewrite (int_too_long ds Hlen). }
  apply Z.ltb_ge in Hlen.
  rewrite (int_decimal ds Hne Hds Hlen). cbn [bind].
  assert (H := ago_canonical now (decimal_value ds) u Hnow
                 (decimal_value_nonneg ds Hds)).
  cbv zeta in H.
  destruct (first_instant <=? instant now - decimal_value ds * unit_us u).
  - destruct H as (d & -> & Hd & Hi). eauto.
  - now rewrite H.
Qed.

(** X11.  "today" is the current time and "yesterday" the time 24 hours before
    it, as long as that is not before the first datetime. *)
Theorem today_and_yesterday (now : datetime) (text : string) :
  valid now = true ->
  let t := strip (lower text) in
  contains "ago" t = false ->
  (contains "today" t = true -> _parse_date now text = isoformat now)
  /\ (contains "today" t = false -> contains "yesterday" t = true ->
      let target := instant now - 86400000000 in
      if first_instant <=? target
      then exists d, valid d = true /\ instant d = target
                     /\ _parse_date now text = isoformat d
      else _parse_date now text = isoformat now).
Proof.
  intros Hnow t Hago. unfold _parse_date, _parse_date_try. fold t. rewrite Hago.
  split.
  - intros ->. reflexivity.
  - intros -> ->. cbv zeta.
    assert (H := ago_canonical now 1 Days Hnow ltac:(lia)).
    cbv zeta in H. unfold ago in H.
    change (1 * unit_us Days) with 86400000000 in H.
    change (timedelta_new 1 0 0 0 0 0) with (Ok (mk_timedelta 1 0 0)) in *.
    cbn [bind] in *.
    destruct (first_instant <=? instant now - 86400000000).
    + destruct H as (d & -> & Hd & Hi). cbn [bind]. eauto.
    + rewrite H. reflexivity.
Qed.

(** ** Numerals *)

Lemma all_chars_app (f : ascii -> bool) (a b : string) :
  all_chars f (a ++ b) = all_chars f a && all_chars f b.
Proof.
  induction a as [|c a IH]; cbn [String.append all_chars]; [reflexivity|].
  now rewrite IH, andb_assoc.
Qed.

Lemma decimal_value_app (a b : string) :
  decimal_value (a ++ b)
  = decimal_value a * 10 ^ Z.of_nat (String.length b) + decimal_value b.
Proof.
  induction a as [|c a IH]; cbn [String.append decimal_value]; [lia|].
  rewrite IH, string_length_app, Nat2Z.inj_add, Z.pow_add_r by lia. ring.
Qed.

Lemma digit_char (i : Z) :
  0 <= i < 10 ->
  let c := ascii_of_N (Z.to_N (48 + i)) in
  isdecimal c = true /\ digit_value c = i.
Proof.
  intros Hi. cbv zeta. unfold isdecimal, between, digit_value, code.
  rewrite N_ascii_embedding by lia. split; [|lia].
  apply andb_true_iff. split; apply N.leb_le; lia.
Qed.

Lemma digits_of_decimal (k : nat) (n : Z) :
  all_chars isdecimal (digits_of k n) = true.
Proof.
  revert n. induction k as [|k IH]; intros n; [reflexivity|]. cbn [digits_of].
  rewrite all_chars_app, IH. cbn [all_chars andb].
  destruct (digit_char (n mod 10) (Z.mod_pos_bound n 10 ltac:(lia))) as [-> _].
  reflexivity.
Qed.

Lemma digits_of_value (k : nat) :
  forall n, 0 <= n < 10 ^ Z.of_nat k -> decimal_value (digits_of k n) = n.
Proof.
  induction k as [|k IH]; intros n Hn.
  - cbn in *. lia.
  - cbn [digits_of]. rewrite decimal_value_app.
    rewrite Nat2Z.inj_succ, Z.pow_succ_r in Hn by lia.
    rewrite IH by (Z.to_euclidean_division_equations; lia).
    cbn [String.length decimal_value].
    destruct (digit_char (n mod 10) (Z.mod_pos_bound n 10 ltac:(lia))) as [_ ->].
    change (10 ^ Z.of_nat 1) with 10. change (10 ^ Z.of_nat 0) with 1.
    Z.to_euclidean_division_equations. lia.
Qed.

Lemma digits_of_not_empty (k : nat) (n : Z) : digits_of (S k) n <> "".
Proof.
  intros E. apply (f_equal String.length) in E.
  rewrite digits_of_length in E. discriminate E.
Qed.

(** [int] reads a zero-padded numeral back. *)
Lemma int_zero_pad (k : nat) (n : Z) :
  (k < 4)%nat -> 0 <= n < 10 ^ Z.of_nat (S k) ->
  int (lstrip (zero_pad (S k) n)) = Ok n.
Proof.
  intros Hk Hn. unfold zero_pad.
  rewrite <- (append_empty_r (digits_of (S k) n)).
  rewrite lstrip_decimal by (auto using digits_of_not_empty, digits_of_decimal).
  rewrite append_empty_r, int_decimal;
    [now rewrite digits_of_value | apply digits_of_not_empty
    | apply digits_of_decimal |].
  rewrite digits_of_length. unfold int_max_str_digits. lia.
Qed.

(** ** Matching numerals *)

Import Strptime.

Lemma match_seq_digits (ds rest : string) :
  all_chars isdecimal ds = true ->
  match_seq (repeat digit (String.length ds)) (ds ++ rest) = Some (ds, rest).
Proof.
  induction ds as [|c ds IH]; [reflexivity|].
  cbn [all_chars String.length repeat String.append match_seq]. intros H.
  apply andb_true_iff in H as [Hc Hds]. unfold digit at 1. rewrite Hc.
  now rewrite (IH Hds).
Qed.

Section Alternatives.
Context {R : Type}.

Lemma year_alt (y : Z) (k : string -> string -> option R) (rest : string) :
  first_alt year_alts k (zero_pad 4 y ++ rest)
  = match k (zero_pad 4 y) rest with Some r => Some r | None => None end.
Proof.
  unfold year_alts. cbn [first_alt].
  change [digit; digit; digit; digit]
    with (repeat digit (String.length (zero_pad 4 y))).
  rewrite match_seq_digits by apply digits_of_decimal.
  destruct (k (zero_pad 4 y) rest); reflexivity.
Qed.

Lemma month_alt (m : Z) (k : string -> string -> option R) (rest : string) (r : R) :
  1 <= m <= 12 -> k (zero_pad 2 m) rest = Some r ->
  first_alt month_alts k (zero_pad 2 m ++ rest) = Some r.
Proof.
  intros Hm. month_cases m;
    match goal with
    | |- context [zero_pad 2 ?v] =>
        let s := eval vm_compute in (zero_pad 2 v) in
        change (zero_pad 2 v) with s
    end;
    intros Hk; cbn; rewrite Hk; reflexivity.
Qed.

End Alternatives.

Ltac day_cases d :=
  let p := fresh "p" in
  destruct d as [|p|p]; try lia;
  do 5 (try destruct p as [p|p|]); try lia.

Ltac pad_to_text :=
  repeat match goal with
         | |- context [zero_pad 2 (Z.pos ?v)] =>
             let s := eval vm_compute in (zero_pad 2 (Z.pos v)) in
             change (zero_pad 2 (Z.pos v)) with s
         end.

Section DayAlternatives.
Context {R : Type}.

Lemma day_alt (d : Z) (k : string -> string -> option R) (rest : string) (r : R) :
  1 <= d <= 31 -> k (zero_pad 2 d) rest = Some r ->
  first_alt day_alts k (zero_pad 2 d ++ rest) = Some r.
Proof.
  intros Hd. day_cases d; pad_to_text; intros Hk; cbn; rewrite Hk; reflexivity.
Qed.

End DayAlternatives.

(** ** [strptime] on a numeric date *)

Lemma strptime_no_match (s fmt : string) (items : list item) :
  pattern fmt = Some items -> re_match items [] s = None ->
  strptime s fmt = Raise ValueError.
Proof.
  intros Hp Hm. unfold strptime. rewrite Hp, Hm.
  destruct (negb (all_directives items)); reflexivity.
Qed.

Lemma strptime_leftover (s fmt : string) (items : list item) (found : groups)
  (rest : string) :
  pattern fmt = Some items -> re_match items [] s = Some (found, rest) ->
  rest <> "" -> strptime s fmt = Raise ValueError.
Proof.
  intros Hp Hm Hrest. unfold strptime. rewrite Hp, Hm.
  destruct (negb (all_directives items)); [reflexivity|].
  apply String.eqb_neq in Hrest. now rewrite Hrest.
Qed.

(** A match that gives the year, the month and the day as numerals. *)
Lemma strptime_numeric (s fmt : string) (items : list item) (found : groups)
  (y m d : Z) :
  pattern fmt = Some items -> all_directives items = true ->
  re_match items [] s = Some (found, "") ->
  lookup "Y" found = Some (zero_pad 4 y) ->
  lookup "m" found = Some (zero_pad 2 m) ->
  lookup "d" found = Some (zero_pad 2 d) ->
  lookup "b" found = None -> lookup "B" found = None ->
  0 <= y < 10000 -> 0 <= m < 100 -> 0 <= d < 100 ->
  strptime s fmt = datetime_new y m d 0 0 0 0.
Proof.
  intros Hp Hall Hm HY Hmo Hd Hb HB By Bm Bd.
  unfold strptime. rewrite Hp, Hall, Hm. cbn [negb String.eqb].
  unfold int_group. rewrite HY, Hmo, Hd, Hb, HB.
  rewrite !int_zero_pad by (cbn; lia). cbn [bind].
  destruct (datetime_new y m d 0 0 0 0); reflexivity.
Qed.

Lemma datetime_new_midnight (y m d : Z) :
  valid (midnight y m d) = true ->
  datetime_new y m d 0 0 0 0 = Ok (midnight y m d).
Proof.
  unfold valid, datetime_new, midnight. cbn [year month day hour minute second microsecond].
  intros ->. reflexivity.
Qed.

Lemma valid_midnight (t : datetime) :
  valid t = true -> valid (midnight (year t) (month t) (day t)) = true.
Proof.
  unfold valid, midnight. cbn [year month day hour minute second microsecond].
  intros H. apply andb_true_iff in H as [-> _]. reflexivity.
Qed.

Lemma strptime_iso_date (y m d : Z) :
  valid (midnight y m d) = true ->
  strptime (iso_date y m d) "%Y-%m-%d" = Ok (midnight y m d).
Proof.
  intros Hv. destruct (valid_fields _ Hv) as (Hy & Hm & Hd & Hd31 & _).
  cbn [year month day midnight] in *.
  rewrite <- (datetime_new_midnight y m d Hv).
  eapply (strptime_numeric _ _ _ [("d"%char, zero_pad 2 d); ("m"%char, zero_pad 2 m);
                                   ("Y"%char, zero_pad 4 y)]);
    try reflexivity; try lia.
  unfold iso_date. cbn [re_match].
  change (directive "Y") with (Some year_alts).
  change (directive "m") with (Some month_alts).
  change (directive "d") with (Some day_alts).
  cbv beta iota. rewrite year_alt.
  cbn [String.append re_match].
  replace (chr "-" "-"%char) with true by reflexivity. cbv iota.
  rewrite (month_alt m _ _ ([("d"%char, zero_pad 2 d); ("m"%char, zero_pad 2 m);
                             ("Y"%char, zero_pad 4 y)], "")); [reflexivity | lia |].
  replace (chr "-" "-"%char) with true by reflexivity. cbv iota.
  rewrite <- (append_empty_r (zero_pad 2 d)) at 1.
  apply day_alt; [lia | reflexivity].
Qed.

(** ** Texts without blanks and letters *)

Lemma iso_char_facts (c : ascii) :
  iso_char c = true ->
  lower_char c = c /\ isspace c = false
  /\ Ascii.eqb c "a" = false /\ Ascii.eqb c "o" = false /\ Ascii.eqb c "y" = false.
Proof.
  destruct c as [[] [] [] [] [] [] [] []]; intro Hc;
    try (vm_compute in Hc; discriminate Hc); vm_compute; auto.
Qed.

Lemma decimal_iso_char (c : ascii) : isdecimal c = true -> iso_char c = true.
Proof. intros H. unfold iso_char. now rewrite H. Qed.

Lemma all_chars_impl (f g : ascii -> bool) (s : string) :
  (forall c, f c = true -> g c = true) ->
  all_chars f s = true -> all_chars g s = true.
Proof.
  intros Hfg. induction s as [|c s IH]; [reflexivity|]. cbn [all_chars].
  intros H. apply andb_true_iff in H as [Hc Hs]. now rewrite (Hfg c Hc), IH.
Qed.

Lemma lower_iso (s : string) : all_chars iso_char s = true -> lower s = s.
Proof.
  induction s as [|c s IH]; [reflexivity|]. cbn [all_chars lower]. intros H.
  apply andb_true_iff in H as [Hc Hs].
  destruct (iso_char_facts c Hc) as (-> & _). now rewrite IH.
Qed.

Lemma lstrip_iso (s : string) : all_chars iso_char s = true -> lstrip s = s.
Proof.
  destruct s as [|c s]; [reflexivity|]. cbn [all_chars lstrip]. intros H.
  apply andb_true_iff in H as [Hc _].
  destruct (iso_char_facts c Hc) as (_ & -> & _). reflexivity.
Qed.

Lemma rstrip_iso (s : string) : all_chars iso_char s = true -> rstrip s = s.
Proof.
  induction s as [|c s IH]; [reflexivity|]. cbn [all_chars rstrip]. intros H.
  apply andb_true_iff in H as [Hc Hs]. rewrite (IH Hs).
  destruct (iso_char_facts c Hc) as (_ & -> & _). destruct s; reflexivity.
Qed.

Lemma strip_iso (s : string) : all_chars iso_char s = true -> strip s = s.
Proof. intros H. unfold strip. now rewrite lstrip_iso, rstrip_iso. Qed.

Lemma prefix_head (c : ascii) (p s : string) :
  String.prefix (String c p) s = true -> exists s', s = String c s'.
Proof.
  destruct s as [|x s]; cbn [String.prefix]; [discriminate|].
  destruct (ascii_dec c x) as [-> | _]; [eauto | discriminate].
Qed.

(** A text that lacks a character of a word does not hold the word. *)
Lemma contains_missing (c : ascii) (p s : string) :
  has c p = true -> has c s = false -> contains p s = false.
Proof.
  intros Hp. induction s as [|x s IH]; intros Hs.
  - destruct p; [discriminate Hp | reflexivity].
  - cbn [has] in Hs. apply orb_false_iff in Hs as [Hx Hs].
    cbn [contains]. rewrite (IH Hs), orb_false_r.
    destruct (String.prefix p (String x s)) eqn:E; [|reflexivity].
    destruct (prefix_inv _ _ E) as (rest & Hrest).
    assert (Hh : has c (p ++ rest) = true).
    { clear - Hp. induction p as [|y p IH]; [discriminate|]. cbn [has String.append] in *.
      apply orb_true_iff in Hp as [-> | Hp]; [reflexivity|].
      rewrite (IH Hp). apply orb_true_r. }
    rewrite <- Hrest in Hh. cbn [has] in Hh. rewrite Hx, Hs in Hh. discriminate Hh.
Qed.

Lemma has_iso (c : ascii) (s : string) :
  iso_char c = false -> all_chars iso_char s = true -> has c s = false.
Proof.
  intros Hc. induction s as [|x s IH]; [reflexivity|]. cbn [all_chars has].
  intros H. apply andb_true_iff in H as [Hx Hs]. rewrite (IH Hs), orb_false_r.
  apply Ascii.eqb_neq. intros ->. congruence.
Qed.

(** A text of digits and punctuation holds none of the words of a relative
    date and is its own normal form. *)
Lemma iso_text_facts (s : string) :
  all_chars iso_char s = true ->
  strip (lower s) = s /\ strip s = s
  /\ contains "ago" s = false /\ contains "today" s = false
  /\ contains "yesterday" s = false.
Proof.
  intros H. rewrite (lower_iso s H), (strip_iso s H).
  repeat split.
  - apply (contains_missing "a"); [reflexivity | now apply has_iso].
  - apply (contains_missing "o"); [reflexivity | now apply has_iso].
  - apply (contains_missing "y"); [reflexivity | now apply has_iso].
Qed.

Lemma zero_pad_iso (k : nat) (n : Z) : all_chars iso_char (zero_pad k n) = true.
Proof.
  apply (all_chars_impl isdecimal); [apply decimal_iso_char | apply digits_of_decimal].
Qed.

Lemma iso_date_chars (y m d : Z) : all_chars iso_char (iso_date y m d) = true.
Proof.
  unfold iso_date. rewrite !all_chars_app, !zero_pad_iso. reflexivity.
Qed.

Lemma try_formats_first (now : datetime) (s fmt : string) (fmts : list string)
  (d : datetime) :
  strptime (strip s) fmt = Ok d -> valid d = true -> 1 <= year now <= 9999 ->
  try_formats now s (fmt :: fmts)
  = Ok (isoformat (if year d =? 1900 then with_year d (year now) else d)).
Proof.
  intros Hs Hd Hnow. cbn [try_formats]. rewrite Hs. cbn [bind].
  destruct (Z.eqb_spec (year d) 1900) as [Hy | Hy]; [|reflexivity].
  rewrite (replace_year_1900 d (year now) Hd Hy Hnow). reflexivity.
Qed.

(** X12.  An ISO date is read as that date at midnight, in the current year when
    its year is 1900. *)
Theorem iso_date_is_read (now : datetime) (y m d : Z) :
  valid now = true -> valid (midnight y m d) = true ->
  _parse_date now (iso_date y m d)
  = isoformat (midnight (if y =? 1900 then year now else y) m d).
Proof.
  intros Hnow Hd.
  destruct (iso_text_facts _ (iso_date_chars y m d)) as (Hl & Hs & Hago & Htoday & Hyest).
  unfold _parse_date, _parse_date_try. rewrite Hl, Hago, Htoday, Hyest.
  unfold formats.
  rewrite (try_formats_first now _ _ _ (midnight y m d));
    [| rewrite Hs; now apply strptime_iso_date | exact Hd
     | apply (valid_year now Hnow)].
  cbn [year midnight]. destruct (y =? 1900); reflexivity.
Qed.

(** ** Formats that cannot match *)

Lemma match_seq_length (a : list class) :
  forall s m r, match_seq a s = Some (m, r) ->
    s = m ++ r /\ String.length m = List.length a.
Proof.
  induction a as [|c a IH]; intros s m r; cbn [match_seq].
  - intros E. injection E as <- <-. auto.
  - destruct s as [|x s]; [discriminate|]. destruct (c x); [|discriminate].
    destruct (match_seq a s) as [[m' r']|] eqn:E; [|discriminate].
    intros E'. injection E' as <- <-. destruct (IH _ _ _ E) as [-> Hl].
    cbn [String.append String.length List.length]. auto.
Qed.

Section NoMatch.
Context {R : Type}.

Lemma first_alt_none (alts : list (list class)) (k : string -> string -> option R)
  (s : string) :
  (forall a m r, In a alts -> match_seq a s = Some (m, r) -> k m r = None) ->
  first_alt alts k s = None.
Proof.
  induction alts as [|a alts IH]; intros H; [reflexivity|]. cbn [first_alt].
  destruct (match_seq a s) as [[m r]|] eqn:E.
  - rewrite (H a m r (or_introl eq_refl) E). apply IH.
    intros a' m' r' Hin. apply H. now right.
  - apply IH. intros a' m' r' Hin. apply H. now right.
Qed.

(** An expression of one or two characters, followed by something that
    the second and the third character of the text both rule out. *)
Lemma short_alt_then_stop (alts : list (list class))
  (k : string -> string -> option R) (c1 c2 c3 : ascii) (s : string) :
  Forall (fun a => List.length a = 1%nat \/ List.length a = 2%nat) alts ->
  (forall m, k m (String c2 (String c3 s)) = None) ->
  (forall m, k m (String c3 s) = None) ->
  first_alt alts k (String c1 (String c2 (String c3 s))) = None.
Proof.
  intros Hlen H2 H3. apply first_alt_none. intros a m r Hin Hm.
  rewrite Forall_forall in Hlen. specialize (Hlen a Hin).
  destruct (match_seq_length _ _ _ _ Hm) as [Hs Hl].
  destruct m as [|x1 [|x2 [|x3 m]]]; cbn [String.length] in Hl.
  - destruct Hlen; lia.
  - cbn [String.append] in Hs. injection Hs as _ <-. apply H2.
  - cbn [String.append] in Hs. injection Hs as _ _ <-. apply H3.
  - destruct Hlen; lia.
Qed.

Lemma names_fail (names : list string) (k : string -> string -> option R)
  (c : ascii) (s : string) :
  names = a_month \/ names = f_month -> isdecimal c = true ->
  first_alt (seqToRE names) k (String c s) = None.
Proof.
  intros Hn Hc. revert c Hc k s.
  apply (decimal_cases (fun c => forall k s, _ = None));
    destruct Hn as [-> | ->]; intros k s; vm_compute; reflexivity.
Qed.

End NoMatch.

Lemma short_month_alts :
  Forall (fun a => List.length a = 1%nat \/ List.length a = 2%nat) month_alts.
Proof. unfold month_alts. repeat (apply Forall_cons; [cbn; auto|]). constructor. Qed.

Lemma short_day_alts :
  Forall (fun a => List.length a = 1%nat \/ List.length a = 2%nat) day_alts.
Proof. unfold day_alts. repeat (apply Forall_cons; [cbn; auto|]). constructor. Qed.

Lemma blank_stops (items : list item) (found : groups) (c : ascii) (s : string) :
  isspace c = false -> re_match (Whitespace :: items) found (String c s) = None.
Proof. intros H. cbn [re_match spaces_then]. now rewrite H. Qed.

Lemma literal_stops (l : ascii) (items : list item) (found : groups) (c : ascii)
  (s : string) :
  chr l c = false -> re_match (Literal l :: items) found (String c s) = None.
Proof. intros H. cbn [re_match]. now rewrite H. Qed.

Lemma re_match_directive (d : ascii) (alts : list (list class)) (items : list item)
  (found : groups) (s : string) :
  directive d = Some alts ->
  re_match (Directive d :: items) found s
  = first_alt alts (fun m r => re_match items ((d, m) :: found) r) s.
Proof. intros H. cbn [re_match]. now rewrite H. Qed.

Lemma decimal_not_separator (c : ascii) :
  isdecimal c = true ->
  isspace c = false /\ chr "/" c = false /\ chr "-" c = false.
Proof.
  revert c. apply decimal_cases; vm_compute; auto.
Qed.

(** The four characters of a year. *)
Lemma zero_pad_4 (y : Z) :
  exists c1 c2 c3 c4,
    zero_pad 4 y = String c1 (String c2 (String c3 (String c4 "")))
    /\ isdecimal c1 = true /\ isdecimal c2 = true /\ isdecimal c3 = true
    /\ isdecimal c4 = true.
Proof.
  assert (Hl := digits_of_length 4 y). assert (Hd := digits_of_decimal 4 y).
  unfold zero_pad. destruct (digits_of 4 y) as [|c1 [|c2 [|c3 [|c4 [|c5 s]]]]];
    try discriminate Hl.
  cbn [all_chars] in Hd. repeat (apply andb_true_iff in Hd as [? Hd]).
  exists c1, c2, c3, c4. auto.
Qed.

(** Of the formats of [_parse_date], a text that starts with a year, a
    hyphen and two more characters can only match the first. *)
Lemma year_first_formats (y : Z) (c5 c6 : ascii) (s : string) :
  Forall (fun fmt =>
            strptime (zero_pad 4 y ++ String "-" (String c5 (String c6 s))) fmt
            = Raise ValueError)
    (tl formats).
Proof.
  destruct (zero_pad_4 y) as (c1 & c2 & c3 & c4 & E & H1 & H2 & H3 & H4).
  destruct (decimal_not_separator c2 H2) as (Hs2 & Hl2 & Hh2).
  destruct (decimal_not_separator c3 H3) as (Hs3 & Hl3 & Hh3).
  assert (Hnames : forall names (k : string -> string -> option (groups * string)),
             names = a_month \/ names = f_month ->
             first_alt (seqToRE names) k
               (zero_pad 4 y ++ String "-" (String c5 (String c6 s))) = None).
  { intros names k Hn. rewrite E. cbn [String.append]. now apply names_fail. }
  assert (Hnum : forall alts items found,
             Forall (fun a => List.length a = 1%nat \/ List.length a = 2%nat) alts ->
             (exists i items', items = i :: items'
                               /\ (i = Whitespace \/ i = Literal "/" \/ i = Literal "-")) ->
             first_alt alts (fun m r => re_match items ((found m) : groups) r)
               (zero_pad 4 y ++ String "-" (String c5 (String c6 s))) = None).
  { intros alts items found Hshort (i & items' & -> & Hi). rewrite E.
    cbn [String.append]. apply short_alt_then_stop; [exact Hshort | |];
      intros m; destruct Hi as [-> | [-> | ->]];
      first [now apply blank_stops | now apply literal_stops]. }
  unfold formats. cbn [tl].
  repeat constructor.
  all: eapply strptime_no_match; [vm_compute; reflexivity|].
  all: first
         [ rewrite (re_match_directive "b" (seqToRE a_month)) by reflexivity;
           apply Hnames; auto
         | rewrite (re_match_directive "B" (seqToRE f_month)) by reflexivity;
           apply Hnames; auto
         | rewrite (re_match_directive "d" day_alts) by reflexivity;
           apply (Hnum _ _ (fun m => [(_, m)])); [apply short_day_alts | eauto 10]
         | rewrite (re_match_directive "m" month_alts) by reflexivity;
           apply (Hnum _ _ (fun m => [(_, m)])); [apply short_month_alts | eauto 10]
         | rewrite (re_match_directive "Y" year_alts) by reflexivity;
           rewrite year_alt; rewrite literal_stops by reflexivity; reflexivity ].
Qed.

Lemma string_app_assoc (a b c : string) : (a ++ b) ++ c = a ++ (b ++ c).
Proof. induction a as [|x a IH]; cbn; [reflexivity | now rewrite IH]. Qed.

Lemma try_formats_none (now : datetime) (s : string) (fmts : list string) :
  Forall (fun fmt => strptime (strip s) fmt = Raise ValueError) fmts ->
  try_formats now s fmts = Ok (isoformat now).
Proof.
  induction 1 as [|fmt fmts H _ IH]; [reflexivity|].
  cbn [try_formats]. rewrite H. cbn [bind]. exact IH.
Qed.

Lemma zero_pad_2 (n : Z) :
  exists c1 c2, zero_pad 2 n = String c1 (String c2 "").
Proof.
  assert (Hl := digits_of_length 2 n).
  unfold zero_pad. destruct (digits_of 2 n) as [|c1 [|c2 [|c3 s]]];
    try discriminate Hl.
  eauto.
Qed.

(** The first format matches the date of a longer text and leaves the rest. *)
Lemma iso_date_prefix (y m d : Z) (c : ascii) (rest : string) :
  1 <= m <= 12 -> 1 <= d <= 31 ->
  strptime (iso_date y m d ++ String c rest) "%Y-%m-%d" = Raise ValueError.
Proof.
  intros Hm Hd.
  eapply (strptime_leftover _ _ _
            [("d"%char, zero_pad 2 d); ("m"%char, zero_pad 2 m);
             ("Y"%char, zero_pad 4 y)] (String c rest));
    [reflexivity | | discriminate].
  unfold iso_date. rewrite !string_app_assoc.
  rewrite (re_match_directive "Y" year_alts) by reflexivity.
  rewrite year_alt. cbn [String.append].
  cbn [re_match]. replace (chr "-" "-"%char) with true by reflexivity. cbv iota.
  change (directive "m") with (Some month_alts).
  change (directive "d") with (Some day_alts). cbv beta iota.
  rewrite (month_alt m _ _ ([("d"%char, zero_pad 2 d); ("m"%char, zero_pad 2 m);
                             ("Y"%char, zero_pad 4 y)], String c rest));
    [reflexivity | lia |].
  replace (chr "-" "-"%char) with true by reflexivity. cbv iota.
  apply day_alt; [lia | reflexivity].
Qed.

Lemma format_time_chars (hh mm ss us : Z) :
  all_chars iso_char (_format_time hh mm ss us) = true.
Proof.
  unfold _format_time. rewrite !all_chars_app, !zero_pad_iso.
  destruct (us =? 0); [reflexivity|]. rewrite all_chars_app, zero_pad_iso. reflexivity.
Qed.

Lemma lower_isoformat (t : datetime) :
  lower (isoformat t)
  = iso_date (year t) (month t) (day t)
    ++ String "t" (_format_time (hour t) (minute t) (second t) (microsecond t)).
Proof.
  transitivity (lower (iso_date (year t) (month t) (day t)
                       ++ String "T" (_format_time (hour t) (minute t) (second t)
                                        (microsecond t)))).
  { unfold isoformat, iso_date. now rewrite !string_app_assoc. }
  rewrite lower_app, (lower_iso _ (iso_date_chars _ _ _)). cbn [lower].
  rewrite (lower_iso _ (format_time_chars _ _ _ _)). reflexivity.
Qed.

(** X13.  The normalizer does not read its own output: an ISO timestamp, with its
    time of day, matches none of the formats and is answered with the
    current time. *)
Theorem iso_timestamp_is_not_read (now t : datetime) :
  valid t = true -> _parse_date now (isoformat t) = isoformat now.
Proof.
  intros Ht. destruct (valid_fields t Ht) as (_ & Hm & Hd & Hd31 & _).
  set (time := _format_time (hour t) (minute t) (second t) (microsecond t)).
  set (text := iso_date (year t) (month t) (day t) ++ String "t" time).
  assert (Hchars : all_chars iso_char text = true).
  { unfold text. rewrite all_chars_app, iso_date_chars. cbn [all_chars andb].
    apply format_time_chars. }
  destruct (iso_text_facts text Hchars) as (_ & Hs & Hago & Htoday & Hyest).
  unfold _parse_date, _parse_date_try. rewrite lower_isoformat. fold time text.
  rewrite Hs, Hago, Htoday, Hyest.
  rewrite try_formats_none; [reflexivity|]. rewrite Hs.
  unfold formats at 1. constructor.
  - apply iso_date_prefix; lia.
  - unfold text, iso_date. rewrite !string_app_assoc. cbn [String.append].
    destruct (zero_pad_2 (month t)) as (c5 & c6 & ->). cbn [String.append].
    apply year_first_formats.
Qed.

Lemma try_formats_skip (now : datetime) (s fmt : string) (fmts : list string) :
  strptime (strip s) fmt = Raise ValueError ->
  try_formats now s (fmt :: fmts) = try_formats now s fmts.
Proof. intros H. cbn [try_formats]. rewrite H. reflexivity. Qed.

Lemma zero_pad_2_decimal (n : Z) :
  exists c1 c2, zero_pad 2 n = String c1 (String c2 "")
                /\ isdecimal c1 = true /\ isdecimal c2 = true.
Proof.
  assert (Hd := digits_of_decimal 2 n). destruct (zero_pad_2 n) as (c1 & c2 & E).
  unfold zero_pad in E. rewrite E in Hd. cbn [all_chars] in Hd.
  repeat (apply andb_true_iff in Hd as [? Hd]). unfold zero_pad. eauto 6.
Qed.

Section TwoDigitsFirst.
Context {R : Type}.

Lemma year_alt_short (k : string -> string -> option R) (a1 a2 sep : ascii)
  (rest : string) :
  isdecimal sep = false ->
  first_alt year_alts k (String a1 (String a2 (String sep rest))) = None.
Proof.
  intros Hsep. unfold year_alts. cbn [first_alt match_seq]. unfold digit.
  rewrite Hsep. destruct (isdecimal a1), (isdecimal a2); reflexivity.
Qed.

End TwoDigitsFirst.

Lemma separator_facts (sep : ascii) :
  separator sep ->
  isdecimal sep = false /\ isspace sep = false /\ chr sep sep = true
  /\ iso_char sep = true.
Proof. intros [-> | ->]; vm_compute; auto. Qed.

(** The formats that start with a year, a name or a number and a blank do
    not match two digits and a separator. *)
Lemma two_digits_first (fmt : string) (a1 a2 sep : ascii) (rest : string) :
  isdecimal a1 = true -> isdecimal a2 = true -> separator sep ->
  In fmt ["%Y-%m-%d"; "%b %d, %Y"; "%d %b %Y"; "%B %d, %Y"; "%d %B %Y"; "%Y/%m/%d"] ->
  strptime (String a1 (String a2 (String sep rest))) fmt = Raise ValueError.
Proof.
  intros H1 H2 Hsep Hin.
  destruct (separator_facts sep Hsep) as (Hd & Hs & _).
  destruct (decimal_not_separator a2 H2) as (Hs2 & _).
  cbn [In] in Hin.
  repeat (destruct Hin as [<- | Hin]); try contradiction;
    (eapply strptime_no_match; [vm_compute; reflexivity|]);
    first
      [ rewrite (re_match_directive "Y" year_alts) by reflexivity;
        now apply year_alt_short
      | rewrite (re_match_directive "b" (seqToRE a_month)) by reflexivity;
        apply names_fail; auto
      | rewrite (re_match_directive "B" (seqToRE f_month)) by reflexivity;
        apply names_fail; auto
      | rewrite (re_match_directive "d" day_alts) by reflexivity;
        apply short_alt_then_stop;
        [apply short_day_alts | intros m; now apply blank_stops
        | intros m; now apply blank_stops] ].
Qed.

(** A format whose separator is not the one of the text does not match. *)
Lemma other_separator (fmt : string) (a1 a2 sep : ascii) (rest : string) :
  isdecimal a2 = true ->
  (sep = "-"%char /\ In fmt ["%m/%d/%Y"; "%d/%m/%Y"]) ->
  strptime (String a1 (String a2 (String sep rest))) fmt = Raise ValueError.
Proof.
  intros H2 [-> Hin].
  destruct (decimal_not_separator a2 H2) as (_ & Hl2 & _).
  cbn [In] in Hin.
  repeat (destruct Hin as [<- | Hin]); try contradiction;
    (eapply strptime_no_match; [vm_compute; reflexivity|]);
    first
      [ rewrite (re_match_directive "m" month_alts) by reflexivity;
        apply short_alt_then_stop;
        [apply short_month_alts | intros m; now apply literal_stops
        | intros m; now apply literal_stops]
      | rewrite (re_match_directive "d" day_alts) by reflexivity;
        apply short_alt_then_stop;
        [apply short_day_alts | intros m; now apply literal_stops
        | intros m; now apply literal_stops] ].
Qed.

Lemma re_match_literal (l : ascii) (items : list item) (found : groups) (c : ascii)
  (s : string) :
  chr l c = true -> re_match (Literal l :: items) found (String c s)
                    = re_match items found s.
Proof. intros H. cbn [re_match]. now rewrite H. Qed.

(** Month first: [%m<sep>%d<sep>%Y]. *)
Lemma strptime_month_first (sep : ascii) (fmt : string) (a b y : Z) :
  (sep = "/"%char /\ fmt = "%m/%d/%Y") \/ (sep = "-"%char /\ fmt = "%m-%d-%Y") ->
  valid (midnight y a b) = true ->
  strptime (numeric_date sep a b y) fmt = Ok (midnight y a b).
Proof.
  intros Hfmt Hv. destruct (valid_fields _ Hv) as (Hy & Hm & Hd & Hd31 & _).
  cbn [year month day midnight] in *.
  rewrite <- (datetime_new_midnight y a b Hv).
  eapply (strptime_numeric _ _ _ [("Y"%char, zero_pad 4 y); ("d"%char, zero_pad 2 b);
                                   ("m"%char, zero_pad 2 a)]);
    try reflexivity; try lia;
    try (destruct Hfmt as [[-> ->] | [-> ->]]; reflexivity).
  unfold numeric_date.
  destruct Hfmt as [[-> ->] | [-> ->]];
    match goal with
    | |- re_match ?its _ _ = _ =>
        let its' := eval vm_compute in its in change its with its'
    end;
    rewrite (re_match_directive "m" month_alts) by reflexivity;
    (erewrite month_alt; [reflexivity | lia |]);
    rewrite re_match_literal by reflexivity;
    rewrite (re_match_directive "d" day_alts) by reflexivity;
    (erewrite day_alt; [reflexivity | lia |]);
    rewrite re_match_literal by reflexivity;
    rewrite (re_match_directive "Y" year_alts) by reflexivity;
    rewrite <- (append_empty_r (zero_pad 4 y)) at 1;
    rewrite year_alt; reflexivity.
Qed.

(** Day first: [%d<sep>%m<sep>%Y]. *)
Lemma strptime_day_first (sep : ascii) (fmt : string) (a b y : Z) :
  (sep = "/"%char /\ fmt = "%d/%m/%Y") \/ (sep = "-"%char /\ fmt = "%d-%m-%Y") ->
  valid (midnight y b a) = true ->
  strptime (numeric_date sep a b y) fmt = Ok (midnight y b a).
Proof.
  intros Hfmt Hv. destruct (valid_fields _ Hv) as (Hy & Hm & Hd & Hd31 & _).
  cbn [year month day midnight] in *.
  rewrite <- (datetime_new_midnight y b a Hv).
  eapply (strptime_numeric _ _ _ [("Y"%char, zero_pad 4 y); ("m"%char, zero_pad 2 b);
                                   ("d"%char, zero_pad 2 a)]);
    try reflexivity; try lia;
    try (destruct Hfmt as [[-> ->] | [-> ->]]; reflexivity).
  unfold numeric_date.
  destruct Hfmt as [[-> ->] | [-> ->]];
    match goal with
    | |- re_match ?its _ _ = _ =>
        let its' := eval vm_compute in its in change its with its'
    end;
    rewrite (re_match_directive "d" day_alts) by reflexivity;
    (erewrite day_alt; [reflexivity | lia |]);
    rewrite re_match_literal by reflexivity;
    rewrite (re_match_directive "m" month_alts) by reflexivity;
    (erewrite month_alt; [reflexivity | lia |]);
    rewrite re_match_literal by reflexivity;
    rewrite (re_match_directive "Y" year_alts) by reflexivity;
    rewrite <- (append_empty_r (zero_pad 4 y)) at 1;
    rewrite year_alt; reflexivity.
Qed.

(** A first number above 12 is not a month. *)
Lemma strptime_not_a_month (sep : ascii) (fmt : string) (a : Z) (rest : string) :
  (sep = "/"%char /\ fmt = "%m/%d/%Y") \/ (sep = "-"%char /\ fmt = "%m-%d-%Y") ->
  13 <= a <= 31 ->
  strptime (zero_pad 2 a ++ String sep rest) fmt = Raise ValueError.
Proof.
  intros Hfmt Ha.
  destruct Hfmt as [[-> ->] | [-> ->]];
    (eapply strptime_no_match; [vm_compute; reflexivity|]);
    day_cases a; vm_compute; reflexivity.
Qed.

Lemma numeric_date_chars (sep : ascii) (a b y : Z) :
  separator sep -> all_chars iso_char (numeric_date sep a b y) = true.
Proof.
  intros Hsep. destruct (separator_facts sep Hsep) as (_ & _ & _ & Hc).
  unfold numeric_date. rewrite all_chars_app. cbn [all_chars].
  rewrite all_chars_app. cbn [all_chars]. now rewrite !zero_pad_iso, Hc.
Qed.

Lemma numeric_date_head (sep : ascii) (a b y : Z) :
  exists a1 a2 rest,
    numeric_date sep a b y = String a1 (String a2 (String sep rest))
    /\ isdecimal a1 = true /\ isdecimal a2 = true.
Proof.
  unfold numeric_date. destruct (zero_pad_2_decimal a) as (a1 & a2 & -> & H1 & H2).
  cbn [String.append]. eauto 7.
Qed.

(** The formats tried before the two that read a numeric date with the
    separator [sep] all fail on it. *)
Lemma numeric_date_earlier_formats (now : datetime) (sep : ascii) (a b y : Z) :
  separator sep ->
  try_formats now (numeric_date sep a b y) formats
  = try_formats now (numeric_date sep a b y)
      (if Ascii.eqb sep "/" then ["%m/%d/%Y"; "%d/%m/%Y"] ++ skipn 7 formats
       else ["%m-%d-%Y"; "%d-%m-%Y"] ++ skipn 10 formats)%list.
Proof.
  intros Hsep.
  assert (Hs := strip_iso _ (numeric_date_chars sep a b y Hsep)).
  destruct (numeric_date_head sep a b y) as (a1 & a2 & rest & E & H1 & H2).
  assert (Hfirst : forall fmt,
             In fmt ["%Y-%m-%d"; "%b %d, %Y"; "%d %b %Y"; "%B %d, %Y"; "%d %B %Y";
                     "%Y/%m/%d"] ->
             strptime (strip (numeric_date sep a b y)) fmt = Raise ValueError).
  { intros fmt Hin. rewrite Hs, E. now apply two_digits_first. }
  unfold formats.
  do 5 (rewrite try_formats_skip by (apply Hfirst; cbn; tauto)).
  destruct Hsep as [-> | ->]; [reflexivity|]. cbn [Ascii.eqb Bool.eqb skipn app].
  assert (Hother : forall fmt, In fmt ["%m/%d/%Y"; "%d/%m/%Y"] ->
             strptime (strip (numeric_date "-" a b y)) fmt = Raise ValueError).
  { intros fmt Hin. rewrite Hs, E. apply other_separator; auto. }
  do 2 (rewrite try_formats_skip by (apply Hother; cbn; tauto)).
  rewrite try_formats_skip by (apply Hfirst; cbn; tauto).
  reflexivity.
Qed.

(** X14.  In a date of two numbers and a year the first number is the month; it
    is the day only when it cannot be a month.  The year 1900 is replaced
    by the current one. *)
Theorem numeric_date_month_first (now : datetime) (sep : ascii) (a b y : Z) :
  valid now = true -> separator sep ->
  let current := if y =? 1900 then year now else y in
  (valid (midnight y a b) = true ->
   _parse_date now (numeric_date sep a b y) = isoformat (midnight current a b))
  /\ (13 <= a -> valid (midnight y b a) = true ->
      _parse_date now (numeric_date sep a b y) = isoformat (midnight current b a)).
Proof.
  intros Hnow Hsep current.
  assert (Hchars := numeric_date_chars sep a b y Hsep).
  destruct (iso_text_facts _ Hchars) as (Hl & Hs & Hago & Htoday & Hyest).
  assert (Hyear := valid_year now Hnow).
  unfold _parse_date, _parse_date_try. rewrite Hl, Hago, Htoday, Hyest.
  rewrite (numeric_date_earlier_formats now sep a b y Hsep).
  assert (Hcur : forall m d, year (midnight y m d) = y) by reflexivity.
  split.
  - intros Hv.
    assert (Hp : forall fmt,
               (sep = "/"%char /\ fmt = "%m/%d/%Y") \/ (sep = "-"%char /\ fmt = "%m-%d-%Y") ->
               strptime (strip (numeric_date sep a b y)) fmt = Ok (midnight y a b)).
    { intros fmt Hfmt. rewrite Hs. now apply strptime_month_first. }
    destruct Hsep as [-> | ->]; cbn [Ascii.eqb Bool.eqb app];
      (rewrite (try_formats_first now _ _ _ (midnight y a b));
       [|apply Hp; auto|exact Hv|exact Hyear]);
      rewrite Hcur; unfold current; destruct (y =? 1900); reflexivity.
  - intros Ha Hv. destruct (valid_fields _ Hv) as (_ & _ & _ & Ha31 & _).
    cbn [day midnight] in Ha31.
    assert (Hnot : forall fmt,
               (sep = "/"%char /\ fmt = "%m/%d/%Y") \/ (sep = "-"%char /\ fmt = "%m-%d-%Y") ->
               strptime (strip (numeric_date sep a b y)) fmt = Raise ValueError).
    { intros fmt Hfmt. rewrite Hs. apply strptime_not_a_month; [exact Hfmt | lia]. }
    assert (Hp : forall fmt,
               (sep = "/"%char /\ fmt = "%d/%m/%Y") \/ (sep = "-"%char /\ fmt = "%d-%m-%Y") ->
               strptime (strip (numeric_date sep a b y)) fmt = Ok (midnight y b a)).
    { intros fmt Hfmt. rewrite Hs. now apply strptime_day_first. }
    destruct Hsep as [-> | ->]; cbn [Ascii.eqb Bool.eqb app];
      rewrite try_formats_skip by (apply Hnot; auto);
      (rewrite (try_formats_first now _ _ _ (midnight y b a));
       [|apply Hp; auto|exact Hv|exact Hyear]);
      rewrite Hcur; unfold current; destruct (y =? 1900); reflexivity.
Qed.

Section Body.
Context {W : World}.

(** X7.  When a body container is found, [content] is its text cleaned: no
    blank line, no blank at either end of a line, and cleaning it again
    changes nothing. *)
Theorem body_content_is_clean (a : article) (html : string)
  (parsed soup article_body : tag) (text : string) :
  article_url a <> "" ->
  _make_request (article_url a) = Ok (Some html) -> html <> "" ->
  BeautifulSoup html = Ok parsed -> decompose parsed stripped_tags = Ok soup ->
  first_body soup body_selectors = Ok (Some article_body) ->
  get_text article_body (String newline EmptyString) = Ok text ->
  let c := clean (strip text) in
  fetch_article_content a = set_content a c
  /\ (c = "" \/ Forall clean_line (split newline c))
  /\ clean c = c.
Proof.
  intros Hurl Hreq Hhtml Hparsed Hsoup Hbody Htext c. split; [|split].
  - unfold fetch_article_content, fetch_article_content_try.
    apply nonempty_true in Hurl, Hhtml. rewrite Hurl, Hreq. cbn [negb bind].
    rewrite Hhtml. cbn [negb]. rewrite Hparsed. cbn [bind].
    rewrite Hsoup. cbn [bind]. rewrite Hbody. cbn [bind]. rewrite Htext.
    reflexivity.
  - unfold c. destruct (clean_lines (strip text)) as [E | [_ H]]; auto.
  - apply clean_idempotent.
Qed.

End Body.

Lemma filter_all (f : ascii -> bool) (s : string) :
  all_chars f s = true -> filter f s = s.
Proof.
  induction s as [|c s IH]; [reflexivity|]. cbn [all_chars filter]. intros H.
  apply andb_true_iff in H as [-> Hs]. now rewrite IH.
Qed.

Lemma partition_none (c : ascii) (s : string) :
  has c s = false -> partition c s = None.
Proof.
  induction s as [|x s IH]; [reflexivity|]. cbn [has partition]. intros H.
  apply orb_false_iff in H as [-> Hs]. now rewrite IH.
Qed.

Lemma has_all_chars (f : ascii -> bool) (c : ascii) (s : string) :
  f c = false -> all_chars f s = true -> has c s = false.
Proof.
  intros Hc. induction s as [|x s IH]; [reflexivity|]. cbn [all_chars has].
  intros H. apply andb_true_iff in H as [Hx Hs]. rewrite (IH Hs), orb_false_r.
  apply Ascii.eqb_neq. intros ->. congruence.
Qed.

(** Splitting at a separator and joining with it gives the text back. *)
Lemma join_split (sep : ascii) (s : string) :
  join (String sep EmptyString) (split sep s) = s.
Proof.
  unfold join. induction s as [|c s IH]; [reflexivity|]. cbn [split].
  destruct (Ascii.eqb_spec c sep) as [-> | Hc].
  - assert (Hne := split_not_nil sep s).
    destruct (split sep s) as [|hd tl] eqn:E; [congruence|].
    change (String.concat (String sep "") ("" :: hd :: tl))
      with (String sep (String.concat (String sep "") (hd :: tl))).
    now rewrite IH.
  - assert (Hne := split_not_nil sep s).
    destruct (split sep s) as [|hd tl] eqn:E; [congruence|].
    rewrite <- IH. destruct tl; reflexivity.
Qed.

Lemma resolve_plain (segments : list string) :
  Forall (fun seg => seg <> "." /\ seg <> "..") segments ->
  forall resolved, resolve segments resolved = (rev resolved ++ segments)%list.
Proof.
  induction 1 as [|seg segments [Hd Hdd] _ IH]; intros resolved; cbn [resolve].
  - now rewrite app_nil_r.
  - apply String.eqb_neq in Hd, Hdd. rewrite Hd, Hdd, IH. cbn [rev].
    now rewrite <- app_assoc.
Qed.

Section RootRelative.
Variable ok : string -> bool.

Lemma urlsplit_steps (url scheme : string) :
  urlsplit ok url scheme =
    let '(scheme, url) :=
      detect_scheme (remove_unsafe (rstrip_c0 (lstrip_c0 scheme)))
        (remove_unsafe (lstrip_c0 url)) in
    ' (netloc, url) <- detect_netloc ok url ;;
    let '(url, fragment) :=
      match partition "#" url with
      | Some (a, b) => (a, b)
      | None => (url, EmptyString)
      end in
    let '(url, query) :=
      match partition "?" url with
      | Some (a, b) => (a, b)
      | None => (url, EmptyString)
      end in
    Ok (mk_split scheme netloc url query fragment).
Proof. reflexivity. Qed.

Lemma detect_scheme_slash (sch p : string) :
  detect_scheme sch (String "/" p) = (sch, String "/" p).
Proof.
  unfold detect_scheme. cbn [partition]. change (Ascii.eqb "/" ":") with false.
  cbv iota. destruct (partition ":" p) as [[a b]|]; reflexivity.
Qed.

Lemma detect_netloc_single (p : string) :
  startswith p "/" = false -> detect_netloc ok (String "/" p) = Ok ("", String "/" p).
Proof.
  destruct p as [|c p]; [reflexivity|]. intros H.
  assert (Hc : c <> "/"%char).
  { intros ->. unfold startswith in H. cbn in H. rewrite prefix_empty in H.
    discriminate H. }
  destruct c as [[] [] [] [] [] [] [] []]; try reflexivity. congruence.
Qed.

Lemma urlparse_root_relative (href sch : string) :
  sch = "http" \/ sch = "https" -> root_relative href ->
  urlparse ok href sch = Ok (mk_parse sch "" href "" "" "").
Proof.
  intros Hsch (p & -> & Hslash & Hchars & _).
  assert (Hu : remove_unsafe p = p).
  { apply filter_all. eapply all_chars_impl; [|exact Hchars].
    intros c. unfold path_char. destruct (unsafe_byte c); [discriminate | reflexivity]. }
  assert (Hhash : has "#" p = false)
    by (apply (has_all_chars path_char); [reflexivity | exact Hchars]).
  assert (Hq : has "?" p = false)
    by (apply (has_all_chars path_char); [reflexivity | exact Hchars]).
  assert (Hsemi : has ";" p = false)
    by (apply (has_all_chars path_char); [reflexivity | exact Hchars]).
  unfold urlparse. rewrite urlsplit_steps.
  change (lstrip_c0 (String "/" p)) with (String "/" p).
  change (remove_unsafe (String "/" p)) with (String "/" (remove_unsafe p)).
  rewrite Hu.
  replace (remove_unsafe (rstrip_c0 (lstrip_c0 sch))) with sch
    by (destruct Hsch as [-> | ->]; reflexivity).
  rewrite detect_scheme_slash, (detect_netloc_single p Hslash). cbn [bind].
  rewrite !partition_none by (cbn [has]; assumption).
  cbn [bind s_scheme s_netloc s_path s_query s_fragment has].
  change (Ascii.eqb "/" ";") with false. cbn [orb].
  rewrite Hsemi, andb_false_r. reflexivity.
Qed.

End RootRelative.

Section RootRelativeJoin.
Variable ok : string -> bool.

Lemma last_in {A : Type} (l : list A) (d : A) : l <> [] -> In (last l d) l.
Proof.
  induction l as [|x l IH]; [congruence|]. intros _. destruct l as [|y l].
  - now left.
  - right. apply IH. discriminate.
Qed.

Lemma urljoin_root_relative (base href : string) (b : ParseResult) :
  urlparse ok base "" = Ok b ->
  scheme b = "http" \/ scheme b = "https" -> netloc b <> "" ->
  root_relative href ->
  urljoin ok base href = Ok (origin b ++ href).
Proof.
  intros Hb Hsch Hnl Hrel.
  assert (Hu := urlparse_root_relative ok href (scheme b) Hsch Hrel).
  destruct Hrel as (p & -> & Hslash & Hchars & Hseg).
  assert (Hbase : nonempty base = true).
  { destruct base; [|reflexivity]. vm_compute in Hb. injection Hb as <-.
    destruct Hsch as [E | E]; discriminate E. }
  unfold urljoin. rewrite Hbase, Hb. cbn [negb nonempty String.eqb bind].
  rewrite Hu. cbn [bind scheme netloc path params query fragment].
  rewrite String.eqb_refl.
  replace (mem (scheme b) uses_relative) with true
    by (destruct Hsch as [-> | ->]; reflexivity).
  replace (mem (scheme b) uses_netloc) with true
    by (destruct Hsch as [-> | ->]; reflexivity).
  cbn [negb orb andb nonempty String.eqb].
  replace (startswith (String "/" p) "/") with true
    by (unfold startswith; cbn; now rewrite prefix_empty).
  assert (Hsegs : Forall (fun seg => seg <> "." /\ seg <> "..")
                    (split "/" (String "/" p))).
  { cbn [split]. change (Ascii.eqb "/" "/") with true. cbv iota.
    constructor; [split; discriminate | exact Hseg]. }
  rewrite (resolve_plain _ Hsegs). cbn [rev app].
  assert (Hlast := last_in (split "/" (String "/" p)) "" (split_not_nil _ _)).
  rewrite Forall_forall in Hsegs. destruct (Hsegs _ Hlast) as [Hd Hdd].
  apply String.eqb_neq in Hd, Hdd. rewrite Hd, Hdd. cbn [orb].
  rewrite join_split. cbn [nonempty String.eqb negb].
  unfold urlunparse, urlunsplit, origin. cbn [nonempty String.eqb negb].
  apply nonempty_true in Hnl. rewrite Hnl. cbn [orb].
  replace (startswith (String "/" p) "/") with true
    by (unfold startswith; cbn; now rewrite prefix_empty).
  cbn [negb andb].
  destruct Hsch as [-> | ->]; reflexivity.
Qed.

End RootRelativeJoin.

Lemma is_root_relative_sound (href : string) :
  is_root_relative href = true -> root_relative href.
Proof.
  destruct href as [|c p]; [discriminate|]. unfold is_root_relative.
  destruct (Ascii.eqb_spec c "/") as [-> | Hc].
  - intros H. apply andb_true_iff in H as [H Hseg].
    apply andb_true_iff in H as [Hslash Hchars].
    exists p. split; [reflexivity|]. split; [now apply negb_true_iff|].
    split; [exact Hchars|]. apply Forall_forall. intros seg Hin.
    rewrite forallb_forall in Hseg. specialize (Hseg seg Hin).
    apply andb_true_iff in Hseg as [Hd Hdd].
    apply negb_true_iff in Hd, Hdd. now split; apply String.eqb_neq.
  - destruct c as [[] [] [] [] [] [] [] []]; try discriminate. congruence.
Qed.

Lemma root_relative_not_http (href : string) :
  root_relative href -> is_http_url href = false.
Proof. intros (p & -> & _). reflexivity. Qed.

Section RootRelativeLinks.
Context {W : World}.

(** X15.  A link from the root of the site resolves to the origin of the source,
    followed by the link as it stands. *)
Theorem root_relative_link_resolves (cfg : source_config) (b : ParseResult)
  (href : string) :
  urlparse bracketed_netloc_ok (url cfg) "" = Ok b ->
  scheme b = "http" \/ scheme b = "https" -> netloc b <> "" ->
  root_relative href ->
  resolve_href cfg href = Ok (origin b ++ href).
Proof.
  intros Hb Hsch Hnl Hrel. unfold resolve_href.
  rewrite (root_relative_not_http href Hrel).
  now apply urljoin_root_relative.
Qed.

(** Every registered source has an [https] origin. *)
Lemma registered_sources_have_origin :
  Forall (fun entry =>
            exists b, urlparse bracketed_netloc_ok (url (snd entry)) "" = Ok b
                      /\ scheme b = "https" /\ netloc b <> "")
    SOURCES.
Proof.
  unfold SOURCES.
  repeat (apply Forall_cons;
          [eexists; split; [vm_compute; reflexivity | split; [reflexivity | discriminate]]|]).
  constructor.
Qed.

End RootRelativeLinks.

(** ** A number of days before a datetime *)

Lemma instant_split (t : datetime) :
  valid t = true ->
  exists tod, 0 <= tod < 86400000000
              /\ instant t = toordinal t * 86400000000 + tod
              /\ tod = ((hour t * 60 + minute t) * 60 + second t) * 1000000
                       + microsecond t.
Proof.
  intros Hv. destruct (valid_time_of_day t Hv) as [Hs Hus].
  eexists. split; [|split; [|reflexivity]]; [lia | unfold instant; ring].
Qed.

Lemma time_of_day_fields (a b : datetime) :
  valid a = true -> valid b = true ->
  ((hour a * 60 + minute a) * 60 + second a) * 1000000 + microsecond a
  = ((hour b * 60 + minute b) * 60 + second b) * 1000000 + microsecond b ->
  same_time a b.
Proof.
  intros Ha Hb E.
  destruct (valid_fields a Ha) as (_ & _ & _ & _ & Hh & Hm & Hs & Hu).
  destruct (valid_fields b Hb) as (_ & _ & _ & _ & Hh' & Hm' & Hs' & Hu').
  unfold same_time. repeat split; lia.
Qed.

(** [t - timedelta(days=n)]: the same time of day [n] days earlier, or
    [OverflowError] when that day is not one of the days 1 to
    [_MAXORDINAL]. *)
Lemma days_before (t : datetime) (n : Z) :
  valid t = true ->
  let ord := toordinal t - n in
  let r := (delta <- timedelta_new n 0 0 0 0 0 ;; datetime_sub t delta) in
  if (1 <=? ord) && (ord <=? _MAXORDINAL)
  then exists d, r = Ok d /\ valid d = true /\ toordinal d = ord /\ same_time d t
  else r = Raise OverflowError.
Proof.
  intros Hv. cbv zeta.
  assert (Hord := toordinal_bounds t Hv).
  destruct (instant_split t Hv) as (tod & Htod & Hi & Etod).
  rewrite timedelta_new_canonical. cbv zeta.
  replace (total_us n 0 0 0 0 0) with (n * 86400000000)
    by (unfold total_us; ring).
  replace (n * 86400000000 / 86400000000) with n
    by (Z.to_euclidean_division_equations; lia).
  replace (n * 86400000000 / 1000000 mod 86400) with 0
    by (Z.to_euclidean_division_equations; lia).
  replace (n * 86400000000 mod 1000000) with 0
    by (Z.to_euclidean_division_equations; lia).
  unfold _MAXORDINAL in *.
  destruct (999999999 <? Z.abs n) eqn:Hover.
  { apply Z.ltb_lt in Hover. cbn [bind].
    replace ((1 <=? toordinal t - n) && (toordinal t - n <=? 3652059)) with false;
      [reflexivity|].
    symmetry. apply andb_false_iff.
    destruct (Z.abs_spec n) as [[? E] | [? E]]; [left; apply Z.leb_gt | right; apply Z.leb_gt];
      lia. }
  apply Z.ltb_ge in Hover. cbn [bind]. unfold datetime_sub, timedelta_neg.
  cbn [days seconds microseconds]. rewrite timedelta_new_canonical. cbv zeta.
  replace (total_us (- n) (- 0) (- 0) 0 0 0) with (- n * 86400000000)
    by (unfold total_us; ring).
  replace (- n * 86400000000 / 86400000000) with (- n)
    by (Z.to_euclidean_division_equations; lia).
  replace (- n * 86400000000 / 1000000 mod 86400) with 0
    by (Z.to_euclidean_division_equations; lia).
  replace (- n * 86400000000 mod 1000000) with 0
    by (Z.to_euclidean_division_equations; lia).
  replace (999999999 <? Z.abs (- n)) with false
    by (symmetry; apply Z.ltb_ge; lia).
  cbn [bind].
  assert (Hadd := datetime_add_canonical t (mk_timedelta (- n) 0 0) Hv
                    ltac:(cbn; lia) ltac:(cbn; lia) ltac:(cbn; lia)).
  cbv zeta in Hadd. unfold span, first_instant, _MAXORDINAL in Hadd.
  cbn [days seconds microseconds] in Hadd.
  replace ((86400000000 <=? instant t + ((- n * 86400 + 0) * 1000000 + 0))
           && (instant t + ((- n * 86400 + 0) * 1000000 + 0)
               <? (3652059 + 1) * 86400000000))
    with ((1 <=? toordinal t - n) && (toordinal t - n <=? 3652059)) in Hadd.
  2:{ rewrite Hi.
      destruct (Z.leb_spec 1 (toordinal t - n));
        destruct (Z.leb_spec (toordinal t - n) 3652059); cbn [andb]; symmetry;
        first [ apply andb_true_iff; split; [apply Z.leb_le | apply Z.ltb_lt]; lia
              | apply andb_false_iff; right; apply Z.ltb_ge; lia
              | apply andb_false_iff; left; apply Z.leb_gt; lia ]. }
  destruct ((1 <=? toordinal t - n) && (toordinal t - n <=? 3652059));
    [|exact Hadd].
  destruct Hadd as (d & Hd & Hvd & Hid). exists d.
  split; [exact Hd|]. split; [exact Hvd|].
  destruct (instant_split d Hvd) as (tod' & Htod' & Hi' & Etod').
  assert (toordinal d = toordinal t - n /\ tod' = tod) as [Ho Et] by lia.
  split; [exact Ho|]. apply time_of_day_fields; [exact Hvd | exact Hv | lia].
Qed.

(** ** Dates with the name of the month *)

Lemma same_date_sound (o : option datetime) (y m d : Z) :
  same_date o y m d = true -> o = Some (midnight y m d).
Proof.
  destruct o as [[y' m' d' hh mm ss us]|]; [|discriminate]. unfold same_date, midnight.
  cbn [year month day hour minute second microsecond]. intros H.
  repeat (apply andb_true_iff in H as [H ?]). rewrite !Z.eqb_eq in *. now subst.
Qed.

Lemma yearless_checked : yearless_read MonthDay = true /\ yearless_read DayMonth = true.
Proof. split; vm_compute; reflexivity. Qed.

Lemma in_range (x : Z) (n : nat) :
  1 <= x <= Z.of_nat n -> In x (map Z.of_nat (seq 1 n)).
Proof.
  intros H. replace x with (Z.of_nat (Z.to_nat x)) by lia.
  apply in_map, in_seq. lia.
Qed.

Lemma in_days_of_1900 (m d : Z) :
  valid (midnight 1900 m d) = true -> In (m, d) days_of_1900.
Proof.
  intros Hv. destruct (valid_fields _ Hv) as (_ & Hm & Hd & _).
  cbn [year month day midnight] in *.
  unfold days_of_1900. apply in_flat_map. exists m.
  split; [apply in_range; cbn; lia|].
  apply (in_map (fun d => (m, d))), in_range.
  rewrite Z2Nat.id by lia. exact Hd.
Qed.

Lemma yearless_entry (l : layout) (full padded : bool) (m d : Z) :
  yearless_read l = true -> In (m, d) days_of_1900 ->
  same_date (first_parse (named_date l full padded m d 0) formats) 1900 m d = true.
Proof.
  unfold yearless_read. intros H Hin.
  rewrite forallb_forall in H.
  assert (H1 := H full ltac:(destruct full; cbn; auto)). cbv beta in H1.
  rewrite forallb_forall in H1.
  assert (H2 := H1 padded ltac:(destruct padded; cbn; auto)). cbv beta in H2.
  rewrite forallb_forall in H2.
  exact (H2 (m, d) Hin).
Qed.

(** A date without a year, in either layout, is read as that date of 1900. *)
Lemma yearless_first_parse (l : layout) (full padded : bool) (m d y : Z) :
  l = MonthDay \/ l = DayMonth ->
  valid (midnight 1900 m d) = true ->
  first_parse (named_date l full padded m d y) formats = Some (midnight 1900 m d).
Proof.
  intros Hl Hv. apply same_date_sound.
  assert (Hin := in_days_of_1900 m d Hv).
  destruct yearless_checked as [Hmd Hdm].
  destruct Hl as [-> | ->].
  - change (named_date MonthDay full padded m d y)
      with (named_date MonthDay full padded m d 0).
    now apply yearless_entry.
  - change (named_date DayMonth full padded m d y)
      with (named_date DayMonth full padded m d 0).
    now apply yearless_entry.
Qed.

(** The pieces of a date with a name. *)

Lemma month_index_name (full : bool) (m : Z) :
  1 <= m <= 12 ->
  month_index (lower (month_name full m)) (month_names full) = m.
Proof. intros Hm. destruct full; month_cases m; vm_compute; reflexivity. Qed.

Lemma head_month_name (full : bool) (m : Z) (rest : string) :
  1 <= m <= 12 -> head_not_blank (month_name full m ++ rest).
Proof. intros Hm. destruct full; month_cases m; reflexivity. Qed.

Lemma head_day_text (padded : bool) (d : Z) (rest : string) :
  1 <= d <= 31 -> head_not_blank (day_text padded d ++ rest).
Proof. intros Hd. destruct padded; day_cases d; reflexivity. Qed.

Lemma head_zero_pad_4 (y : Z) (rest : string) : head_not_blank (zero_pad 4 y ++ rest).
Proof.
  destruct (zero_pad_4 y) as (c1 & c2 & c3 & c4 & -> & H1 & _).
  cbn [String.append head_not_blank]. now destruct (decimal_not_separator c1 H1).
Qed.

Lemma int_day_text (padded : bool) (d : Z) :
  1 <= d <= 31 -> int (lstrip (day_text padded d)) = Ok d.
Proof.
  intros Hd. unfold day_text.
  destruct (padded || (10 <=? d)) eqn:E.
  - apply int_zero_pad; [lia | cbn; lia].
  - apply orb_false_iff in E as [_ E]. apply Z.leb_gt in E.
    apply int_zero_pad; [lia | cbn; lia].
Qed.

Ltac name_to_text :=
  repeat match goal with
         | |- context [month_name ?f (Z.pos ?v)] =>
             let s := eval vm_compute in (month_name f (Z.pos v)) in
             change (month_name f (Z.pos v)) with s
         end.

Ltac day_to_text :=
  repeat match goal with
         | |- context [day_text ?p (Z.pos ?v)] =>
             let s := eval vm_compute in (day_text p (Z.pos v)) in
             change (day_text p (Z.pos v)) with s
         end.

Section NamedAlternatives.
Context {R : Type}.

Lemma blank_step (k : string -> option R) (s : string) :
  head_not_blank s -> spaces_then k (String " " s) = k s.
Proof.
  intros H. cbn [spaces_then]. change (isspace " ") with true. cbv iota.
  destruct s as [|c s]; [reflexivity|]. cbn [head_not_blank] in H.
  cbn [spaces_then]. now rewrite H.
Qed.

Lemma name_alt (full : bool) (m : Z) (k : string -> string -> option R)
  (rest : string) (r : R) :
  1 <= m <= 12 -> k (month_name full m) rest = Some r ->
  first_alt (seqToRE (month_names full)) k (month_name full m ++ rest) = Some r.
Proof.
  intros Hm. destruct full; month_cases m; name_to_text;
    intros Hk; cbn; rewrite Hk; reflexivity.
Qed.

(** The abbreviation of a month matches the start of its full name, and
    what is left of the name then stands where a blank should. *)
Lemma abbr_on_full (m : Z) (k : string -> string -> option R) (rest : string) :
  1 <= m <= 12 -> m <> 5 ->
  (forall w c s, isspace c = false -> k w (String c s) = None) ->
  first_alt (seqToRE a_month) k (month_name true m ++ rest) = None.
Proof.
  intros Hm H5 Hk. month_cases m; try congruence; name_to_text;
    cbn; rewrite Hk by reflexivity; reflexivity.
Qed.

(** A year or a day does not start with a letter. *)
Lemma letter_first (alts : list (list class)) (full : bool) (m : Z)
  (k : string -> string -> option R) (rest : string) :
  alts = year_alts \/ alts = day_alts -> 1 <= m <= 12 ->
  first_alt alts k (month_name full m ++ rest) = None.
Proof.
  intros Ha Hm. destruct Ha as [-> | ->]; destruct full; month_cases m;
    name_to_text; vm_compute; reflexivity.
Qed.

(** A year or a name does not start with a day and a blank. *)
Lemma digit_first (alts : list (list class)) (padded : bool) (d : Z)
  (k : string -> string -> option R) (rest : string) :
  alts = year_alts \/ alts = seqToRE a_month \/ alts = seqToRE f_month ->
  1 <= d <= 31 ->
  first_alt alts k (day_text padded d ++ String " " rest) = None.
Proof.
  intros Ha Hd. destruct Ha as [-> | [-> | ->]]; destruct padded; day_cases d;
    day_to_text; vm_compute; reflexivity.
Qed.

Lemma day_text_alt (padded : bool) (d : Z) (k : string -> string -> option R)
  (c : ascii) (rest : string) (r : R) :
  1 <= d <= 31 -> c = ","%char \/ c = " "%char ->
  k (day_text padded d) (String c rest) = Some r ->
  first_alt day_alts k (day_text padded d ++ String c rest) = Some r.
Proof.
  intros Hd Hc. unfold day_text. destruct (padded || (10 <=? d)) eqn:E.
  - now apply day_alt.
  - apply orb_false_iff in E as [_ E]. apply Z.leb_gt in E.
    destruct Hc as [-> | ->]; day_cases d;
      match goal with
      | |- context [zero_pad 1 ?v] =>
          let s := eval vm_compute in (zero_pad 1 v) in
          change (zero_pad 1 v) with s
      end;
      intros Hk; cbn; rewrite Hk; reflexivity.
Qed.

End NamedAlternatives.

(** A match that gives the year and the day as numerals and the month by
    its name. *)
Lemma strptime_named (s fmt : string) (items : list item) (found : groups)
  (full padded : bool) (y m d : Z) :
  pattern fmt = Some items -> all_directives items = true ->
  re_match items [] s = Some (found, "") ->
  lookup "Y" found = Some (zero_pad 4 y) ->
  lookup "m" found = None ->
  lookup "d" found = Some (day_text padded d) ->
  (if full then lookup "b" found = None /\ lookup "B" found = Some (month_name true m)
   else lookup "b" found = Some (month_name false m)) ->
  0 <= y < 10000 -> 1 <= m <= 12 -> 1 <= d <= 31 ->
  strptime s fmt = datetime_new y m d 0 0 0 0.
Proof.
  intros Hp Hall Hm HY Hmo Hd Hname By Bm Bd.
  unfold strptime. rewrite Hp, Hall, Hm. cbn [negb String.eqb].
  unfold int_group. rewrite HY, Hmo, Hd.
  rewrite int_zero_pad by (cbn; lia). rewrite int_day_text by exact Bd.
  cbn [bind].
  assert (E : match lookup "b" found, lookup "B" found, @None Z with
              | Some w, _, _ => month_index (lower w) a_month
              | None, Some w, _ => month_index (lower w) f_month
              | None, None, Some v => v
              | None, None, None => 1
              end = m).
  { destruct full.
    - destruct Hname as [-> ->]. now apply (month_index_name true).
    - rewrite Hname. now apply (month_index_name false). }
  rewrite E. destruct (datetime_new y m d 0 0 0 0); reflexivity.
Qed.

(** Month, day and year: [%b %d, %Y] and [%B %d, %Y]. *)
Lemma strptime_month_day_year (full padded : bool) (m d y : Z) :
  valid (midnight y m d) = true ->
  strptime (named_date MonthDayYear full padded m d y)
    (if full then "%B %d, %Y" else "%b %d, %Y")
  = Ok (midnight y m d).
Proof.
  intros Hv. destruct (valid_fields _ Hv) as (Hy & Hm & Hd & Hd31 & _).
  cbn [year month day midnight] in *.
  rewrite <- (datetime_new_midnight y m d Hv).
  set (name := if full then "B"%char else "b"%char).
  eapply (strptime_named _ _
            [Directive name; Whitespace; Directive "d"; Literal ","; Whitespace;
             Directive "Y"]
            [("Y"%char, zero_pad 4 y); ("d"%char, day_text padded d);
             (name, month_name full m)] full padded);
    try (destruct full; reflexivity); try lia;
    [|destruct full; cbn; auto].
  unfold named_date.
  rewrite (re_match_directive name (seqToRE (month_names full)))
    by (destruct full; reflexivity).
  erewrite name_alt; [reflexivity | lia |].
  cbn [re_match String.append].
  rewrite blank_step by (apply head_day_text; lia).
  change (directive "d") with (Some day_alts). cbv beta iota.
  erewrite day_text_alt; [reflexivity | lia | auto |].
  cbn [re_match]. change (chr "," ","%char) with true. cbv iota.
  rewrite blank_step by apply (head_zero_pad_4 y "").
  change (directive "Y") with (Some year_alts). cbv beta iota.
  rewrite <- (append_empty_r (zero_pad 4 y)) at 1.
  rewrite year_alt. reflexivity.
Qed.

(** Day, month and year: [%d %b %Y] and [%d %B %Y]. *)
Lemma strptime_day_month_year (full padded : bool) (m d y : Z) :
  valid (midnight y m d) = true ->
  strptime (named_date DayMonthYear full padded m d y)
    (if full then "%d %B %Y" else "%d %b %Y")
  = Ok (midnight y m d).
Proof.
  intros Hv. destruct (valid_fields _ Hv) as (Hy & Hm & Hd & Hd31 & _).
  cbn [year month day midnight] in *.
  rewrite <- (datetime_new_midnight y m d Hv).
  set (name := if full then "B"%char else "b"%char).
  eapply (strptime_named _ _
            [Directive "d"; Whitespace; Directive name; Whitespace; Directive "Y"]
            [("Y"%char, zero_pad 4 y); (name, month_name full m);
             ("d"%char, day_text padded d)] full padded);
    try (destruct full; reflexivity); try lia;
    [|destruct full; cbn; auto].
  unfold named_date.
  rewrite (re_match_directive "d" day_alts) by reflexivity.
  cbn [String.append].
  erewrite day_text_alt; [reflexivity | lia | auto |].
  cbn [re_match].
  rewrite blank_step by (apply head_month_name; lia).
  replace (directive name) with (Some (seqToRE (month_names full)))
    by (destruct full; reflexivity).
  cbv beta iota.
  erewrite name_alt; [reflexivity | lia |].
  cbn [re_match].
  rewrite blank_step by apply (head_zero_pad_4 y "").
  change (directive "Y") with (Some year_alts). cbv beta iota.
  rewrite <- (append_empty_r (zero_pad 4 y)) at 1.
  rewrite year_alt. reflexivity.
Qed.

Lemma first_parse_skip (s fmt : string) (fmts : list string) :
  strptime s fmt = Raise ValueError ->
  first_parse s (fmt :: fmts) = first_parse s fmts.
Proof. intros H. cbn [first_parse]. now rewrite H. Qed.

Lemma first_parse_hit (s fmt : string) (fmts : list string) (t : datetime) :
  strptime s fmt = Ok t -> first_parse s (fmt :: fmts) = Some t.
Proof. intros H. cbn [first_parse]. now rewrite H. Qed.

(** With the full name of a month other than May, the format with the
    abbreviation stops inside the name. *)
Lemma day_then_full_name (padded : bool) (m d : Z) (rest : string) :
  1 <= d <= 31 -> 1 <= m <= 12 -> m <> 5 ->
  re_match [Directive "d"; Whitespace; Directive "b"; Whitespace; Directive "Y"] []
    (day_text padded d ++ " " ++ month_name true m ++ rest) = None.
Proof.
  intros Hd Hm H5. destruct padded; month_cases m; try congruence; name_to_text;
    day_cases d; day_to_text; vm_compute; reflexivity.
Qed.

Lemma month_day_year_first_parse (full padded : bool) (m d y : Z) :
  valid (midnight y m d) = true ->
  first_parse (named_date MonthDayYear full padded m d y) formats
  = Some (midnight y m d).
Proof.
  intros Hv. destruct (valid_fields _ Hv) as (Hy & Hm & Hd & Hd31 & _).
  cbn [year month day midnight] in *. unfold formats.
  rewrite first_parse_skip.
  2:{ eapply strptime_no_match; [vm_compute; reflexivity|].
      rewrite (re_match_directive "Y" year_alts) by reflexivity.
      apply letter_first; auto. }
  destruct full; [destruct (Z.eq_dec m 5) as [-> | H5]|].
  - apply first_parse_hit. apply (strptime_month_day_year false padded 5 d y Hv).
  - rewrite first_parse_skip.
    2:{ eapply strptime_no_match; [vm_compute; reflexivity|].
        rewrite (re_match_directive "b" (seqToRE a_month)) by reflexivity.
        apply abbr_on_full; [lia | exact H5 |].
        intros w c s Hc. now apply blank_stops. }
    rewrite first_parse_skip.
    2:{ eapply strptime_no_match; [vm_compute; reflexivity|].
        rewrite (re_match_directive "d" day_alts) by reflexivity.
        apply letter_first; auto. }
    apply first_parse_hit. apply (strptime_month_day_year true padded m d y Hv).
  - apply first_parse_hit. apply (strptime_month_day_year false padded m d y Hv).
Qed.

Lemma day_month_year_first_parse (full padded : bool) (m d y : Z) :
  valid (midnight y m d) = true ->
  first_parse (named_date DayMonthYear full padded m d y) formats
  = Some (midnight y m d).
Proof.
  intros Hv. destruct (valid_fields _ Hv) as (Hy & Hm & Hd & Hd31 & _).
  cbn [year month day midnight] in *. unfold formats.
  assert (Hdigit : forall fmt x items,
             pattern fmt = Some (Directive x :: items) ->
             (x = "Y"%char \/ x = "b"%char \/ x = "B"%char) ->
             strptime (named_date DayMonthYear full padded m d y) fmt
             = Raise ValueError).
  { intros fmt x items Hp Hx. eapply strptime_no_match; [exact Hp|].
    unfold named_date. cbn [String.append].
    destruct Hx as [-> | [-> | ->]];
      [ rewrite (re_match_directive "Y" year_alts) by reflexivity
      | rewrite (re_match_directive "b" (seqToRE a_month)) by reflexivity
      | rewrite (re_match_directive "B" (seqToRE f_month)) by reflexivity ];
      apply digit_first; auto; lia. }
  rewrite (first_parse_skip _ "%Y-%m-%d") by (eapply Hdigit; [reflexivity | auto]).
  rewrite (first_parse_skip _ "%b %d, %Y") by (eapply Hdigit; [reflexivity | auto]).
  destruct full; [destruct (Z.eq_dec m 5) as [-> | H5]|].
  - apply first_parse_hit. apply (strptime_day_month_year false padded 5 d y Hv).
  - rewrite first_parse_skip.
    2:{ eapply strptime_no_match; [vm_compute; reflexivity|].
        apply day_then_full_name; [lia | lia | exact H5]. }
    rewrite (first_parse_skip _ "%B %d, %Y") by (eapply Hdigit; [reflexivity | auto]).
    apply first_parse_hit. apply (strptime_day_month_year true padded m d y Hv).
  - apply first_parse_hit. apply (strptime_day_month_year false padded m d y Hv).
Qed.

(** The words of a relative date are not in a date with a name. *)

Lemma has_app (c : ascii) (a b : string) : has c (a ++ b) = has c a || has c b.
Proof.
  induction a as [|x a IH]; [reflexivity|]. cbn [String.append has].
  now rewrite IH, orb_assoc.
Qed.

Lemma has_decimal (c : ascii) (ds : string) :
  isdecimal c = false -> all_chars isdecimal ds = true -> has c ds = false.
Proof.
  intros Hc. induction ds as [|x ds IH]; [reflexivity|]. cbn [all_chars has].
  intros H. apply andb_true_iff in H as [Hx Hds]. rewrite (IH Hds), orb_false_r.
  apply Ascii.eqb_neq. intros ->. congruence.
Qed.

Lemma has_day_text (c : ascii) (padded : bool) (d : Z) :
  isdecimal c = false -> has c (day_text padded d) = false.
Proof.
  intros Hc. unfold day_text.
  destruct (padded || (10 <=? d)); apply has_decimal; auto using digits_of_decimal.
Qed.

Lemma has_named_date (c : ascii) (l : layout) (full padded : bool) (m d y : Z) :
  isdecimal c = false -> c <> " "%char -> c <> ","%char ->
  has c (named_date l full padded m d y) = has c (month_name full m).
Proof.
  intros Hc Hb Hcomma.
  assert (Hy : has c (zero_pad 4 y) = false)
    by (apply has_decimal; auto using digits_of_decimal).
  assert (Hd := has_day_text c padded d Hc).
  assert (E1 : Ascii.eqb " " c = false) by (apply Ascii.eqb_neq; congruence).
  assert (E2 : Ascii.eqb "," c = false) by (apply Ascii.eqb_neq; congruence).
  destruct l; unfold named_date; rewrite ?has_app, ?Hy, ?Hd; cbn [has];
    rewrite ?E1, ?E2, ?orb_false_r; reflexivity.
Qed.

(** Each of the three words has a letter the name of the month lacks. *)
Lemma name_lacks (w : string) (full : bool) (m : Z) :
  In w ["ago"; "today"; "yesterday"] -> 1 <= m <= 12 ->
  exists c, has c w = true /\ has c (month_name full m) = false
            /\ isdecimal c = false /\ c <> " "%char /\ c <> ","%char.
Proof.
  intros Hw Hm. cbn [In] in Hw.
  destruct Hw as [<- | [<- | [<- | []]]]; destruct full; month_cases m;
    first [ exists "a"%char; vm_compute; repeat split; congruence
          | exists "g"%char; vm_compute; repeat split; congruence
          | exists "o"%char; vm_compute; repeat split; congruence
          | exists "t"%char; vm_compute; repeat split; congruence
          | exists "d"%char; vm_compute; repeat split; congruence
          | exists "y"%char; vm_compute; repeat split; congruence ].
Qed.

Lemma named_date_words (l : layout) (full padded : bool) (m d y : Z) :
  1 <= m <= 12 ->
  contains "ago" (named_date l full padded m d y) = false
  /\ contains "today" (named_date l full padded m d y) = false
  /\ contains "yesterday" (named_date l full padded m d y) = false.
Proof.
  intros Hm.
  assert (H : forall w, In w ["ago"; "today"; "yesterday"] ->
                        contains w (named_date l full padded m d y) = false).
  { intros w Hw. destruct (name_lacks w full m Hw Hm) as (c & Hc & Hn & Hd & Hb & Hcm).
    apply (contains_missing c); [exact Hc|]. now rewrite has_named_date. }
  repeat split; apply H; cbn; auto.
Qed.

(** The leap day without a year is a day of 1900, which has none. *)
Lemma leap_day_first_parse (l : layout) (full padded : bool) (y : Z) :
  l = MonthDay \/ l = DayMonth ->
  first_parse (named_date l full padded 2 29 y) formats = None.
Proof.
  intros [-> | ->]; destruct full, padded; vm_compute; reflexivity.
Qed.

Lemma parse_named_date (now : datetime) (text : string) (l : layout)
  (full padded : bool) (m d y : Z) :
  valid now = true -> 1 <= m <= 12 ->
  strip (lower text) = named_date l full padded m d y ->
  _parse_date now text
  = match first_parse (named_date l full padded m d y) formats with
    | Some t => isoformat (if year t =? 1900 then with_year t (year now) else t)
    | None => isoformat now
    end.
Proof.
  intros Hnow Hm Htext.
  destruct (named_date_words l full padded m d y Hm) as (Hago & Htoday & Hyest).
  unfold _parse_date, _parse_date_try. rewrite Htext, Hago, Htoday, Hyest.
  rewrite (try_formats_first_parse now _ _ Hnow).
  rewrite <- Htext at 1. rewrite strip_idempotent, Htext.
  destruct (first_parse _ formats); reflexivity.
Qed.

(** X19.  A date written with the name of the month, a day and a four-digit
    year is read as that date at midnight, in the current year when its
    year is 1900. *)
Theorem date_with_month_name (now : datetime) (text : string) (l : layout)
  (full padded : bool) (m d y : Z) :
  valid now = true -> l = MonthDayYear \/ l = DayMonthYear ->
  strip (lower text) = named_date l full padded m d y ->
  valid (midnight y m d) = true ->
  _parse_date now text
  = isoformat (midnight (if y =? 1900 then year now else y) m d).
Proof.
  intros Hnow Hl Htext Hv. destruct (valid_fields _ Hv) as (_ & Hm & _).
  cbn [month midnight] in Hm.
  rewrite (parse_named_date now text l full padded m d y Hnow Hm Htext).
  assert (E : first_parse (named_date l full padded m d y) formats
              = Some (midnight y m d)).
  { destruct Hl as [-> | ->];
      [now apply month_day_year_first_parse | now apply day_month_year_first_parse]. }
  rewrite E. cbn [year midnight]. destruct (y =? 1900); reflexivity.
Qed.

(** X20.  A date written with the name of the month and a day, without a year,
    is read as that day of the current year; the 29th of February written
    so is not read in any year, and the current time is returned. *)
Theorem date_without_year (now : datetime) (text : string) (l : layout)
  (full padded : bool) (m d : Z) :
  valid now = true -> l = MonthDay \/ l = DayMonth ->
  strip (lower text) = named_date l full padded m d 0 ->
  (valid (midnight 1900 m d) = true ->
   _parse_date now text = isoformat (midnight (year now) m d))
  /\ (m = 2 -> d = 29 -> _parse_date now text = isoformat now).
Proof.
  intros Hnow Hl Htext. split.
  - intros Hv. destruct (valid_fields _ Hv) as (_ & Hm & _).
    cbn [month midnight] in Hm.
    rewrite (parse_named_date now text l full padded m d 0 Hnow Hm Htext).
    now rewrite (yearless_first_parse l full padded m d 0 Hl Hv).
  - intros -> ->.
    rewrite (parse_named_date now text l full padded 2 29 0 Hnow ltac:(lia) Htext).
    now rewrite (leap_day_first_parse l full padded 0 Hl).
Qed.

(** ** Closed instances *)

Lemma stub_fields_normalised_witness :
  exists stubs,
    _scrape_source (W := Fixture.world Fixture.six_cards_site)
      Fixture.now0 "cnbc" Fixture.cnbc = Ok stubs
    /\ Forall (stub_fields Fixture.now0 Fixture.cnbc) stubs.
Proof.
  eexists. split; [vm_compute; reflexivity|].
  apply (stub_fields_normalised (W := Fixture.world Fixture.six_cards_site)
           Fixture.now0 "cnbc" Fixture.cnbc);
    [reflexivity | vm_compute; reflexivity].
Defined.

Lemma fetch_news_newest_first_witness :
  exists times,
    Forall2 published Fixture.march_february_january times
    /\ StronglySorted (fun d d' => instant d' <= instant d) times.
Proof.
  apply (fetch_news_newest_first (W := Fixture.world (Fixture.three_sources None))
           Fixture.now0 Fixture.three_ids false true);
    [reflexivity | vm_compute; reflexivity].
Defined.

Lemma fetch_content_fills_in_place_witness :
  exists out out',
    returned (fetch_news (W := Fixture.world Fixture.story_site)
                Fixture.now0 (Some ["cnbc"]) false false) = Ok out
    /\ returned (fetch_news (W := Fixture.world Fixture.story_site)
                   Fixture.now0 (Some ["cnbc"]) true false) = Ok out'
    /\ out' = map (fetch_article_content (W := Fixture.world Fixture.story_site)) out
    /\ Forall2 same_stub out' out.
Proof.
  do 2 eexists. split; [vm_compute; reflexivity|]. split; [vm_compute; reflexivity|].
  apply (fetch_content_fills_in_place (W := Fixture.world Fixture.story_site)
           Fixture.now0 (Some ["cnbc"]) false false);
    vm_compute; reflexivity.
Defined.

(** The story of the front page: its two lines, stripped, without the empty
    line between them. *)
Example story_is_filled_in :
  map content
    (map (fetch_article_content (W := Fixture.world Fixture.story_site))
       [Fixture.alpha])
  = [Some ("Rates rise" ++ String newline "Stocks fall")].
Proof. vm_compute. reflexivity. Qed.

Lemma body_content_is_clean_witness :
  let c := clean (strip Fixture.story_text) in
  fetch_article_content (W := Fixture.world Fixture.story_site) Fixture.alpha
  = set_content Fixture.alpha c
  /\ (c = "" \/ Forall clean_line (split newline c))
  /\ clean c = c.
Proof.
  exact (body_content_is_clean (W := Fixture.world Fixture.story_site)
           Fixture.alpha "story page"
           (Fixture.El "" [] [("article", [Fixture.El Fixture.story_text [] []])])
           (Fixture.El "" [] [("article", [Fixture.El Fixture.story_text [] []])])
           (Fixture.El Fixture.story_text [] []) Fixture.story_text
           ltac:(discriminate) eq_refl ltac:(discriminate) eq_refl eq_refl eq_refl
           eq_refl).
Defined.

Lemma relative_date_without_number_witness :
  _parse_date Fixture.now0 "a minute ago" = isoformat Fixture.now0.
Proof.
  exact (relative_date_without_number Fixture.now0 "a minute ago" eq_refl
           (or_intror (or_introl eq_refl))).
Defined.

Lemma relative_date_anywhere_witness :
  exists d, valid d = true
            /\ instant d = instant Fixture.now0 - 130 * 60000000
            /\ _parse_date Fixture.now0 "Updated 1 hour 30 min ago" = isoformat d.
Proof.
  exact (relative_date_anywhere Fixture.now0 "Updated 1 hour 30 min ago" Minutes
           eq_refl eq_refl eq_refl ltac:(discriminate) eq_refl).
Defined.

Lemma today_and_yesterday_witness :
  exists d, valid d = true
            /\ instant d = instant Fixture.now0 - 86400000000
            /\ _parse_date Fixture.now0 "Yesterday" = isoformat d.
Proof.
  exact (proj2 (today_and_yesterday Fixture.now0 "Yesterday" eq_refl eq_refl)
           eq_refl eq_refl).
Defined.

Lemma iso_date_is_read_witness :
  _parse_date Fixture.now0 "2023-01-05" = "2023-01-05T00:00:00".
Proof. exact (iso_date_is_read Fixture.now0 2023 1 5 eq_refl eq_refl). Defined.

Lemma iso_timestamp_is_not_read_witness :
  _parse_date Fixture.now0 "2023-01-05T10:30:00" = isoformat Fixture.now0.
Proof.
  exact (iso_timestamp_is_not_read Fixture.now0 (mk_datetime 2023 1 5 10 30 0 0)
           eq_refl).
Defined.

Lemma numeric_date_month_first_witness :
  _parse_date Fixture.now0 "03/04/2024" = "2024-03-04T00:00:00"
  /\ _parse_date Fixture.now0 "13/04/2024" = "2024-04-13T00:00:00".
Proof.
  split.
  - exact (proj1 (numeric_date_month_first Fixture.now0 "/" 3 4 2024 eq_refl
                    (or_introl eq_refl)) eq_refl).
  - exact (proj2 (numeric_date_month_first Fixture.now0 "/" 13 4 2024 eq_refl
                    (or_introl eq_refl)) ltac:(lia) eq_refl).
Defined.

Lemma root_relative_link_resolves_witness :
  resolve_href (W := Fixture.world Fixture.six_cards_site) Fixture.cnbc
    "/2024/06/15/markets.html"
  = Ok "https://www.cnbc.com/2024/06/15/markets.html".
Proof.
  apply (root_relative_link_resolves (W := Fixture.world Fixture.six_cards_site)
           Fixture.cnbc
           (mk_parse "https" "www.cnbc.com" "/world/" "" "region=world" "")).
  - vm_compute. reflexivity.
  - right. reflexivity.
  - discriminate.
  - apply is_root_relative_sound. vm_compute. reflexivity.
Defined.

Lemma date_with_month_name_witness :
  _parse_date Fixture.now0 "June 15, 2023" = "2023-06-15T00:00:00".
Proof.
  exact (date_with_month_name Fixture.now0 "June 15, 2023" MonthDayYear true true
           6 15 2023 eq_refl (or_introl eq_refl) eq_refl eq_refl).
Defined.

Lemma date_without_year_witness :
  _parse_date Fixture.now0 "5 Mar" = "2024-03-05T00:00:00"
  /\ _parse_date Fixture.now0 "Feb 29" = isoformat Fixture.now0.
Proof.
  split.
  - exact (proj1 (date_without_year Fixture.now0 "5 Mar" DayMonth false false 3 5
                    eq_refl (or_intror eq_refl) eq_refl) eq_refl).
  - exact (proj2 (date_without_year Fixture.now0 "Feb 29" MonthDay false true 2 29
                    eq_refl (or_introl eq_refl) eq_refl) eq_refl eq_refl).
Defined.

End ScraperProofs.

(** * Proofs about the API path *)
Module NewsAPIProofs.
Import Py DateTime NewsAPI.

Section Pagination.
Context {API : Api}.

(** One turn of the loop on an [ok] page. *)
Lemma paginate_step (fuel : nat) (p : params) (acc : list api_article)
  (data : response api_article) :
  session_get p = Ok data -> status data = Some "ok" ->
  (stops_after data (acc ++ page_articles data)
   /\ paginate (S fuel) p acc = Some (Ok ((acc ++ page_articles data)%list, p)))
  \/ (~ stops_after data (acc ++ page_articles data)
      /\ (List.length acc < List.length (acc ++ page_articles data) < 100)%nat
      /\ paginate (S fuel) p acc
         = paginate fuel (with_page p (page p + 1)) (acc ++ page_articles data)).
Proof.
  intros Hget Hst. cbn [paginate]. rewrite Hget, Hst. cbn [String.eqb negb].
  change (String.eqb "ok" "ok") with true. cbn [negb].
  unfold stops_after, page_articles, reported_total.
  destruct (articles data) as [[|a l]|].
  - left. split; [now left | now rewrite app_nil_r].
  - set (all := (acc ++ a :: l)%list).
    destruct (Z.leb_spec (match totalResults data with Some t => t | None => 0 end)
                (Z.of_nat (List.length all))) as [Ht|Ht].
    { left. split; [right; now left | reflexivity]. }
    destruct (Z.leb_spec 100 (Z.of_nat (List.length all))) as [Hc|Hc].
    { left. split; [right; now right | reflexivity]. }
    right. split; [|split; [|reflexivity]].
    + intros [H | [H | H]]; [discriminate H | lia | lia].
    + unfold all in *. rewrite length_app in *. cbn [List.length] in *. lia.
  - left. split; [now left | now rewrite app_nil_r].
Qed.

Lemma paginate_sound (fuel : nat) :
  forall p acc all_articles p',
    paginate fuel p acc = Some (Ok (all_articles, p')) ->
    pages_until_stop p acc all_articles p'.
Proof.
  induction fuel as [|fuel IH]; intros p acc all_articles p' H; [discriminate|].
  destruct (session_get p) as [data|e] eqn:Hget.
  2:{ cbn [paginate] in H. rewrite Hget in H. discriminate. }
  destruct (status data) as [st|] eqn:Hst.
  2:{ cbn [paginate] in H. rewrite Hget, Hst in H. discriminate. }
  destruct (String.eqb_spec st "ok") as [->|Hne].
  2:{ cbn [paginate] in H. rewrite Hget, Hst in H.
      apply String.eqb_neq in Hne. rewrite Hne in H. discriminate. }
  destruct (paginate_step fuel p acc data Hget Hst) as [[Hs E] | (Hs & _ & E)];
    rewrite E in H.
  - injection H as <- <-. now apply stop_here with (data := data).
  - eapply next_page; eauto.
Qed.

Lemma paginate_enough_fuel (fuel : nat) :
  forall p acc,
    (1 <= fuel)%nat -> (100 - List.length acc <= fuel)%nat ->
    paginate fuel p acc <> None.
Proof.
  induction fuel as [|fuel IH]; intros p acc H1 Hm; [lia|].
  destruct (session_get p) as [data|e] eqn:Hget.
  2:{ cbn [paginate]. rewrite Hget. discriminate. }
  destruct (status data) as [st|] eqn:Hst.
  2:{ cbn [paginate]. rewrite Hget, Hst. discriminate. }
  destruct (String.eqb_spec st "ok") as [->|Hne].
  2:{ cbn [paginate]. rewrite Hget, Hst.
      apply String.eqb_neq in Hne. rewrite Hne. discriminate. }
  destruct (paginate_step fuel p acc data Hget Hst) as [[Hs E] | (Hs & Hlen & E)];
    rewrite E; [discriminate|].
  apply IH; lia.
Qed.

Lemma paginate_more_fuel (fuel : nat) :
  forall p acc r fuel',
    paginate fuel p acc = Some r -> (fuel <= fuel')%nat ->
    paginate fuel' p acc = Some r.
Proof.
  induction fuel as [|fuel IH]; intros p acc r fuel' H Hle; [discriminate|].
  destruct fuel' as [|fuel']; [lia|].
  cbn [paginate] in *.
  destruct (session_get p) as [data|]; [|exact H].
  destruct (status data) as [st|]; [|exact H].
  destruct (negb (st =? "ok")%string); [exact H|].
  destruct (articles data) as [[|a l]|]; try exact H.
  destruct (_ <=? _); [exact H|].
  destruct (_ <=? _); [exact H|].
  apply IH; [exact H | lia].
Qed.

Lemma paginate_complete (p : params) (acc all_articles : list api_article) (p' : params) :
  pages_until_stop p acc all_articles p' ->
  exists fuel, paginate fuel p acc = Some (Ok (all_articles, p')).
Proof.
  induction 1 as [p acc data Hget Hst Hs | p acc data all_articles p' Hget Hst Hs _ [fuel IH]].
  - exists 1%nat.
    destruct (paginate_step 0 p acc data Hget Hst) as [[_ E] | (Hn & _)];
      [exact E | contradiction].
  - exists (S fuel).
    destruct (paginate_step fuel p acc data Hget Hst) as [[Hs' _] | (_ & _ & E)];
      [contradiction | now rewrite E].
Qed.

(** C6 (amended).  The pagination loop ends within 100 requests whatever the
    API answers, and when it ends normally it has requested the pages up to
    the first one that holds no article, or brings the running total to the
    reported [totalResults], or brings it to 100 or more; with 100 articles
    on the first page and [totalResults = 250] it stops there, with those
    100. *)
Theorem pagination_stops_at_first_limit (p : params) :
  (forall fuel, (100 <= fuel)%nat ->
     paginate fuel p [] <> None /\ paginate fuel p [] = paginate 100 p [])
  /\ (forall all_articles p',
        paginate 100 p [] = Some (Ok (all_articles, p'))
        <-> pages_until_stop p [] all_articles p')
  /\ (forall data,
        session_get p = Ok data -> status data = Some "ok" ->
        List.length (page_articles data) = 100%nat ->
        totalResults data = Some 250 ->
        paginate 100 p [] = Some (Ok (page_articles data, p))).
Proof.
  assert (Hfuel : forall fuel, (100 <= fuel)%nat ->
            paginate fuel p [] <> None /\ paginate fuel p [] = paginate 100 p []).
  { intros fuel Hf.
    assert (H100 := paginate_enough_fuel 100 p [] ltac:(lia) ltac:(cbn; lia)).
    destruct (paginate 100 p []) as [r|] eqn:E; [|congruence].
    rewrite (paginate_more_fuel 100 p [] r fuel E Hf). split; [discriminate | reflexivity]. }
  split; [exact Hfuel|]. split.
  - intros all_articles p'. split; [apply paginate_sound|].
    intros H. apply paginate_complete in H as [fuel H].
    apply (paginate_more_fuel _ _ _ _ (Nat.max fuel 100)) in H; [|lia].
    destruct (Hfuel (Nat.max fuel 100) ltac:(lia)) as [_ <-]. exact H.
  - intros data Hget Hst Hlen Htot.
    destruct (paginate_step 99 p [] data Hget Hst) as [[_ E] | (Hn & _)];
      [exact E|].
    exfalso. apply Hn. right. right. cbn [app]. rewrite Hlen. lia.
Qed.

End Pagination.

(** 250 articles reported, served in pages of 100: one request, 100
    articles returned and written. *)
Example run_api_stops_at_100 :
  fetch_financial_news (API := Fixture.numbered_api) 100 Fixture.now0 7 None true
  = Some (mk_run (Ok (List.seq 0 100)) (Some (List.seq 0 100))).
Proof. vm_compute. reflexivity. Qed.

(** The cap is tested after a page is appended: with 250 articles reported
    and pages of 60, the loop ends after the second page, with 120. *)
Lemma pages_of_sixty_collect_120 :
  fetch_financial_news (API := Fixture.pages_of_sixty) 100 Fixture.now0 7 None false
  = Some (mk_run (Ok (List.seq 0 120)) None)
  /\ List.length (List.seq 0 120) = 120%nat.
Proof. split; vm_compute; reflexivity. Qed.

(** With [save] set, the API path writes the list it collected, the empty
    list included. *)
Example api_path_writes_empty_list :
  fetch_financial_news (API := Fixture.empty_api) 100 Fixture.now0 7 None true
  = Some (mk_run (Ok []) (Some [])).
Proof. vm_compute. reflexivity. Qed.

(** * More about the API path *)

Import ScraperProofs.

Lemma year_text_four (y : Z) : 1000 <= y -> year_text y = zero_pad 4 y.
Proof.
  intros Hy. unfold year_text.
  destruct (Z.ltb_spec y 10); [lia|]. destruct (Z.ltb_spec y 100); [lia|].
  destruct (Z.ltb_spec y 1000); [lia | reflexivity].
Qed.

(** Dates in the form of the request are ordered as the days they name,
    from the year 1000 on. *)
Lemma strftime_date_compare (a b : datetime) :
  valid a = true -> valid b = true -> 1000 <= year a -> 1000 <= year b ->
  String.compare (strftime_date a) (strftime_date b)
  = (toordinal a ?= toordinal b).
Proof.
  intros Ha Hb Hya Hyb.
  destruct (valid_fields a Ha) as (Hy & Hm & Hd & Hd31 & _).
  destruct (valid_fields b Hb) as (Hy' & Hm' & Hd' & Hd31' & _).
  unfold strftime_date. rewrite !year_text_four by assumption.
  repeat (rewrite zero_pad_compare by (cbn; lia);
          cbn [String.append String.compare];
          replace (Ascii.compare "-" "-") with Eq by reflexivity).
  rewrite <- (append_empty_r (zero_pad 2 (day a))),
          <- (append_empty_r (zero_pad 2 (day b))).
  rewrite zero_pad_compare by (cbn; lia). cbn [String.compare].
  assert (Hab := ymd2ord_lt (year a) (month a) (day a) (year b) (month b) (day b)
                   Hm Hd Hd31 Hm' Hd' Hd31').
  assert (Hba := ymd2ord_lt (year b) (month b) (day b) (year a) (month a) (day a)
                   Hm' Hd' Hd31' Hm Hd Hd31).
  unfold Scraper.date_key in *. fold (toordinal a) (toordinal b) in Hab, Hba.
  destruct (Z.compare_spec (year a) (year b)) as [Ey | Ly | Gy];
    [destruct (Z.compare_spec (month a) (month b)) as [Em | Lm | Gm];
     [destruct (Z.compare_spec (day a) (day b)) as [Ed | Ld | Gd]|..]|..];
    symmetry;
    first [ apply Z.compare_eq_iff; unfold toordinal; congruence
          | apply Z.compare_lt_iff; apply Hab; lia
          | apply Z.compare_gt_iff; apply Hba; lia ].
Qed.

Section Window.
Context {API : Api}.

(** X16.  The first request asks for the days from [days_back] days before today
    to today; a [days_back] that leads out of the calendar raises
    [OverflowError] before any request is made, and a negative one is not
    rejected: it asks for a window that ends before it starts.  The two
    dates are compared as texts here, which follows the calendar when both
    years have four digits. *)
Theorem request_window (now : datetime) (days_back : Z)
  (sources : option (list string)) :
  valid now = true ->
  let ord := toordinal now - days_back in
  if (1 <=? ord) && (ord <=? _MAXORDINAL)
  then exists start_date p,
         first_params now days_back sources = Ok p
         /\ valid start_date = true /\ toordinal start_date = ord
         /\ from p = strftime_date start_date /\ to p = strftime_date now
         /\ NewsAPI.sources p = query_sources sources
         /\ page p = 1 /\ pageSize p = 100
         /\ (1000 <= year start_date -> 1000 <= year now ->
             String.leb (from p) (to p) = (0 <=? days_back))
  else first_params now days_back sources = Raise OverflowError
       /\ forall fuel save,
            fetch_financial_news fuel now days_back sources save
            = Some (mk_run (Raise OverflowError) None).
Proof.
  intros Hnow. cbv zeta. assert (H := days_before now days_back Hnow).
  cbv zeta in H. unfold fetch_financial_news, first_params.
  destruct ((1 <=? toordinal now - days_back)
            && (toordinal now - days_back <=? _MAXORDINAL)).
  - destruct H as (d & Hd & Hv & Ho & _).
    destruct (timedelta_new days_back 0 0 0 0 0) as [delta|]; cbn [bind] in *;
      [|discriminate].
    rewrite Hd. cbn [bind]. exists d. eexists. split; [reflexivity|].
    cbn [from to NewsAPI.sources page pageSize]. repeat split; try assumption.
    intros Hyd Hyn.
    unfold String.leb. rewrite strftime_date_compare by assumption.
    rewrite Ho. unfold Z.leb.
    destruct (Z.compare_spec (toordinal now - days_back) (toordinal now));
      destruct (Z.compare_spec 0 days_back); try reflexivity; lia.
  - destruct (timedelta_new days_back 0 0 0 0 0) as [delta|]; cbn [bind] in *.
    + rewrite H. cbn [bind]. split; reflexivity.
    + injection H as ->. split; reflexivity.
Qed.

End Window.

Section Pages.
Context {API : Api}.

Lemma nth_page_next (p : params) (n : nat) :
  nth_page (with_page p (page p + 1)) n = nth_page p (S n).
Proof.
  unfold nth_page, with_page. cbn [page q sources from to language sortBy pageSize].
  f_equal. lia.
Qed.

Lemma nth_page_0 (p : params) : nth_page p 0 = p.
Proof.
  unfold nth_page, with_page. destruct p. cbn. f_equal. lia.
Qed.

Lemma flat_map_seq_shift {A : Type} (f : nat -> list A) (n : nat) :
  forall a, flat_map f (seq (S a) n) = flat_map (fun i => f (S i)) (seq a n).
Proof.
  induction n as [|n IH]; intros a; [reflexivity|]. cbn [seq flat_map].
  now rewrite IH.
Qed.

Lemma pages_concatenated (p : params) (acc all_articles : list api_article)
  (p' : params) :
  pages_until_stop p acc all_articles p' ->
  exists k,
    p' = nth_page p k
    /\ all_articles = (acc ++ flat_map (fun i => served (nth_page p i)) (seq 0 (S k)))%list
    /\ (k = 0 \/ List.length acc + k < 100)%nat
    /\ (k = 0 \/ List.length all_articles < 100 + List.length (served p'))%nat.
Proof.
  induction 1 as [p acc data Hget Hst Hs
                 | p acc data all_articles p' Hget Hst Hs Hrest (k & Hp & Hall & Hlen & Hcap)].
  - exists 0%nat. cbn [seq flat_map]. rewrite nth_page_0. unfold served.
    rewrite Hget, app_nil_r. repeat split; auto.
  - exists (S k).
    destruct (paginate_step 0 p acc data Hget Hst) as [[Hs' _] | (_ & Hgrow & _)];
      [contradiction|].
    split; [now rewrite <- nth_page_next|]. split; [|split].
    + rewrite Hall. change (seq 0 (S (S k))) with (0%nat :: seq 1 (S k)).
      cbn [flat_map]. rewrite nth_page_0. unfold served at 2. rewrite Hget.
      rewrite <- app_assoc. do 2 f_equal.
      rewrite flat_map_seq_shift.
      apply flat_map_ext. intros i. now rewrite nth_page_next.
    + right. destruct Hlen as [-> | Hlen]; lia.
    + right. destruct Hcap as [-> | Hcap]; [|exact Hcap].
      rewrite Hall. cbn [seq flat_map]. rewrite app_nil_r, nth_page_0 in *.
      subst p'. rewrite !length_app. rewrite length_app in Hgrow. lia.
Qed.

(** X17.  The list collected is the pages 1, 2, ... as the API serves them, in
    order and without a gap, up to the page the loop stops at; there are at
    most 100 of them, and before the last one fewer than 100 articles were
    collected. *)
Theorem collected_is_the_pages_in_order (p p' : params)
  (all_articles : list api_article) :
  paginate 100 p [] = Some (Ok (all_articles, p')) ->
  exists k,
    (k < 100)%nat
    /\ p' = nth_page p k
    /\ all_articles = flat_map (fun i => served (nth_page p i)) (seq 0 (S k))
    /\ (List.length all_articles < 100 + List.length (served p'))%nat.
Proof.
  intros H. apply paginate_sound in H.
  destruct (pages_concatenated _ _ _ _ H) as (k & Hp & Hall & Hlen & Hcap).
  exists k. cbn [app List.length] in *.
  split; [lia|]. split; [exact Hp|]. split; [exact Hall|].
  destruct Hcap as [-> | Hcap]; [|exact Hcap].
  rewrite Hall, Hp. cbn [seq flat_map]. rewrite app_nil_r. lia.
Qed.

Lemma paginate_until_error (p : params) (acc : list api_article) (e : exn) :
  pages_until_error p acc e ->
  exists fuel, paginate fuel p acc = Some (Raise e).
Proof.
  induction 1 as [p acc e Hfail | p acc data e Hget Hst Hs _ [fuel IH]].
  - exists 1%nat. cbn [paginate].
    destruct Hfail as [-> | (data & -> & Hst & ->)]; [reflexivity|].
    destruct (status data) as [st|]; [|reflexivity].
    destruct (String.eqb_spec st "ok") as [-> | Hne]; [congruence | reflexivity].
  - exists (S fuel).
    destruct (paginate_step fuel p acc data Hget Hst) as [[Hs' _] | (_ & _ & E)];
      [contradiction | now rewrite E].
Qed.

Lemma paginate_error_sound (fuel : nat) :
  forall p acc e, paginate fuel p acc = Some (Raise e) -> pages_until_error p acc e.
Proof.
  induction fuel as [|fuel IH]; intros p acc e H; [discriminate|].
  destruct (session_get p) as [data|e'] eqn:Hget.
  2:{ cbn [paginate] in H. rewrite Hget in H. injection H as <-.
      apply error_here. now left. }
  destruct (status data) as [st|] eqn:Hst.
  2:{ cbn [paginate] in H. rewrite Hget, Hst in H. injection H as <-.
      apply error_here. right. exists data. rewrite Hst. repeat split; congruence. }
  destruct (String.eqb_spec st "ok") as [->|Hne].
  2:{ cbn [paginate] in H. rewrite Hget, Hst in H.
      pose proof Hne as Hne'. apply String.eqb_neq in Hne'. rewrite Hne' in H.
      injection H as <-. apply error_here. right. exists data. rewrite Hst.
      repeat split; congruence. }
  destruct (paginate_step fuel p acc data Hget Hst) as [[Hs E] | (Hs & _ & E)];
    rewrite E in H; [discriminate|].
  eapply error_later; eauto.
Qed.

(** X18.  A request that fails ends the call with its exception, whatever was
    collected from the pages before it: nothing is returned and nothing is
    written. *)
Theorem failed_page_discards_everything (now : datetime) (days_back : Z)
  (sources : option (list string)) (save : bool) (p : params) (e : exn) :
  first_params now days_back sources = Ok p ->
  (pages_until_error p [] e <-> paginate 100 p [] = Some (Raise e))
  /\ (pages_until_error p [] e ->
      fetch_financial_news 100 now days_back sources save
      = Some (mk_run (Raise e) None)).
Proof.
  intros Hp.
  assert (Hfun : pages_until_error p [] e -> paginate 100 p [] = Some (Raise e)).
  { intros H. apply paginate_until_error in H as [fuel H].
    apply (paginate_more_fuel _ _ _ _ (Nat.max fuel 100)) in H; [|lia].
    assert (H100 := paginate_enough_fuel 100 p [] ltac:(lia) ltac:(cbn; lia)).
    destruct (paginate 100 p []) as [r|] eqn:E; [|congruence].
    rewrite (paginate_more_fuel 100 p [] r (Nat.max fuel 100) E ltac:(lia)) in H.
    exact H. }
  split; [split; [exact Hfun | apply paginate_error_sound]|].
  intros H. unfold fetch_financial_news. rewrite Hp, (Hfun H). reflexivity.
Qed.

End Pages.

(** ** Closed instances *)

Lemma request_window_witness :
  exists start_date p,
    first_params Fixture.now0 7 None = Ok p
    /\ valid start_date = true
    /\ toordinal start_date = toordinal Fixture.now0 - 7
    /\ from p = strftime_date start_date /\ to p = strftime_date Fixture.now0
    /\ sources p = query_sources None
    /\ page p = 1 /\ pageSize p = 100
    /\ (1000 <= year start_date -> 1000 <= year Fixture.now0 ->
        String.leb (from p) (to p) = true).
Proof.
  exact (request_window (API := Fixture.empty_api) Fixture.now0 7 None eq_refl).
Defined.

(** The window of the default call, seven days back from 15 June 2024. *)
Example window_of_a_week :
  option_map (fun p => (from p, to p))
    (match first_params Fixture.now0 7 None with Ok p => Some p | Raise _ => None end)
  = Some ("2024-06-08", "2024-06-15").
Proof. vm_compute. reflexivity. Qed.

(** 400000 days back from 15 June 2024 is 17 April 929: the year is
    written with three digits, and the two dates are no longer in order as
    texts. *)
Example window_of_a_millennium :
  option_map (fun p => (from p, to p, String.leb (from p) (to p)))
    (match first_params Fixture.now0 400000 None with
     | Ok p => Some p
     | Raise _ => None
     end)
  = Some ("929-04-17", "2024-06-15", false).
Proof. vm_compute. reflexivity. Qed.

Lemma collected_is_the_pages_in_order_witness :
  exists k,
    (k < 100)%nat
    /\ with_page Fixture.first_request 2 = nth_page Fixture.first_request k
    /\ List.seq 0 120
       = flat_map (fun i => served (API := Fixture.pages_of_sixty)
                              (nth_page Fixture.first_request i))
           (seq 0 (S k))
    /\ (List.length (List.seq 0 120)
        < 100 + List.length (served (API := Fixture.pages_of_sixty)
                               (with_page Fixture.first_request 2)))%nat.
Proof.
  apply (collected_is_the_pages_in_order (API := Fixture.pages_of_sixty)
           Fixture.first_request (with_page Fixture.first_request 2)
           (List.seq 0 120)).
  vm_compute. reflexivity.
Defined.

Lemma failed_page_discards_everything_witness :
  fetch_financial_news (API := Fixture.second_page_fails) 100 Fixture.now0 7
    (Some ["reuters"]) true
  = Some (mk_run (Raise RequestException) None).
Proof.
  apply (proj2 (failed_page_discards_everything (API := Fixture.second_page_fails)
                  Fixture.now0 7 (Some ["reuters"]) true Fixture.first_request
                  RequestException ltac:(vm_compute; reflexivity))).
  apply (error_later (API := Fixture.second_page_fails) Fixture.first_request []
           (mk_response (Some "ok") (Some (List.seq 0 60)) (Some 250))).
  - vm_compute. reflexivity.
  - reflexivity.
  - intros [H | [H | H]]; vm_compute in H; first [discriminate H | exact (H eq_refl)].
  - apply error_here. left. vm_compute. reflexivity.
Defined.

End NewsAPIProofs.
